(** * cli-crypto-price: the price race and its provider adapters

    The repository holds two versions of one Go program.  [src/main.go]
    races three adapters over a buffered channel and returns the first
    positive quote; the second file (kept here as module [Part000]) adds a
    request context, a status check, a ten second timer and a generic
    adapter.  Both are embedded below: the adapters as functions from the
    outcome of the HTTP call to the effects of the goroutine (channel sends
    and [wg.Done]), the orchestrators as transition systems over the
    goroutines, the channel and the wait group.

    Part I holds the definitions, Part II the lemmas. *)

From Stdlib Require Import ZArith String Ascii List Bool Lia.
From Stdlib Require Import Floats Numbers.Cyclic.Int63.Uint63.
From stdpp Require Import gmap strings list.

Local Open Scope string_scope.
Local Open Scope Z_scope.

(* ===================================================================== *)
(** * Part I: definitions *)
(* ===================================================================== *)

(** ** Providers and the three endpoint templates *)

Inductive Provider := CoinGecko | CoinMarketCap | CryptoCompare.

#[global] Instance Provider_eq_dec : EqDecision Provider.
Proof. solve_decision. Defined.

Definition providerName (p : Provider) : string :=
  match p with
  | CoinGecko => "CoinGecko"
  | CoinMarketCap => "CoinMarketCap"
  | CryptoCompare => "CryptoCompare"
  end.

(** A template with one [%s] verb is kept as the text before and after it;
    [Sprintf1] is [fmt.Sprintf(template, arg)] for a string argument. *)
Definition template : Type := string * string.

Definition Sprintf1 (t : template) (arg : string) : string :=
  fst t ++ arg ++ snd t.

Definition coingeckoAPI : template :=
  ("https://api.coingecko.com/api/v3/simple/price?ids=", "&vs_currencies=usd").
Definition coinmarketcapAPI : template :=
  ("https://api.coinmarketcap.com/v1/ticker/", "/").
Definition cryptocompareAPI : template :=
  ("https://min-api.cryptocompare.com/data/price?fsym=", "&tsyms=USD").

Definition apiOf (p : Provider) : template :=
  match p with
  | CoinGecko => coingeckoAPI
  | CoinMarketCap => coinmarketcapAPI
  | CryptoCompare => cryptocompareAPI
  end.

(** One slot per provider: the three goroutines of a race. *)
Record triple (A : Type) := Triple { onCG : A; onCMC : A; onCC : A }.
Arguments Triple {A} _ _ _.
Arguments onCG {A} _.
Arguments onCMC {A} _.
Arguments onCC {A} _.

Definition tget {A} (p : Provider) (t : triple A) : A :=
  match p with
  | CoinGecko => onCG t
  | CoinMarketCap => onCMC t
  | CryptoCompare => onCC t
  end.

Definition tset {A} (p : Provider) (x : A) (t : triple A) : triple A :=
  match p with
  | CoinGecko => Triple x (onCMC t) (onCC t)
  | CoinMarketCap => Triple (onCG t) x (onCC t)
  | CryptoCompare => Triple (onCG t) (onCMC t) x
  end.

Definition tinit {A} (f : Provider -> A) : triple A :=
  Triple (f CoinGecko) (f CoinMarketCap) (f CryptoCompare).

(** ** JSON documents and [encoding/json]

    A response body that is syntactically JSON is kept as its document
    tree; a number carries the float64 its literal denotes.  A body that
    cannot be read or is not JSON is [None].  A number literal outside the
    range of float64 denotes no float64: where [encoding/json] stores one
    it reports an error, as for a value of the wrong kind, and such a body
    is kept with a value of another kind in that place. *)

#[local] Unset Elimination Schemes.
Inductive json :=
| JNull
| JBool (b : bool)
| JNum (f : float)
| JStr (s : string)
| JArr (items : list json)
| JObj (members : list (string * json)).
#[local] Set Elimination Schemes.

Definition body : Type := option json.

Definition byteOf (c : ascii) : N := N_of_ascii c.

Definition upperASCII (c : ascii) : ascii :=
  if ((97 <=? byteOf c) && (byteOf c <=? 122))%N
  then ascii_of_N (byteOf c - 32) else c.

(** [foldName]: the case folding under which [encoding/json] matches an
    object key with a struct field.  ASCII letters are upper-cased; the two
    non-ASCII runes whose fold is an ASCII letter are U+017F (bytes C5 BF,
    folds to S) and U+212A (bytes E2 84 AA, folds to K). *)
Fixpoint foldName (s : string) : string :=
  match s with
  | EmptyString => EmptyString
  | String c r =>
      match r with
      | String d r' =>
          if ((byteOf c =? 197) && (byteOf d =? 191))%N
          then String "S" (foldName r')
          else
            match r' with
            | String e r'' =>
                if ((byteOf c =? 226) && (byteOf d =? 132) && (byteOf e =? 170))%N
                then String "K" (foldName r'')
                else String (upperASCII c) (foldName r)
            | EmptyString => String (upperASCII c) (foldName r)
            end
      | EmptyString => String (upperASCII c) EmptyString
      end
  end.

(** A key selects the field tagged [name] when it equals the tag or folds
    to the same name. *)
Definition fieldMatch (name key : string) : bool :=
  String.eqb key name || String.eqb (foldName key) (foldName name).

(** A JSON value stored into a [float64] / [string] variable that holds
    [cur]: [null] leaves it alone, a value of the wrong kind is an
    [UnmarshalTypeError] ([None]). *)
Definition decodeFloat64 (cur : float) (v : json) : option float :=
  match v with
  | JNull => Some cur
  | JNum f => Some f
  | _ => None
  end.

Definition decodeString (cur : string) (v : json) : option string :=
  match v with
  | JNull => Some cur
  | JStr s => Some s
  | _ => None
  end.

(** The members of an object are stored in order into a struct with the
    single field tagged [name]; keys that match no field are skipped; a
    repeated key overwrites. *)
Fixpoint decodeMembers {A} (dec : A -> json -> option A) (name : string)
    (members : list (string * json)) (cur : A) : option A :=
  match members with
  | [] => Some cur
  | (k, v) :: rest =>
      if fieldMatch name k
      then match dec cur v with
           | Some x => decodeMembers dec name rest x
           | None => None
           end
      else decodeMembers dec name rest cur
  end.

Definition decodeStruct {A} (dec : A -> json -> option A) (name : string)
    (cur : A) (v : json) : option A :=
  match v with
  | JNull => Some cur
  | JObj members => decodeMembers dec name members cur
  | _ => None
  end.

(** The three response types (the same in both files).  The field [USD]
    of [CryptoPrice] is [cpUSD] here and that of [CryptoCompareResponse] is
    [ccUSD]. *)
Record CryptoPrice := { cpUSD : float }.                 (* `json:"usd"` *)
Record CoinMarketCapResponse := { PriceUSD : string }.   (* `json:"price_usd"` *)
Record CryptoCompareResponse := { ccUSD : float }.       (* `json:"USD"` *)

Definition decodeCryptoPrice (v : json) : option CryptoPrice :=
  match decodeStruct decodeFloat64 "usd" 0%float v with
  | Some f => Some {| cpUSD := f |}
  | None => None
  end.

Definition decodeCoinMarketCapResponse (v : json) : option CoinMarketCapResponse :=
  match decodeStruct decodeString "price_usd" "" v with
  | Some s => Some {| PriceUSD := s |}
  | None => None
  end.

Definition decodeCryptoCompareResponse (v : json) : option CryptoCompareResponse :=
  match decodeStruct decodeFloat64 "USD" 0%float v with
  | Some f => Some {| ccUSD := f |}
  | None => None
  end.

(** [var result map[string]CryptoPrice; Decode(&result)]: every member
    is decoded into a fresh element and stored under its key. *)
Fixpoint decodeEntries (members : list (string * json))
    (m : gmap string CryptoPrice) : option (gmap string CryptoPrice) :=
  match members with
  | [] => Some m
  | (k, v) :: rest =>
      match decodeCryptoPrice v with
      | Some e => decodeEntries rest (<[k := e]> m)
      | None => None
      end
  end.

Definition unmarshalPriceMap (data : body) : option (gmap string CryptoPrice) :=
  match data with
  | Some JNull => Some ∅
  | Some (JObj members) => decodeEntries members ∅
  | _ => None
  end.

(** [var result []CoinMarketCapResponse; Decode(&result)]. *)
Fixpoint decodeItems (items : list json) : option (list CoinMarketCapResponse) :=
  match items with
  | [] => Some []
  | v :: rest =>
      match decodeCoinMarketCapResponse v, decodeItems rest with
      | Some x, Some xs => Some (x :: xs)
      | _, _ => None
      end
  end.

Definition unmarshalTicker (data : body) : option (list CoinMarketCapResponse) :=
  match data with
  | Some JNull => Some []
  | Some (JArr items) => decodeItems items
  | _ => None
  end.

(** [var result CryptoCompareResponse; Decode(&result)]. *)
Definition unmarshalCryptoCompare (data : body) : option CryptoCompareResponse :=
  match data with
  | Some v => decodeCryptoCompareResponse v
  | None => None
  end.

(** ** [fmt.Sscanf(s, "%f", &price)]

    The scanner reads runes: leading space is skipped, the longest float
    token is collected, and the token is converted.  Input after the token
    is never looked at. *)

(** Width in bytes of a leading space rune other than newline, 0 when the
    text does not start with one (fmt's [isSpace] table under UTF-8). *)
Definition spaceWidth (s : string) : nat :=
  match s with
  | EmptyString => 0%nat
  | String c r =>
      let b := byteOf c in
      if (((9 <=? b) && (b <=? 13) && negb (b =? 10)) || (b =? 32))%N then 1%nat
      else
        match r with
        | EmptyString => 0%nat
        | String d r' =>
            let b2 := byteOf d in
            if ((b =? 194) && ((b2 =? 133) || (b2 =? 160)))%N then 2%nat
            else
              match r' with
              | EmptyString => 0%nat
              | String e _ =>
                  let b3 := byteOf e in
                  if ((b =? 225) && (b2 =? 154) && (b3 =? 128))%N then 3%nat
                  else if ((b =? 226) && (b2 =? 128)
                           && (((128 <=? b3) && (b3 <=? 138))
                               || (b3 =? 168) || (b3 =? 169) || (b3 =? 175)))%N then 3%nat
                  else if ((b =? 226) && (b2 =? 129) && (b3 =? 159))%N then 3%nat
                  else if ((b =? 227) && (b2 =? 128) && (b3 =? 128))%N then 3%nat
                  else 0%nat
              end
        end
  end.

Fixpoint dropBytes (n : nat) (s : string) : string :=
  match n, s with
  | S k, String _ r => dropBytes k r
  | _, _ => s
  end.

(** [ss.SkipSpace] with [nlIsSpace] unset, as [Sscanf] runs it: spaces
    are dropped, a newline is the error "unexpected newline" ([None]).
    [fuel] bounds the number of runes looked at. *)
Fixpoint SkipSpaceN (fuel : nat) (s : string) : option string :=
  match fuel with
  | O => Some s
  | S k =>
      match s with
      | EmptyString => Some s
      | String c _ =>
          if (byteOf c =? 10)%N then None
          else match spaceWidth s with
               | O => Some s
               | w => SkipSpaceN k (dropBytes w s)
               end
      end
  end.

Definition SkipSpace (s : string) : option string :=
  SkipSpaceN (S (String.length s)) s.

Definition inSet (c : ascii) (set : string) : bool :=
  existsb (Ascii.eqb c) (list_ascii_of_string set).

(** [s.accept(set)]: take one rune if it is in [set]; the taken text and
    the rest. *)
Definition accept (set : string) (s : string) : string * string :=
  match s with
  | String c r => if inSet c set then (String c EmptyString, r) else (EmptyString, s)
  | EmptyString => (EmptyString, s)
  end.

(** [for s.accept(set) {}] *)
Fixpoint acceptMany (set : string) (s : string) : string * string :=
  match s with
  | String c r =>
      if inSet c set
      then let '(tok, rest) := acceptMany set r in (String c tok, rest)
      else (EmptyString, s)
  | EmptyString => (EmptyString, s)
  end.

Definition taken (t : string * string) : bool :=
  negb (String.eqb (fst t) EmptyString).

Definition sign := "+-".
Definition period := ".".
Definition exponent := "eEpP".
Definition decimalDigits := "0123456789".
Definition hexadecimalDigits := "0123456789aAbBcCdDeEfF".

(** [ss.floatToken]: the token and the unread rest of the input. *)
Definition floatToken (s : string) : string * string :=
  (* NaN? *)
  let a1 := accept "nN" s in
  let a2 := if taken a1 then accept "aA" (snd a1) else (EmptyString, snd a1) in
  let a3 := if taken a2 then accept "nN" (snd a2) else (EmptyString, snd a2) in
  let buf0 := fst a1 ++ fst a2 ++ fst a3 in
  if taken a3 then (buf0, snd a3)
  else
    (* leading sign? *)
    let sg := accept sign (snd a3) in
    let buf1 := buf0 ++ fst sg in
    (* Inf? *)
    let i1 := accept "iI" (snd sg) in
    let i2 := if taken i1 then accept "nN" (snd i1) else (EmptyString, snd i1) in
    let i3 := if taken i2 then accept "fF" (snd i2) else (EmptyString, snd i2) in
    let buf2 := buf1 ++ fst i1 ++ fst i2 ++ fst i3 in
    if taken i3 then (buf2, snd i3)
    else
      let z := accept "0" (snd i3) in
      let x := if taken z then accept "xX" (snd z) else (EmptyString, snd z) in
      let digits := (if taken x then hexadecimalDigits else decimalDigits) ++ "_" in
      let exp := if taken x then "pP" else exponent in
      let buf3 := buf2 ++ fst z ++ fst x in
      (* digits? *)
      let d1 := acceptMany digits (snd x) in
      (* decimal point? fraction? *)
      let pt := accept period (snd d1) in
      let d2 := if taken pt then acceptMany digits (snd pt) else (EmptyString, snd pt) in
      let buf4 := buf3 ++ fst d1 ++ fst pt ++ fst d2 in
      (* exponent? leading sign? digits? *)
      let e := accept exp (snd d2) in
      let es := if taken e then accept sign (snd e) else (EmptyString, snd e) in
      let ed := if taken e then acceptMany (decimalDigits ++ "_") (snd es)
                else (EmptyString, snd es) in
      (buf4 ++ fst e ++ fst es ++ fst ed, snd ed).

Section Scan.
(** [ss.convertFloat(token, 64)]: the float64 nearest to the number the
    token spells ([strconv.ParseFloat], and scaling by a power of two for
    a [p] exponent), [None] where it raises a scan error.  The conversion
    is library code and is taken as a parameter. *)
Variable convertFloat : string -> option float.

(** The value stored through [&price], [None] when [Sscanf] fails and
    leaves [price] as it was. *)
Definition Sscanf_f (s : string) : option float :=
  match SkipSpace s with
  | None => None
  | Some EmptyString => None              (* notEOF: unexpected EOF *)
  | Some s' => convertFloat (fst (floatToken s'))
  end.

(** [var price float64; fmt.Sscanf(text, "%f", &price)]: the error is
    dropped, [price] keeps its zero value when nothing was stored. *)
Definition scanPrice (text : string) : float :=
  match Sscanf_f text with
  | Some f => f
  | None => 0%float
  end.
End Scan.

(** A conversion for the plain decimal tokens [digits], [digits.digits]
    with an optional sign, used to run the adapters on concrete bodies.  It
    covers the case [strconv.ParseFloat] converts exactly (mantissa below
    2^52 and at most 18 fraction digits: one float division of two exactly
    represented integers) and rejects every other token. *)
Definition digitVal (c : ascii) : option Z :=
  let b := byteOf c in
  if ((48 <=? b) && (b <=? 57))%N then Some (Z.of_N (b - 48)) else None.

Fixpoint readDigits (s : string) (acc : Z) (n : nat) : Z * nat * string :=
  match s with
  | String c r =>
      match digitVal c with
      | Some d => readDigits r (10 * acc + d) (S n)
      | None => (acc, n, s)
      end
  | EmptyString => (acc, n, s)
  end.

Definition floatOfZ (m : Z) : float := PrimFloat.of_uint63 (Uint63.of_Z m).

Definition decimalFloat (tok : string) : option float :=
  let '(neg, s1) :=
    match tok with
    | String "-" r => (true, r)
    | String "+" r => (false, r)
    | _ => (false, tok)
    end in
  let '(ip, ni, s2) := readDigits s1 0 0 in
  let '(m, nf, s3) :=
    match s2 with
    | String "." r => let '(m, n, s3) := readDigits r ip 0 in (m, n, s3)
    | _ => (ip, 0%nat, s2)
    end in
  if negb (String.eqb s3 EmptyString) then None
  else if (ni + nf =? 0)%nat then None
  else if negb (Z.ltb m (2 ^ 52)%Z) then None
  else if negb (nf <=? 18)%nat then None
  else
    let f := PrimFloat.div (floatOfZ m) (floatOfZ (10 ^ Z.of_nat nf)) in
    Some (if neg then PrimFloat.opp f else f).

(** ** The HTTP call, goroutine effects *)

(** What one GET comes back with. *)
Inductive httpResult :=
| RequestError                          (* the request could not be built *)
| TransportError                        (* no response: DNS, connection, cancelled context *)
| Response (status : Z) (data : body).

(** What an adapter goroutine does to the state it shares with the
    orchestrator: [ch <- r] and the deferred [wg.Done()]. *)
Inductive effect (R : Type) :=
| ESend (r : R)
| EDone.
Arguments ESend {R} r.
Arguments EDone {R}.

Definition StatusOK : Z := 200.

(** Capacity of the result channel, [make(chan PriceResult, 3)]. *)
Definition capacity : nat := 3.

(** [10 * time.Second], in nanoseconds. *)
Definition timeout : Z := 10 * 1000000000.

(* --------------------------------------------------------------------- *)
(** ** src/main.go *)
(* --------------------------------------------------------------------- *)
Module MainGo.

Record PriceResult := mkResult { Price : float; Source : string; Duration : Z }.

(** [result.Price > 0] *)
Definition candidate (r : PriceResult) : bool := PrimFloat.ltb 0 (Price r).

(** [PriceResult{0, "None", 0}] *)
Definition noResult : PriceResult := mkResult 0 "None" 0.

(** The network as the adapters see it: the outcome of the GET for each
    URL, and the time each adapter measures around its call. *)
Record world := World { get : string -> httpResult; elapsed : Provider -> Z }.

Section Adapters.
Variable convertFloat : string -> option float.
Variable crypto : string.
Variable w : world.

Definition fetchCryptoPriceFromCoingecko : list (effect PriceResult) :=
  let url := Sprintf1 coingeckoAPI crypto in
  let duration := elapsed w CoinGecko in
  match get w url with
  | Response _ data =>
      match unmarshalPriceMap data with
      | None => [ESend (mkResult 0 "CoinGecko" duration)]
      | Some result =>
          match result !! crypto with
          | Some price => [ESend (mkResult (cpUSD price) "CoinGecko" duration)]
          | None => [ESend (mkResult 0 "CoinGecko" duration)]
          end
      end
  | _ => [ESend (mkResult 0 "CoinGecko" duration)]
  end ++ [EDone].

Definition fetchCryptoPriceFromCoinMarketCap : list (effect PriceResult) :=
  let url := Sprintf1 coinmarketcapAPI crypto in
  let duration := elapsed w CoinMarketCap in
  match get w url with
  | Response _ data =>
      match unmarshalTicker data with
      | None => [ESend (mkResult 0 "CoinMarketCap" duration)]
      | Some result =>
          match result with
          | first :: _ =>
              let price := scanPrice convertFloat (PriceUSD first) in
              [ESend (mkResult price "CoinMarketCap" duration)]
          | [] => [ESend (mkResult 0 "CoinMarketCap" duration)]
          end
      end
  | _ => [ESend (mkResult 0 "CoinMarketCap" duration)]
  end ++ [EDone].

Definition fetchCryptoPriceFromCryptoCompare : list (effect PriceResult) :=
  let url := Sprintf1 cryptocompareAPI crypto in
  let duration := elapsed w CryptoCompare in
  match get w url with
  | Response _ data =>
      match unmarshalCryptoCompare data with
      | None => [ESend (mkResult 0 "CryptoCompare" duration)]
      | Some result => [ESend (mkResult (ccUSD result) "CryptoCompare" duration)]
      end
  | _ => [ESend (mkResult 0 "CryptoCompare" duration)]
  end ++ [EDone].

(** The goroutine started for each provider. *)
Definition adapter (p : Provider) : list (effect PriceResult) :=
  match p with
  | CoinGecko => fetchCryptoPriceFromCoingecko
  | CoinMarketCap => fetchCryptoPriceFromCoinMarketCap
  | CryptoCompare => fetchCryptoPriceFromCryptoCompare
  end.
End Adapters.

(** *** fetchCryptoPriceConcurrently

    The state of one race: the clock (nanoseconds since the race began),
    what is left of each adapter goroutine, the channel (buffer and
    closed flag), the wait group counter and the loop of the caller.
    [sent] is the history of the channel, every value sent so far, oldest
    first; no step reads it. *)
Inductive mainState :=
| Ranging                       (* in [for result := range ch] *)
| Returned (r : PriceResult).

Record state := State {
  now : Z;
  adapters : triple (list (effect PriceResult));
  buf : list PriceResult;
  closed : bool;
  wg : Z;
  main : mainState;
  panicked : bool;
  sent : list PriceResult
}.

(** After [wg.Add(3)] and the four [go] statements. *)
Definition init (prog : Provider -> list (effect PriceResult)) : state :=
  State 0 (tinit prog) [] false 3 Ranging false [].

Inductive action :=
| Tick (d : Z)           (* time passes *)
| Run (p : Provider)     (* adapter p performs its next effect *)
| Close                  (* [wg.Wait()] returns and [close(ch)] runs *)
| Recv.                  (* one iteration of the range loop *)

(** One step; [None] when the action cannot run (the goroutine is blocked
    or finished).  A panic ends the program. *)
Definition step (a : action) (s : state) : option state :=
  if panicked s then None else
  match a with
  | Tick d =>
      if 0 <=? d
      then Some (State (now s + d) (adapters s) (buf s) (closed s) (wg s)
                       (main s) false (sent s))
      else None
  | Run p =>
      match tget p (adapters s) with
      | [] => None
      | ESend r :: k =>
          if closed s                                  (* send on closed channel *)
          then Some (State (now s) (adapters s) (buf s) true (wg s) (main s) true (sent s))
          else if (length (buf s) <? capacity)%nat
          then Some (State (now s) (tset p k (adapters s)) (buf s ++ [r]) false (wg s)
                           (main s) false (sent s ++ [r]))
          else None                                    (* buffer full: blocked *)
      | EDone :: k =>
          if wg s <=? 0                                (* negative WaitGroup counter *)
          then Some (State (now s) (adapters s) (buf s) (closed s) (wg s) (main s) true (sent s))
          else Some (State (now s) (tset p k (adapters s)) (buf s) (closed s) (wg s - 1)
                           (main s) false (sent s))
      end
  | Close =>
      if closed s then None
      else if wg s =? 0
      then Some (State (now s) (adapters s) (buf s) true (wg s) (main s) false (sent s))
      else None
  | Recv =>
      match main s with
      | Returned _ => None
      | Ranging =>
          match buf s with
          | result :: rest =>
              Some (State (now s) (adapters s) rest (closed s) (wg s)
                          (if candidate result then Returned result else Ranging)
                          false (sent s))
          | [] =>
              if closed s
              then Some (State (now s) (adapters s) [] true (wg s) (Returned noResult)
                               false (sent s))
              else None
          end
      end
  end.

Fixpoint exec (acts : list action) (s : state) : option state :=
  match acts with
  | [] => Some s
  | a :: rest =>
      match step a s with
      | Some s' => exec rest s'
      | None => None
      end
  end.

Definition reachable (prog : Provider -> list (effect PriceResult)) (s : state) : Prop :=
  exists acts, exec acts (init prog) = Some s.

Definition finished (s : state) : Prop := forall p, tget p (adapters s) = [].

(** The race of the program itself. *)
Definition race (convertFloat : string -> option float) (crypto : string) (w : world) : state :=
  init (adapter convertFloat crypto w).

(** What the range loop makes of a channel history. *)
Definition firstCandidate (l : list PriceResult) : PriceResult :=
  match List.find candidate l with
  | Some r => r
  | None => noResult
  end.

(** *** rootCmd.Run

    What the command writes to standard output: a line of fixed text, or
    the format and the arguments of the [fmt.Printf] call (the formatting
    of the price and of the duration is left to [fmt]). *)
Inductive output :=
| Println (text : string)
| Printf (format : string) (crypto : string) (price : float) (source : string)
         (duration : Z).

(** [fetch] is the result the call of [fetchCryptoPriceConcurrently]
    returns in this run of the command. *)
Definition rootCmdRun (fetch : string -> PriceResult) (args : list string) : list output :=
  match args with
  | [] => [Println "Please specify a cryptocurrency (e.g., bitcoin, ethereum)"]
  | crypto :: _ =>
      let result := fetch crypto in
      if candidate result
      then [Printf "The current price of %s is $%.2f (Source: %s, Duration: %s)\n"
                   crypto (Price result) (Source result) (Duration result)]
      else [Println "Failed to fetch the price"]
  end.

(** A race of [prog] can return [r]. *)
Definition returns (prog : Provider -> list (effect PriceResult)) (r : PriceResult) : Prop :=
  exists s, reachable prog s /\ main s = Returned r.

End MainGo.

(* --------------------------------------------------------------------- *)
(** ** The second file: context, status check, timer *)
(* --------------------------------------------------------------------- *)
Module Part000.

Record PriceResult := mkResult { Price : float; Source : string }.

(** [priceResult.Price > 0] *)
Definition candidate (r : PriceResult) : bool := PrimFloat.ltb 0 (Price r).

(** The zero value of [var result PriceResult]. *)
Definition zeroResult : PriceResult := mkResult 0 "".

(** The values this program hands to [json.Marshal]. *)
Inductive goValue :=
| GoNil
| GoBool (b : bool)
| GoString (s : string)
| GoFunc.                 (* a func or method value *)

(** [json.Marshal]: a func value cannot be encoded, the call returns an
    [UnsupportedTypeError] ([None]). *)
Definition json_Marshal (v : goValue) : body :=
  match v with
  | GoNil => Some JNull
  | GoBool b => Some (JBool b)
  | GoString s => Some (JStr s)
  | GoFunc => None
  end.

(** [fetchCryptoPrice] once the request has come back with [outcome]
    ([RequestError]: [http.NewRequestWithContext] failed; [TransportError]:
    [http.DefaultClient.Do] failed).  [parseFunc] returns the price and
    whether its error is non-nil. *)
Definition fetchCryptoPrice (outcome : httpResult) (parseFunc : body -> float * bool)
    (source : string) : list (effect PriceResult) :=
  match outcome with
  | RequestError => [ESend (mkResult 0 source)]
  | TransportError => [ESend (mkResult 0 source)]
  | Response StatusCode _ =>
      if negb (StatusCode =? StatusOK) then [ESend (mkResult 0 source)]
      else
        (* body := json.NewDecoder(resp.Body).Decode, a method value *)
        let body := GoFunc in
        match json_Marshal body with
        | None => [ESend (mkResult 0 source)]
        | Some j =>
            let data := Some j in
            let '(price, err) := parseFunc data in
            if err then [ESend (mkResult 0 source)]
            else [ESend (mkResult price source)]
        end
  end ++ [EDone].

(** [for _, v := range result { return ... }]: the order in which a Go
    map is ranged over is not fixed; [pick] chooses the entry the loop
    meets first. *)
Definition rangeFirst {A} (pick : nat) (m : gmap string A) : option (string * A) :=
  let l := map_to_list m in
  l !! (pick mod length l)%nat.

Definition parseCoingecko (pick : nat) (data : body) : float * bool :=
  match unmarshalPriceMap data with
  | None => (0%float, true)
  | Some result =>
      match rangeFirst pick result with
      | Some (_, v) => (cpUSD v, false)
      | None => (0%float, true)            (* "invalid response" *)
      end
  end.

Definition parseCoinMarketCap (convertFloat : string -> option float) (data : body)
    : float * bool :=
  match unmarshalTicker data with
  | None => (0%float, true)
  | Some result =>
      match result with
      | first :: _ => (scanPrice convertFloat (PriceUSD first), false)
      | [] => (0%float, true)              (* "invalid response" *)
      end
  end.

Definition parseCryptoCompare (data : body) : float * bool :=
  match unmarshalCryptoCompare data with
  | None => (0%float, true)
  | Some result => (ccUSD result, false)
  end.

Record world := World { get : string -> httpResult; pick : nat }.

Section Adapters.
Variable convertFloat : string -> option float.
Variable crypto : string.
Variable w : world.

Definition parseOf (p : Provider) : body -> float * bool :=
  match p with
  | CoinGecko => parseCoingecko (pick w)
  | CoinMarketCap => parseCoinMarketCap convertFloat
  | CryptoCompare => parseCryptoCompare
  end.

(** How the request of adapter [p] ends: as the network answers, or,
    when the context is cancelled while the request is in flight, with
    the error of [Do]. *)
Definition outcome (p : Provider) (cancelled : bool) : httpResult :=
  let url := Sprintf1 (apiOf p) crypto in
  match get w url with
  | RequestError => RequestError
  | r => if cancelled then TransportError else r
  end.

(** The goroutine started for each provider
    ([go fetchCryptoPrice(ctx, fmt.Sprintf(api, crypto), parse, name, ch, &wg)]). *)
Definition adapter (p : Provider) (cancelled : bool) : list (effect PriceResult) :=
  fetchCryptoPrice (outcome p cancelled) (parseOf p) (providerName p).
End Adapters.

(** *** fetchCryptoPriceConcurrently *)

Inductive goroutine :=
| Pending                                   (* request in flight *)
| Running (k : list (effect PriceResult)).  (* request over, effects left *)

Inductive mainState :=
| Selecting                      (* at the [select] *)
| Waiting (result : PriceResult)   (* at [wg.Wait()] *)
| Draining (result : PriceResult)  (* in [for priceResult := range ch] *)
| Returned (result : PriceResult).

Record state := State {
  now : Z;
  adapters : triple goroutine;
  buf : list PriceResult;
  closed : bool;
  wg : Z;
  cancelled : bool;
  main : mainState;
  panicked : bool;
  sent : list PriceResult
}.

Definition init : state :=
  State 0 (Triple Pending Pending Pending) [] false 3 false Selecting false [].

Inductive action :=
| Tick (d : Z)            (* time passes *)
| Respond (p : Provider)  (* the request of p ends as the network answers *)
| CtxErr (p : Provider)   (* the request of p ends on the cancelled context *)
| Run (p : Provider)      (* adapter p performs its next effect *)
| SelectRecv              (* [case result = <-ch: cancel()] *)
| SelectTimeout           (* [case <-time.After(10 * time.Second): cancel()] *)
| WaitClose               (* [wg.Wait()] returns and [close(ch)] runs *)
| Drain.                  (* one iteration of the range loop, or its end *)

Section Step.
(** The effects of adapter [p] once its request is over; the flag tells
    whether it ended on the cancelled context. *)
Variable prog : Provider -> bool -> list (effect PriceResult).

Definition step (a : action) (s : state) : option state :=
  if panicked s then None else
  match a with
  | Tick d =>
      if 0 <=? d
      then Some (State (now s + d) (adapters s) (buf s) (closed s) (wg s) (cancelled s)
                       (main s) false (sent s))
      else None
  | Respond p =>
      match tget p (adapters s) with
      | Pending =>
          Some (State (now s) (tset p (Running (prog p false)) (adapters s)) (buf s)
                      (closed s) (wg s) (cancelled s) (main s) false (sent s))
      | Running _ => None
      end
  | CtxErr p =>
      match tget p (adapters s) with
      | Pending =>
          if cancelled s
          then Some (State (now s) (tset p (Running (prog p true)) (adapters s)) (buf s)
                           (closed s) (wg s) true (main s) false (sent s))
          else None
      | Running _ => None
      end
  | Run p =>
      match tget p (adapters s) with
      | Pending => None
      | Running [] => None
      | Running (ESend r :: k) =>
          if closed s                                  (* send on closed channel *)
          then Some (State (now s) (adapters s) (buf s) true (wg s) (cancelled s)
                           (main s) true (sent s))
          else if (length (buf s) <? capacity)%nat
          then Some (State (now s) (tset p (Running k) (adapters s)) (buf s ++ [r]) false
                           (wg s) (cancelled s) (main s) false (sent s ++ [r]))
          else None                                    (* buffer full: blocked *)
      | Running (EDone :: k) =>
          if wg s <=? 0                                (* negative WaitGroup counter *)
          then Some (State (now s) (adapters s) (buf s) (closed s) (wg s) (cancelled s)
                           (main s) true (sent s))
          else Some (State (now s) (tset p (Running k) (adapters s)) (buf s) (closed s)
                           (wg s - 1) (cancelled s) (main s) false (sent s))
      end
  | SelectRecv =>
      match main s, buf s with
      | Selecting, result :: rest =>
          Some (State (now s) (adapters s) rest (closed s) (wg s) true
                      (Waiting result) false (sent s))
      | _, _ => None
      end
  | SelectTimeout =>
      match main s with
      | Selecting =>
          if timeout <=? now s
          then Some (State (now s) (adapters s) (buf s) (closed s) (wg s) true
                           (Waiting zeroResult) false (sent s))
          else None
      | _ => None
      end
  | WaitClose =>
      match main s with
      | Waiting result =>
          if wg s =? 0
          then if closed s                             (* close of closed channel *)
               then Some (State (now s) (adapters s) (buf s) true (wg s) (cancelled s)
                                (main s) true (sent s))
               else Some (State (now s) (adapters s) (buf s) true (wg s) (cancelled s)
                                (Draining result) false (sent s))
          else None
      | _ => None
      end
  | Drain =>
      match main s with
      | Draining result =>
          match buf s with
          | priceResult :: rest =>
              Some (State (now s) (adapters s) rest (closed s) (wg s) (cancelled s)
                          (if candidate priceResult
                           then Returned priceResult
                           else Draining result)
                          false (sent s))
          | [] =>
              if closed s
              then Some (State (now s) (adapters s) [] true (wg s) (cancelled s)
                               (Returned result) false (sent s))
              else None
          end
      | _ => None
      end
  end.

Fixpoint exec (acts : list action) (s : state) : option state :=
  match acts with
  | [] => Some s
  | a :: rest =>
      match step a s with
      | Some s' => exec rest s'
      | None => None
      end
  end.

Definition reachable (s : state) : Prop :=
  exists acts, exec acts init = Some s.
End Step.

Definition finished (s : state) : Prop := forall p, tget p (adapters s) = Running [].

(** What the drain loop makes of [result] and the rest of the channel. *)
Definition laterCandidate (result : PriceResult) (l : list PriceResult) : PriceResult :=
  match List.find candidate l with
  | Some r => r
  | None => result
  end.

(** *** rootCmd.Run *)
Inductive output :=
| Println (text : string)
| Printf (format : string) (crypto : string) (price : float) (source : string).

(** [fetch] is the result the call of [fetchCryptoPriceConcurrently]
    returns in this run of the command. *)
Definition rootCmdRun (fetch : string -> PriceResult) (args : list string) : list output :=
  match args with
  | [] => [Println "Please specify a cryptocurrency (e.g., bitcoin, ethereum)"]
  | crypto :: _ =>
      let result := fetch crypto in
      if candidate result
      then [Printf "The current price of %s is $%.2f (Source: %s)\n"
                   crypto (Price result) (Source result)]
      else [Println "Failed to fetch the price"]
  end.

(** A race of [prog] can return [r]. *)
Definition returns (prog : Provider -> bool -> list (effect PriceResult))
    (r : PriceResult) : Prop :=
  exists s, reachable prog s /\ main s = Returned r.

End Part000.

(* --------------------------------------------------------------------- *)
(** ** Invariants of the two races *)
(* --------------------------------------------------------------------- *)

Local Open Scope list_scope.

(** An adapter keeps the contract of the orchestrator when its goroutine
    sends one quote and then calls [wg.Done]. *)
Definition mainContract (prog : Provider -> list (effect MainGo.PriceResult))
    (q : Provider -> MainGo.PriceResult) : Prop :=
  forall p, prog p = [ESend (q p); EDone].

Definition mainBusy (k : list (effect MainGo.PriceResult)) : Z :=
  match k with [] => 0 | _ => 1 end.

Definition mainUnsent (k : list (effect MainGo.PriceResult)) : nat :=
  match k with ESend _ :: _ => 1%nat | _ => 0%nat end.

Definition mainSlot (q : Provider -> MainGo.PriceResult) (p : Provider)
    (k : list (effect MainGo.PriceResult)) : Prop :=
  k = [ESend (q p); EDone] \/ k = [EDone] \/ k = [].

Definition mainNoCandidate (l : list MainGo.PriceResult) : Prop :=
  Forall (fun r => MainGo.candidate r = false) l.

(** The history of the channel is what the loop has taken followed by the
    buffer; what the loop holds follows from what it has taken. *)
Definition mainView (s : MainGo.state) : Prop :=
  exists consumed,
    MainGo.sent s = consumed ++ MainGo.buf s /\
    match MainGo.main s with
    | MainGo.Ranging => mainNoCandidate consumed
    | MainGo.Returned r =>
        (MainGo.candidate r = true /\
         exists pre, consumed = pre ++ [r] /\ mainNoCandidate pre)
        \/ (r = MainGo.noResult /\ MainGo.closed s = true /\ MainGo.buf s = [] /\
            mainNoCandidate consumed)
    end.

Record mainInv (q : Provider -> MainGo.PriceResult) (s : MainGo.state) : Prop := {
  mi_panic : MainGo.panicked s = false;
  mi_slot : forall p, mainSlot q p (tget p (MainGo.adapters s));
  mi_wg : MainGo.wg s =
          mainBusy (onCG (MainGo.adapters s)) + mainBusy (onCMC (MainGo.adapters s))
          + mainBusy (onCC (MainGo.adapters s));
  mi_closed : MainGo.closed s = true -> MainGo.finished s;
  mi_count : (length (MainGo.sent s) + mainUnsent (onCG (MainGo.adapters s))
              + mainUnsent (onCMC (MainGo.adapters s))
              + mainUnsent (onCC (MainGo.adapters s)) = 3)%nat;
  mi_from : Forall (fun r => exists p, r = q p) (MainGo.sent s);
  mi_view : mainView s
}.

(** The same for the second file: the effects of an adapter whose request
    ended as the network answered, and of one that ended on the cancelled
    context. *)
Definition p0Contract (prog : Provider -> bool -> list (effect Part000.PriceResult))
    (qn qa : Provider -> Part000.PriceResult) : Prop :=
  forall p, prog p false = [ESend (qn p); EDone] /\ prog p true = [ESend (qa p); EDone].

Definition p0Busy (g : Part000.goroutine) : Z :=
  match g with Part000.Running [] => 0 | _ => 1 end.

Definition p0Unsent (g : Part000.goroutine) : nat :=
  match g with
  | Part000.Pending => 1%nat
  | Part000.Running (ESend _ :: _) => 1%nat
  | _ => 0%nat
  end.

Definition p0Slot (qn qa : Provider -> Part000.PriceResult) (p : Provider)
    (g : Part000.goroutine) : Prop :=
  g = Part000.Pending \/ g = Part000.Running [ESend (qn p); EDone]
  \/ g = Part000.Running [ESend (qa p); EDone]
  \/ g = Part000.Running [EDone] \/ g = Part000.Running [].

Definition p0NoCandidate (l : list Part000.PriceResult) : Prop :=
  Forall (fun r => Part000.candidate r = false) l.

Definition p0View (s : Part000.state) : Prop :=
  match Part000.main s with
  | Part000.Selecting =>
      Part000.sent s = Part000.buf s /\ Part000.cancelled s = false /\
      Part000.closed s = false
  | Part000.Waiting res =>
      Part000.cancelled s = true /\ Part000.closed s = false /\
      ((res = Part000.zeroResult /\ Part000.sent s = Part000.buf s /\ timeout <= Part000.now s)
       \/ Part000.sent s = res :: Part000.buf s)
  | Part000.Draining res =>
      Part000.cancelled s = true /\ Part000.closed s = true /\
      exists consumed, p0NoCandidate consumed /\
        ((res = Part000.zeroResult /\ Part000.sent s = consumed ++ Part000.buf s /\
          timeout <= Part000.now s)
         \/ Part000.sent s = res :: consumed ++ Part000.buf s)
  | Part000.Returned r =>
      Part000.cancelled s = true /\ Part000.closed s = true /\
      ((timeout <= Part000.now s /\
        r = Part000.laterCandidate Part000.zeroResult (Part000.sent s))
       \/ exists first rest, Part000.sent s = first :: rest /\
                             r = Part000.laterCandidate first rest)
  end.

Record p0Inv (qn qa : Provider -> Part000.PriceResult) (s : Part000.state) : Prop := {
  pi_panic : Part000.panicked s = false;
  pi_slot : forall p, p0Slot qn qa p (tget p (Part000.adapters s));
  pi_wg : Part000.wg s =
          p0Busy (onCG (Part000.adapters s)) + p0Busy (onCMC (Part000.adapters s))
          + p0Busy (onCC (Part000.adapters s));
  pi_closed : Part000.closed s = true -> Part000.finished s;
  pi_count : (length (Part000.sent s) + p0Unsent (onCG (Part000.adapters s))
              + p0Unsent (onCMC (Part000.adapters s))
              + p0Unsent (onCC (Part000.adapters s)) = 3)%nat;
  pi_from : Forall (fun r => exists p, r = qn p \/ r = qa p) (Part000.sent s);
  pi_buf : exists got, Part000.sent s = got ++ Part000.buf s;
  pi_view : p0View s
}.

(** ** Measures of the work left in a race *)

Definition mainIsTick (a : MainGo.action) : bool :=
  match a with MainGo.Tick _ => true | _ => false end.

Definition mainMeasure (s : MainGo.state) : nat :=
  3 * (length (onCG (MainGo.adapters s)) + length (onCMC (MainGo.adapters s))
       + length (onCC (MainGo.adapters s)))
  + length (MainGo.buf s)
  + (if MainGo.closed s then 0 else 1)
  + match MainGo.main s with MainGo.Ranging => 1 | MainGo.Returned _ => 0 end.

(** Steps of the second file that wait for nothing outside the program:
    neither the clock nor an answer of the network. *)
Definition p0Internal (a : Part000.action) : bool :=
  match a with
  | Part000.Tick _ | Part000.Respond _ => false
  | _ => true
  end.

Definition p0Weight (g : Part000.goroutine) : nat :=
  match g with
  | Part000.Pending => 7
  | Part000.Running k => 3 * length k
  end.

Definition p0Measure (s : Part000.state) : nat :=
  p0Weight (onCG (Part000.adapters s)) + p0Weight (onCMC (Part000.adapters s))
  + p0Weight (onCC (Part000.adapters s))
  + length (Part000.buf s)
  + match Part000.main s with
    | Part000.Selecting => 3
    | Part000.Waiting _ => 2
    | Part000.Draining _ => 1
    | Part000.Returned _ => 0
    end.

Definition p0IsTick (a : Part000.action) : bool :=
  match a with Part000.Tick _ => true | _ => false end.

(** ** The adapters seen from the orchestrator *)

(** The quote an adapter of main.go sends. *)
Definition mainQuote (convertFloat : string -> option float) (crypto : string)
    (w : MainGo.world) (p : Provider) : MainGo.PriceResult :=
  match MainGo.adapter convertFloat crypto w p with
  | ESend r :: _ => r
  | _ => MainGo.noResult
  end.

(** The quote every adapter of the second file sends. *)
Definition p0Quote (p : Provider) : Part000.PriceResult :=
  Part000.mkResult 0 (providerName p).

Definition noField (name : string) (members : list (string * json)) : Prop :=
  Forall (fun kv => fieldMatch name (fst kv) = false) members.

(** The ways a request of main.go fails to give a price. *)
Inductive mainFailure (crypto : string) (w : MainGo.world) : Provider -> Prop :=
| failRequest p :
    MainGo.get w (Sprintf1 (apiOf p) crypto) = RequestError -> mainFailure crypto w p
| failTransport p :
    MainGo.get w (Sprintf1 (apiOf p) crypto) = TransportError -> mainFailure crypto w p
| failDecodeMap status data :
    MainGo.get w (Sprintf1 coingeckoAPI crypto) = Response status data ->
    unmarshalPriceMap data = None -> mainFailure crypto w CoinGecko
| failDecodeTicker status data :
    MainGo.get w (Sprintf1 coinmarketcapAPI crypto) = Response status data ->
    unmarshalTicker data = None -> mainFailure crypto w CoinMarketCap
| failDecodePrice status data :
    MainGo.get w (Sprintf1 cryptocompareAPI crypto) = Response status data ->
    unmarshalCryptoCompare data = None -> mainFailure crypto w CryptoCompare
| failMissingKey status data result :
    MainGo.get w (Sprintf1 coingeckoAPI crypto) = Response status data ->
    unmarshalPriceMap data = Some result -> result !! crypto = None ->
    mainFailure crypto w CoinGecko
| failMissingUsd status fields :
    MainGo.get w (Sprintf1 coingeckoAPI crypto)
      = Response status (Some (JObj [(crypto, JObj fields)])) ->
    noField "usd" fields -> mainFailure crypto w CoinGecko
| failEmptyTicker status data :
    MainGo.get w (Sprintf1 coinmarketcapAPI crypto) = Response status data ->
    unmarshalTicker data = Some [] -> mainFailure crypto w CoinMarketCap
| failMissingPriceUsd status fields rest :
    MainGo.get w (Sprintf1 coinmarketcapAPI crypto)
      = Response status (Some (JArr (JObj fields :: rest))) ->
    noField "price_usd" fields -> mainFailure crypto w CoinMarketCap
| failMissingUSD status fields :
    MainGo.get w (Sprintf1 cryptocompareAPI crypto) = Response status (Some (JObj fields)) ->
    noField "USD" fields -> mainFailure crypto w CryptoCompare.

(** The body of an answer, whatever its status. *)
Definition bodyOf (r : httpResult) : option body :=
  match r with
  | Response _ data => Some data
  | _ => None
  end.

(** The body of the first provider's example, [{"bitcoin": {"usd": 42000.5}}]. *)
Definition bitcoinBody : json :=
  JObj [("bitcoin", JObj [("usd", JNum 42000.5)])].

(** [{"ethereum": {"usd": 3000.5}}] *)
Definition ethereumBody : json :=
  JObj [("ethereum", JObj [("usd", JNum 3000.5)])].

Definition noKey (key : string) (members : list (string * json)) : Prop :=
  Forall (fun kv => fst kv <> key) members.

(** ** Shapes of a price text *)

Definition isDigit (c : ascii) : bool := inSet c decimalDigits.

Fixpoint allDigits (s : string) : bool :=
  match s with
  | EmptyString => true
  | String c r => isDigit c && allDigits r
  end.

(** A plain decimal: an optional sign, digits, and an optional point
    followed by digits, with at least one digit on one side of the point. *)
Definition wellFormedDecimal (s : string) : bool :=
  let s1 := match s with
            | String c r => if inSet c sign then r else s
            | EmptyString => s
            end in
  let '(ip, r1) := acceptMany decimalDigits s1 in
  match r1 with
  | EmptyString => negb (String.eqb ip EmptyString)
  | String c r2 =>
      if inSet c period
      then let '(fp, r3) := acceptMany decimalDigits r2 in
           String.eqb r3 EmptyString
           && negb (String.eqb ip EmptyString && String.eqb fp EmptyString)
      else false
  end.

(** Text at which a run of digits ends as a float token: the end of the
    input, or a rune that continues neither the digits nor the token. *)
Definition stops (rest : string) : bool :=
  match rest with
  | EmptyString => true
  | String c _ => negb (inSet c "0123456789_.eEpPxX")
  end.

(** Text from which [Sscanf] reads no token: it is empty, or it starts
    with a rune that is neither space nor newline and cannot begin a float
    token. *)
Definition noToken (s : string) : bool :=
  match s with
  | EmptyString => true
  | String c _ =>
      negb (byteOf c =? 10)%N && (spaceWidth s =? 0)%nat
      && negb (inSet c "nN+-iI0123456789_.eEpP")
  end.

(** ** Races used as examples *)

(** A network on which no request gets an answer. *)
Definition deadNet : string -> httpResult := fun _ => TransportError.

Definition mainDead : MainGo.world := MainGo.World deadNet (fun _ => 0).
Definition p0Dead : Part000.world := Part000.World deadNet 0%nat.

(** A network that answers every request with status 500 and the body
    [{"USD": 42000.5}]. *)
Definition errorNet : string -> httpResult :=
  fun _ => Response 500 (Some (JObj [("USD", JNum 42000.5)])).

Definition mainError : MainGo.world := MainGo.World errorNet (fun _ => 0).

(** A network whose ticker holds the price text ["12abc"]. *)
Definition tickerNet : string -> httpResult :=
  fun _ => Response 200 (Some (JArr [JObj [("price_usd", JStr "12abc")]])).

Definition mainTicker : MainGo.world := MainGo.World tickerNet (fun _ => 0).

(** Adapters that keep the contract and deliver the given prices. *)
Definition mainDeliver (price : Provider -> float) (p : Provider)
    : list (effect MainGo.PriceResult) :=
  [ESend (MainGo.mkResult (price p) (providerName p) 0); EDone].

Definition p0Deliver (price : Provider -> float) (p : Provider) (cancelled : bool)
    : list (effect Part000.PriceResult) :=
  [ESend (Part000.mkResult (price p) (providerName p)); EDone].

Definition twoCandidates (p : Provider) : float :=
  match p with
  | CoinGecko => 100%float
  | CoinMarketCap => 99999%float
  | CryptoCompare => 0%float
  end.

(** Schedules in which the adapters complete in the order CoinGecko,
    CoinMarketCap, CryptoCompare and the caller runs to its return. *)
Definition mainInOrder : list MainGo.action :=
  [MainGo.Run CoinGecko; MainGo.Run CoinMarketCap; MainGo.Run CryptoCompare;
   MainGo.Run CoinGecko; MainGo.Run CoinMarketCap; MainGo.Run CryptoCompare;
   MainGo.Close; MainGo.Recv; MainGo.Recv; MainGo.Recv; MainGo.Recv].

Definition p0InOrder : list Part000.action :=
  [Part000.Respond CoinGecko; Part000.Respond CoinMarketCap; Part000.Respond CryptoCompare;
   Part000.Run CoinGecko; Part000.Run CoinMarketCap; Part000.Run CryptoCompare;
   Part000.SelectRecv;
   Part000.Run CoinGecko; Part000.Run CoinMarketCap; Part000.Run CryptoCompare;
   Part000.WaitClose; Part000.Drain; Part000.Drain; Part000.Drain].

(** The first two adapters have sent before the caller reaches its
    [select]; the third answers after the cancellation. *)
Definition p0TwoEarly : list Part000.action :=
  [Part000.Respond CoinGecko; Part000.Run CoinGecko;
   Part000.Respond CoinMarketCap; Part000.Run CoinMarketCap;
   Part000.SelectRecv;
   Part000.Respond CryptoCompare; Part000.Run CryptoCompare;
   Part000.Run CoinGecko; Part000.Run CoinMarketCap; Part000.Run CryptoCompare;
   Part000.WaitClose; Part000.Drain].

Definition mainTwoEarly : list MainGo.action :=
  [MainGo.Run CoinGecko; MainGo.Run CoinMarketCap; MainGo.Recv].

(** The caller of the second file has taken a candidate in its [select]
    while two requests are still in flight. *)
Definition p0WinnerTaken : list Part000.action :=
  [Part000.Respond CoinGecko; Part000.Run CoinGecko; Part000.SelectRecv].

(** No request is answered; the timer fires, the requests end on the
    cancelled context and the caller returns the zero result. *)
Definition p0TimedOut : list Part000.action :=
  [Part000.Tick timeout; Part000.SelectTimeout;
   Part000.CtxErr CoinGecko; Part000.CtxErr CoinMarketCap; Part000.CtxErr CryptoCompare;
   Part000.Run CoinGecko; Part000.Run CoinMarketCap; Part000.Run CryptoCompare;
   Part000.Run CoinGecko; Part000.Run CoinMarketCap; Part000.Run CryptoCompare;
   Part000.WaitClose; Part000.Drain; Part000.Drain; Part000.Drain; Part000.Drain].

(** Outcomes of a request that the second file treats as failures before
    it looks at the body. *)
Definition notOK (r : httpResult) : Prop :=
  match r with
  | Response status _ => status <> StatusOK
  | _ => True
  end.

(** The ticker of the second provider's example, [[{"price_usd": "42000.50"}]]. *)
Definition tickerBody : json := JArr [JObj [("price_usd", JStr "42000.50")]].

(** A network that answers every request with status 200 and [bitcoinBody]. *)
Definition bitcoinNet : string -> httpResult := fun _ => Response 200 (Some bitcoinBody).

(** A network on which CoinGecko and CryptoCompare both answer with a
    price for bitcoin. *)
Definition goodNet : string -> httpResult :=
  fun url =>
    if String.eqb url (Sprintf1 cryptocompareAPI "bitcoin")
    then Response 200 (Some (JObj [("USD", JNum 41000.5)]))
    else Response 200 (Some bitcoinBody).

Definition mainGood : MainGo.world := MainGo.World goodNet (fun _ => 0).

(** CoinGecko completes, the caller returns its quote, and CryptoCompare
    completes afterwards. *)
Definition mainLateSecond : list MainGo.action :=
  [MainGo.Run CoinGecko; MainGo.Recv; MainGo.Run CryptoCompare].

(** ** The goroutines besides the caller *)

(** Steps of main.go that are not the caller's: an adapter or the closing
    goroutine moves. *)
Definition mainIsHelper (a : MainGo.action) : bool :=
  match a with
  | MainGo.Run _ | MainGo.Close => true
  | _ => false
  end.

(** The quote of every adapter that has sent is in the channel history. *)
Definition mainDelivered (q : Provider -> MainGo.PriceResult) (s : MainGo.state) : Prop :=
  forall p, tget p (MainGo.adapters s) <> [ESend (q p); EDone] -> In (q p) (MainGo.sent s).

(** The two providers besides [p]. *)
Definition others (p : Provider) : Provider * Provider :=
  match p with
  | CoinGecko => (CoinMarketCap, CryptoCompare)
  | CoinMarketCap => (CoinGecko, CryptoCompare)
  | CryptoCompare => (CoinGecko, CoinMarketCap)
  end.

(** The request of [p] is answered first and its quote is taken by the
    [select]; the other two requests end on the cancelled context. *)
Definition p0FirstThenCancel (p : Provider) : list Part000.action :=
  let '(p1, p2) := others p in
  [Part000.Respond p; Part000.Run p; Part000.SelectRecv;
   Part000.CtxErr p1; Part000.CtxErr p2;
   Part000.Run p1; Part000.Run p2;
   Part000.Run p; Part000.Run p1; Part000.Run p2;
   Part000.WaitClose; Part000.Drain; Part000.Drain; Part000.Drain].

(** Adapters of the second file whose request gives the price [price p]
    when the network answers and the price 0 when it ends on the cancelled
    context. *)
Definition p0DeliverOrCancel (price : Provider -> float) (p : Provider) (cancelled : bool)
    : list (effect Part000.PriceResult) :=
  [ESend (Part000.mkResult (if cancelled then 0%float else price p) (providerName p)); EDone].

(** CoinGecko has no price, the other two have one. *)
Definition lateCandidates (p : Provider) : float :=
  match p with
  | CoinGecko => 0%float
  | CoinMarketCap => 41000%float
  | CryptoCompare => 42000%float
  end.

(** CoinGecko and CoinMarketCap have sent; the caller receives twice. *)
Definition mainFirstFails : list MainGo.action :=
  [MainGo.Run CoinGecko; MainGo.Run CoinMarketCap; MainGo.Recv; MainGo.Recv].

(** CryptoCompare sends first, then CoinGecko, then the caller receives. *)
Definition mainThirdFirst : list MainGo.action :=
  [MainGo.Run CryptoCompare; MainGo.Run CoinGecko; MainGo.Recv].

(* ===================================================================== *)
(** * Part II: lemmas *)
(* ===================================================================== *)

(** ** Slots *)

Lemma tget_tset_same {A} (p : Provider) (x : A) (t : triple A) :
  tget p (tset p x t) = x.
Proof. destruct p; reflexivity. Qed.

Lemma tget_tset_other {A} (p p' : Provider) (x : A) (t : triple A) :
  p <> p' -> tget p' (tset p x t) = tget p' t.
Proof. destruct p, p'; intros H; try reflexivity; congruence. Qed.

Lemma tget_tinit {A} (f : Provider -> A) (p : Provider) : tget p (tinit f) = f p.
Proof. destruct p; reflexivity. Qed.

Lemma find_skip {A} (f : A -> bool) (pre l : list A) :
  Forall (fun r => f r = false) pre -> List.find f (pre ++ l) = List.find f l.
Proof.
  induction 1 as [|x pre Hx _ IH]; simpl; [reflexivity|].
  rewrite Hx. exact IH.
Qed.

Lemma find_none_of {A} (f : A -> bool) (l : list A) :
  Forall (fun r => f r = false) l -> List.find f l = None.
Proof.
  intros H. rewrite <- (app_nil_r l). rewrite find_skip by exact H. reflexivity.
Qed.

(** ** The race of main.go *)

Lemma main_exec_app acts1 acts2 s :
  MainGo.exec (acts1 ++ acts2) s =
  match MainGo.exec acts1 s with
  | Some s' => MainGo.exec acts2 s'
  | None => None
  end.
Proof.
  revert s. induction acts1 as [|a acts1 IH]; intros s; simpl; [reflexivity|].
  destruct (MainGo.step a s); [apply IH | reflexivity].
Qed.

(** Induction over the states a race reaches. *)
Lemma main_reachable_ind prog (P : MainGo.state -> Prop) :
  P (MainGo.init prog) ->
  (forall s a s', P s -> MainGo.step a s = Some s' -> P s') ->
  forall s, MainGo.reachable prog s -> P s.
Proof.
  intros Hinit Hstep s [acts Hacts].
  revert Hacts. generalize (MainGo.init prog), Hinit. clear Hinit.
  induction acts as [|a acts IH]; intros s0 H0; simpl.
  - intros [= <-]. exact H0.
  - destruct (MainGo.step a s0) as [s1|] eqn:E; [|discriminate].
    apply IH. eapply Hstep; eauto.
Qed.

Lemma main_reachable_step prog s a s' :
  MainGo.reachable prog s -> MainGo.step a s = Some s' -> MainGo.reachable prog s'.
Proof.
  intros [acts H] Hs. exists (acts ++ [a]).
  rewrite main_exec_app, H. simpl. rewrite Hs. reflexivity.
Qed.

Lemma mainInv_init prog q : mainContract prog q -> mainInv q (MainGo.init prog).
Proof.
  intros Hc. unfold MainGo.init.
  constructor; simpl.
  - reflexivity.
  - intros p. rewrite tget_tinit, Hc. left. reflexivity.
  - rewrite !Hc. reflexivity.
  - discriminate.
  - rewrite !Hc. reflexivity.
  - constructor.
  - exists []. split; [reflexivity|]. constructor.
Qed.
Lemma mainSlot_send q p r k :
  mainSlot q p (ESend r :: k) -> r = q p /\ k = [EDone].
Proof. intros [H|[H|H]]; inversion H; auto. Qed.

Lemma mainSlot_done q p k :
  mainSlot q p (EDone :: k) -> k = [].
Proof. intros [H|[H|H]]; inversion H; auto. Qed.

Lemma mainBusy_range k : 0 <= mainBusy k <= 1.
Proof. destruct k; simpl; lia. Qed.

Lemma mainBusy_zero k : mainBusy k = 0 -> k = [].
Proof. destruct k; simpl; [reflexivity | discriminate]. Qed.

Lemma mainInv_step q s a s' :
  mainInv q s -> MainGo.step a s = Some s' -> mainInv q s'.
Proof.
  intros [Hpanic Hslot Hwg Hclosed Hcount Hfrom [consumed [Hsent Hmain]]] Hs.
  unfold MainGo.step in Hs. rewrite Hpanic in Hs.
  destruct a as [d|p| |].
  - (* Tick *)
    destruct (0 <=? d); [|discriminate]. injection Hs as <-.
    constructor; simpl; auto. exists consumed; auto.
  - (* Run *)
    destruct (tget p (MainGo.adapters s)) as [|[r|] k] eqn:E; [discriminate| |].
    + (* send *)
      pose proof (Hslot p) as Hp. rewrite E in Hp.
      apply mainSlot_send in Hp as [-> ->].
      destruct (MainGo.closed s) eqn:Ec.
      { specialize (Hclosed eq_refl p). congruence. }
      destruct (length (MainGo.buf s) <? capacity)%nat; [|discriminate].
      injection Hs as <-.
      constructor; simpl.
      * reflexivity.
      * intros p'. destruct (decide (p = p')) as [<-|Hne].
        -- rewrite tget_tset_same. right; left; reflexivity.
        -- rewrite tget_tset_other by exact Hne. apply Hslot.
      * destruct p; simpl in *; rewrite E in Hwg; simpl in Hwg; exact Hwg.
      * discriminate.
      * rewrite length_app. simpl.
        destruct p; simpl in *; rewrite E in Hcount; simpl in Hcount; lia.
      * apply Forall_app. split; [exact Hfrom|]. constructor; [eauto|constructor].
      * exists consumed. split.
        -- rewrite Hsent, <- app_assoc. reflexivity.
        -- destruct (MainGo.main s); [exact Hmain|].
           destruct Hmain as [H|(_ & H & _)]; [left; exact H | congruence].
    + (* done *)
      pose proof (Hslot p) as Hp. rewrite E in Hp.
      apply mainSlot_done in Hp as ->.
      assert (Hpos : 1 <= MainGo.wg s).
      { pose proof (mainBusy_range (onCG (MainGo.adapters s))).
        pose proof (mainBusy_range (onCMC (MainGo.adapters s))).
        pose proof (mainBusy_range (onCC (MainGo.adapters s))).
        destruct p; simpl in E; rewrite E in *; simpl in *; lia. }
      destruct (MainGo.wg s <=? 0) eqn:Ew; [lia|].
      injection Hs as <-.
      constructor; simpl.
      * reflexivity.
      * intros p'. destruct (decide (p = p')) as [<-|Hne].
        -- rewrite tget_tset_same. right; right; reflexivity.
        -- rewrite tget_tset_other by exact Hne. apply Hslot.
      * destruct p; simpl in *; rewrite E in Hwg; simpl in Hwg; lia.
      * intros Hc. specialize (Hclosed Hc p). congruence.
      * destruct p; simpl in *; rewrite E in Hcount; simpl in Hcount; lia.
      * exact Hfrom.
      * exists consumed. split; [exact Hsent|].
        destruct (MainGo.main s); exact Hmain.
  - (* Close *)
    destruct (MainGo.closed s) eqn:Ec; [discriminate|].
    destruct (MainGo.wg s =? 0) eqn:Ew; [|discriminate].
    injection Hs as <-.
    constructor; simpl; auto.
    + intros _ p.
      pose proof (mainBusy_range (onCG (MainGo.adapters s))).
      pose proof (mainBusy_range (onCMC (MainGo.adapters s))).
      pose proof (mainBusy_range (onCC (MainGo.adapters s))).
      destruct p; simpl; apply mainBusy_zero; lia.
    + exists consumed. split; [exact Hsent|].
      destruct (MainGo.main s); [exact Hmain|].
      destruct Hmain as [H|(_ & H & _)]; [left; exact H | congruence].
  - (* Recv *)
    destruct (MainGo.main s) eqn:Em; [|discriminate].
    destruct (MainGo.buf s) as [|r rest] eqn:Eb.
    + destruct (MainGo.closed s) eqn:Ec; [|discriminate].
      injection Hs as <-.
      constructor; simpl; auto.
      exists consumed. split; [exact Hsent|].
      right. rewrite app_nil_r in Hsent. auto.
    + injection Hs as <-.
      constructor; simpl; auto.
      exists (consumed ++ [r]). split.
      * rewrite Hsent, <- app_assoc. reflexivity.
      * destruct (MainGo.candidate r) eqn:Er.
        -- left. split; [exact Er|]. exists consumed. auto.
        -- apply Forall_app. split; [exact Hmain|]. constructor; [exact Er|constructor].
Qed.

Lemma main_invariant prog q s :
  mainContract prog q -> MainGo.reachable prog s -> mainInv q s.
Proof.
  intros Hc. apply main_reachable_ind.
  - apply mainInv_init, Hc.
  - intros s0 a s1. apply mainInv_step.
Qed.

(** The loop returns the first candidate of the channel history, and
    [noResult] when the history holds none. *)
Lemma main_returns_first prog q s r :
  mainContract prog q -> MainGo.reachable prog s ->
  MainGo.main s = MainGo.Returned r ->
  r = MainGo.firstCandidate (MainGo.sent s).
Proof.
  intros Hc Hr Hm.
  destruct (main_invariant _ _ _ Hc Hr) as [_ _ _ _ _ _ [consumed [Hsent Hmain]]].
  rewrite Hm in Hmain. unfold MainGo.firstCandidate. rewrite Hsent.
  destruct Hmain as [[Hcand (pre & -> & Hpre)] | (-> & _ & Hbuf & Hno)].
  - rewrite <- !app_assoc. rewrite find_skip by exact Hpre.
    simpl. rewrite Hcand. reflexivity.
  - rewrite Hbuf, app_nil_r. rewrite find_none_of by exact Hno. reflexivity.
Qed.

(** A returned result that is no candidate is [noResult], and by then the
    channel is closed and every adapter has finished. *)
Lemma main_failure_after_all prog q s r :
  mainContract prog q -> MainGo.reachable prog s ->
  MainGo.main s = MainGo.Returned r -> MainGo.candidate r = false ->
  r = MainGo.noResult /\ MainGo.closed s = true /\ MainGo.finished s.
Proof.
  intros Hc Hr Hm Hno.
  destruct (main_invariant _ _ _ Hc Hr) as [_ _ _ Hclosed _ _ [consumed [_ Hmain]]].
  rewrite Hm in Hmain.
  destruct Hmain as [[Hcand _] | (-> & Hcl & _ & _)]; [congruence|].
  auto.
Qed.

(** ** The race of the second file *)

Lemma p0_exec_app prog acts1 acts2 s :
  Part000.exec prog (acts1 ++ acts2) s =
  match Part000.exec prog acts1 s with
  | Some s' => Part000.exec prog acts2 s'
  | None => None
  end.
Proof.
  revert s. induction acts1 as [|a acts1 IH]; intros s; simpl; [reflexivity|].
  destruct (Part000.step prog a s); [apply IH | reflexivity].
Qed.

Lemma p0_reachable_ind prog (P : Part000.state -> Prop) :
  P Part000.init ->
  (forall s a s', P s -> Part000.step prog a s = Some s' -> P s') ->
  forall s, Part000.reachable prog s -> P s.
Proof.
  intros Hinit Hstep s [acts Hacts].
  revert Hacts. generalize Part000.init, Hinit. clear Hinit.
  induction acts as [|a acts IH]; intros s0 H0; simpl.
  - intros [= <-]. exact H0.
  - destruct (Part000.step prog a s0) as [s1|] eqn:E; [|discriminate].
    apply IH. eapply Hstep; eauto.
Qed.

Lemma p0_reachable_step prog s a s' :
  Part000.reachable prog s -> Part000.step prog a s = Some s' ->
  Part000.reachable prog s'.
Proof.
  intros [acts H] Hs. exists (acts ++ [a]).
  rewrite p0_exec_app, H. simpl. rewrite Hs. reflexivity.
Qed.

Lemma p0Inv_init qn qa : p0Inv qn qa Part000.init.
Proof.
  constructor; simpl; try reflexivity.
  - intros p. left. destruct p; reflexivity.
  - discriminate.
  - constructor.
  - exists []. reflexivity.
  - unfold p0View. simpl. auto.
Qed.

Lemma p0Slot_send qn qa p r k :
  p0Slot qn qa p (Part000.Running (ESend r :: k)) -> (r = qn p \/ r = qa p) /\ k = [EDone].
Proof. intros [H|[H|[H|[H|H]]]]; inversion H; auto. Qed.

Lemma p0Slot_done qn qa p k :
  p0Slot qn qa p (Part000.Running (EDone :: k)) -> k = [].
Proof. intros [H|[H|[H|[H|H]]]]; inversion H; auto. Qed.

Lemma p0Busy_range g : 0 <= p0Busy g <= 1.
Proof. destruct g as [|[|]]; simpl; lia. Qed.

Lemma p0Busy_zero g : p0Busy g = 0 -> g = Part000.Running [].
Proof. destruct g as [|[|]]; simpl; [discriminate | reflexivity | discriminate]. Qed.

Lemma p0_find_skip (pre l : list Part000.PriceResult) :
  p0NoCandidate pre -> List.find Part000.candidate (pre ++ l) = List.find Part000.candidate l.
Proof. apply find_skip. Qed.

(** The view of the caller is kept by the steps of the adapters, which only
    append to the buffer and to the history. *)
Lemma p0View_send s r adapters' :
  Part000.closed s = false ->
  p0View s ->
  p0View (Part000.State (Part000.now s) adapters' (Part000.buf s ++ [r]) false
            (Part000.wg s) (Part000.cancelled s) (Part000.main s) false
            (Part000.sent s ++ [r])).
Proof.
  intros Hc. unfold p0View. simpl.
  destruct (Part000.main s) as [|res|res|res].
  - intros (-> & H1 & H2). auto.
  - intros (H1 & H2 & [(H3 & -> & H4) | ->]); auto 10.
  - intros (_ & H & _). congruence.
  - intros (_ & H & _). congruence.
Qed.

Lemma p0_later_here (res r : Part000.PriceResult) pre rest :
  p0NoCandidate pre -> Part000.candidate r = true ->
  Part000.laterCandidate res (pre ++ r :: rest) = r.
Proof.
  intros Hpre Hr. unfold Part000.laterCandidate.
  rewrite p0_find_skip by exact Hpre. simpl. rewrite Hr. reflexivity.
Qed.

Lemma p0_later_none (res : Part000.PriceResult) l :
  p0NoCandidate l -> Part000.laterCandidate res l = res.
Proof.
  intros H. unfold Part000.laterCandidate.
  rewrite find_none_of by exact H. reflexivity.
Qed.

Lemma p0Inv_step prog qn qa s a s' :
  p0Contract prog qn qa ->
  p0Inv qn qa s -> Part000.step prog a s = Some s' -> p0Inv qn qa s'.
Proof.
  intros Hc [Hpanic Hslot Hwg Hclosed Hcount Hfrom [got Hbuf] Hview] Hs.
  unfold Part000.step in Hs. rewrite Hpanic in Hs.
  destruct a as [d|p|p|p| | | |].
  - (* Tick *)
    destruct (0 <=? d) eqn:Ed; [|discriminate]. injection Hs as <-.
    constructor; simpl; eauto.
    unfold p0View in *; simpl.
    destruct (Part000.main s) as [|res|res|res]; [exact Hview| | |].
    + destruct Hview as (H1 & H2 & [(H3 & H4 & H5)|H3]); repeat split; auto.
      left. repeat split; auto. lia.
    + destruct Hview as (H1 & H2 & consumed & H3 & [(H4 & H5 & H6)|H4]);
        repeat split; auto; exists consumed; split; auto.
      left. repeat split; auto. lia.
    + destruct Hview as (H1 & H2 & [(H3 & H4)|H3]); repeat split; auto.
      left. split; [lia|exact H4].
  - (* Respond *)
    destruct (tget p (Part000.adapters s)) eqn:E; [|discriminate].
    injection Hs as <-.
    destruct (Hc p) as [Hn _].
    constructor; simpl; eauto.
    + intros p'. destruct (decide (p = p')) as [<-|Hne].
      * rewrite tget_tset_same, Hn. right; left; reflexivity.
      * rewrite tget_tset_other by exact Hne. apply Hslot.
    + rewrite Hn. destruct p; simpl in *; rewrite E in Hwg; simpl in Hwg; exact Hwg.
    + intros Hcl. specialize (Hclosed Hcl p). congruence.
    + rewrite Hn. destruct p; simpl in *; rewrite E in Hcount; simpl in Hcount; exact Hcount.
  - (* CtxErr *)
    destruct (tget p (Part000.adapters s)) eqn:E; [|discriminate].
    destruct (Part000.cancelled s) eqn:Ecan; [|discriminate].
    injection Hs as <-.
    destruct (Hc p) as [_ Ha].
    constructor; simpl; eauto.
    + intros p'. destruct (decide (p = p')) as [<-|Hne].
      * rewrite tget_tset_same, Ha. right; right; left; reflexivity.
      * rewrite tget_tset_other by exact Hne. apply Hslot.
    + rewrite Ha. destruct p; simpl in *; rewrite E in Hwg; simpl in Hwg; exact Hwg.
    + intros Hcl. specialize (Hclosed Hcl p). congruence.
    + rewrite Ha. destruct p; simpl in *; rewrite E in Hcount; simpl in Hcount; exact Hcount.
    + unfold p0View in *; simpl. rewrite Ecan in Hview. exact Hview.
  - (* Run *)
    destruct (tget p (Part000.adapters s)) as [|[|[r|] k]] eqn:E;
      [discriminate|discriminate| |].
    + (* send *)
      pose proof (Hslot p) as Hp. rewrite E in Hp.
      apply p0Slot_send in Hp as [Hr ->].
      destruct (Part000.closed s) eqn:Ec.
      { specialize (Hclosed eq_refl p). congruence. }
      destruct (length (Part000.buf s) <? capacity)%nat; [|discriminate].
      injection Hs as <-.
      constructor; simpl.
      * reflexivity.
      * intros p'. destruct (decide (p = p')) as [<-|Hne].
        -- rewrite tget_tset_same. do 3 right; left; reflexivity.
        -- rewrite tget_tset_other by exact Hne. apply Hslot.
      * destruct p; simpl in *; rewrite E in Hwg; simpl in Hwg; exact Hwg.
      * discriminate.
      * rewrite length_app. simpl.
        destruct p; simpl in *; rewrite E in Hcount; simpl in Hcount; lia.
      * apply Forall_app. split; [exact Hfrom|]. constructor; [eauto|constructor].
      * exists got. rewrite Hbuf, <- app_assoc. reflexivity.
      * apply p0View_send; assumption.
    + (* done *)
      pose proof (Hslot p) as Hp. rewrite E in Hp.
      apply p0Slot_done in Hp as ->.
      assert (Hpos : 1 <= Part000.wg s).
      { pose proof (p0Busy_range (onCG (Part000.adapters s))).
        pose proof (p0Busy_range (onCMC (Part000.adapters s))).
        pose proof (p0Busy_range (onCC (Part000.adapters s))).
        destruct p; simpl in E; rewrite E in *; simpl in *; lia. }
      destruct (Part000.wg s <=? 0) eqn:Ew; [lia|].
      injection Hs as <-.
      constructor; simpl; eauto.
      * intros p'. destruct (decide (p = p')) as [<-|Hne].
        -- rewrite tget_tset_same. do 4 right; reflexivity.
        -- rewrite tget_tset_other by exact Hne. apply Hslot.
      * destruct p; simpl in *; rewrite E in Hwg; simpl in Hwg; lia.
      * intros Hcl. specialize (Hclosed Hcl p). congruence.
      * destruct p; simpl in *; rewrite E in Hcount; simpl in Hcount; lia.
  - (* SelectRecv *)
    unfold p0View in Hview.
    destruct (Part000.main s) eqn:Em; try discriminate.
    destruct (Part000.buf s) as [|r rest] eqn:Eb; [discriminate|].
    injection Hs as <-.
    destruct Hview as (Hsent & Hcan & Hcl).
    constructor; simpl; eauto.
    + exists [r]. rewrite Hsent. reflexivity.
    + unfold p0View; simpl. auto.
  - (* SelectTimeout *)
    unfold p0View in Hview.
    destruct (Part000.main s) eqn:Em; try discriminate.
    destruct (timeout <=? Part000.now s) eqn:Et; [|discriminate].
    injection Hs as <-.
    destruct Hview as (Hsent & Hcan & Hcl).
    constructor; simpl; eauto.
    unfold p0View; simpl. repeat split; auto. left. repeat split; auto. lia.
  - (* WaitClose *)
    unfold p0View in Hview.
    destruct (Part000.main s) as [|res|res|res] eqn:Em; try discriminate.
    destruct (Part000.wg s =? 0) eqn:Ew; [|discriminate].
    destruct Hview as (Hcan & Hcl & Hres).
    rewrite Hcl in Hs. injection Hs as <-.
    constructor; simpl; eauto.
    + intros _ p.
      pose proof (p0Busy_range (onCG (Part000.adapters s))).
      pose proof (p0Busy_range (onCMC (Part000.adapters s))).
      pose proof (p0Busy_range (onCC (Part000.adapters s))).
      destruct p; simpl; apply p0Busy_zero; lia.
    + unfold p0View; simpl. repeat split; auto.
      exists []. split; [constructor|]. exact Hres.
  - (* Drain *)
    unfold p0View in Hview.
    destruct (Part000.main s) as [|res|res|res] eqn:Em; try discriminate.
    destruct Hview as (Hcan & Hcl & consumed & Hno & Hres).
    destruct (Part000.buf s) as [|r rest] eqn:Eb.
    + rewrite Hcl in Hs. injection Hs as <-.
      constructor; simpl; eauto.
      unfold p0View; simpl. repeat split; auto.
      destruct Hres as [(-> & Hsent & Ht)|Hsent].
      * left. split; [exact Ht|]. rewrite Hsent, app_nil_r.
        symmetry. apply p0_later_none, Hno.
      * right. exists res, consumed. rewrite app_nil_r in Hsent.
        split; [exact Hsent|]. symmetry. apply p0_later_none, Hno.
    + injection Hs as <-.
      constructor; simpl; eauto.
      * exists (got ++ [r]). rewrite Hbuf, <- app_assoc. reflexivity.
      * unfold p0View; simpl.
        destruct (Part000.candidate r) eqn:Er.
        -- repeat split; auto.
           destruct Hres as [(-> & Hsent & Ht)|Hsent].
           ++ left. split; [exact Ht|]. rewrite Hsent.
              symmetry. apply p0_later_here; assumption.
           ++ right. exists res, (consumed ++ r :: rest).
              split; [exact Hsent|]. symmetry. apply p0_later_here; assumption.
        -- repeat split; auto.
           exists (consumed ++ [r]). split.
           ++ apply Forall_app. split; [exact Hno|]. constructor; [exact Er|constructor].
           ++ rewrite <- app_assoc. simpl. exact Hres.
Qed.

Lemma p0_invariant prog qn qa s :
  p0Contract prog qn qa -> Part000.reachable prog s -> p0Inv qn qa s.
Proof.
  intros Hc. apply p0_reachable_ind.
  - apply p0Inv_init.
  - intros s0 a s1 H. apply p0Inv_step. exact Hc. exact H.
Qed.

(** ** Progress of main.go *)

Lemma main_step_decreases s a s' :
  MainGo.step a s = Some s' -> mainIsTick a = false -> MainGo.panicked s' = false ->
  (mainMeasure s' < mainMeasure s)%nat.
Proof.
  intros Hs Ha Hp. unfold MainGo.step in Hs.
  destruct (MainGo.panicked s); [discriminate|].
  destruct a as [d|p| |]; [discriminate| | |].
  - destruct (tget p (MainGo.adapters s)) as [|[r|] k] eqn:E; [discriminate| |].
    + destruct (MainGo.closed s) eqn:Ec.
      { injection Hs as <-. discriminate. }
      destruct (length (MainGo.buf s) <? capacity)%nat; [|discriminate].
      injection Hs as <-. unfold mainMeasure; simpl. rewrite length_app, Ec. simpl.
      destruct p; simpl in *; rewrite E; simpl; lia.
    + destruct (MainGo.wg s <=? 0).
      { injection Hs as <-. discriminate. }
      injection Hs as <-. unfold mainMeasure; simpl.
      destruct p; simpl in *; rewrite E; simpl; lia.
  - destruct (MainGo.closed s) eqn:Ec; [discriminate|].
    destruct (MainGo.wg s =? 0); [|discriminate].
    injection Hs as <-. unfold mainMeasure; simpl. rewrite Ec. lia.
  - destruct (MainGo.main s) eqn:Em; [|discriminate].
    destruct (MainGo.buf s) as [|r rest] eqn:Eb.
    + destruct (MainGo.closed s) eqn:Ec; [|discriminate].
      injection Hs as <-. unfold mainMeasure; simpl. rewrite Em, Eb, Ec. simpl. lia.
    + injection Hs as <-. unfold mainMeasure; simpl. rewrite Em, Eb. simpl.
      destruct (MainGo.candidate r); lia.
Qed.

(** While the loop has not returned, some goroutine can take a step. *)
Lemma main_enabled q s :
  mainInv q s -> MainGo.main s = MainGo.Ranging ->
  exists a s', mainIsTick a = false /\ MainGo.step a s = Some s'.
Proof.
  intros [Hpanic Hslot Hwg Hclosed Hcount Hfrom [consumed [Hsent Hmain]]] Hm.
  destruct (MainGo.buf s) as [|r rest] eqn:Eb.
  2:{ exists MainGo.Recv. unfold MainGo.step. rewrite Hpanic, Hm, Eb. eauto. }
  destruct (MainGo.closed s) eqn:Ec.
  { exists MainGo.Recv. unfold MainGo.step. rewrite Hpanic, Hm, Eb, Ec. eauto. }
  destruct (MainGo.wg s =? 0) eqn:Ew.
  { exists MainGo.Close. unfold MainGo.step. rewrite Hpanic, Ec, Ew. eauto. }
  assert (Hbusy : exists p, tget p (MainGo.adapters s) <> []).
  { destruct (onCG (MainGo.adapters s)) eqn:E1; [|exists CoinGecko; simpl; congruence].
    destruct (onCMC (MainGo.adapters s)) eqn:E2; [|exists CoinMarketCap; simpl; congruence].
    destruct (onCC (MainGo.adapters s)) eqn:E3; [|exists CryptoCompare; simpl; congruence].
    simpl in Hwg. apply Z.eqb_neq in Ew. lia. }
  destruct Hbusy as [p Hp]. exists (MainGo.Run p).
  unfold MainGo.step. rewrite Hpanic.
  destruct (Hslot p) as [E|[E|E]]; [| |congruence]; rewrite E, ?Ec, ?Eb; simpl.
  - eauto.
  - destruct (MainGo.wg s <=? 0) eqn:Ew'; [|eauto].
    apply Z.leb_le in Ew'.
    pose proof (mainBusy_range (onCG (MainGo.adapters s))).
    pose proof (mainBusy_range (onCMC (MainGo.adapters s))).
    pose proof (mainBusy_range (onCC (MainGo.adapters s))).
    destruct p; simpl in E; rewrite E in *; simpl in *; lia.
Qed.

(** The caller always gets its result: from every state of a race some
    schedule of the goroutines leads to the return. *)
Lemma main_can_return prog q s :
  mainContract prog q -> MainGo.reachable prog s ->
  exists acts s' r, MainGo.exec acts s = Some s' /\ MainGo.main s' = MainGo.Returned r.
Proof.
  intros Hc. remember (mainMeasure s) as n eqn:Hn.
  revert s Hn. induction n as [n IH] using lt_wf_ind. intros s Hn Hr.
  destruct (MainGo.main s) as [|r] eqn:Em.
  2:{ exists [], s, r. auto. }
  destruct (main_enabled q s (main_invariant _ _ _ Hc Hr) Em) as (a & s1 & Ha & Hs).
  pose proof (main_reachable_step _ _ _ _ Hr Hs) as Hr1.
  pose proof (mi_panic _ _ (main_invariant _ _ _ Hc Hr1)) as Hp1.
  pose proof (main_step_decreases _ _ _ Hs Ha Hp1) as Hlt.
  destruct (IH (mainMeasure s1) ltac:(lia) s1 eq_refl Hr1) as (acts & s2 & r & He & Hm).
  exists (a :: acts), s2, r. simpl. rewrite Hs. auto.
Qed.

Lemma main_bounded_from prog q acts :
  mainContract prog q ->
  forall s0 s1, MainGo.reachable prog s0 -> MainGo.exec acts s0 = Some s1 ->
  forallb (fun a => negb (mainIsTick a)) acts = true ->
  (length acts + mainMeasure s1 <= mainMeasure s0)%nat.
Proof.
  intros Hc. induction acts as [|a acts IH]; intros s0 s1 Hr; simpl.
  - intros [= <-] _. lia.
  - destruct (MainGo.step a s0) as [s'|] eqn:Hs; [|discriminate].
    intros He Hall. apply andb_prop in Hall as [Ha Hall].
    apply negb_true_iff in Ha.
    pose proof (main_reachable_step _ _ _ _ Hr Hs) as Hr'.
    pose proof (mi_panic _ _ (main_invariant _ _ _ Hc Hr')) as Hp.
    pose proof (main_step_decreases _ _ _ Hs Ha Hp).
    specialize (IH s' s1 Hr' He Hall). lia.
Qed.

(** A schedule without clock ticks has at most twenty steps. *)
Lemma main_bounded prog q acts s :
  mainContract prog q -> MainGo.exec acts (MainGo.init prog) = Some s ->
  forallb (fun a => negb (mainIsTick a)) acts = true ->
  (length acts <= 20)%nat.
Proof.
  intros Hc He Hall.
  assert (Hr : MainGo.reachable prog (MainGo.init prog)) by (exists []; reflexivity).
  pose proof (main_bounded_from _ _ _ Hc _ _ Hr He Hall) as H.
  unfold mainMeasure at 2 in H. simpl in H. rewrite !Hc in H. simpl in H. lia.
Qed.

(** ** Progress of the second file *)

Lemma p0_step_decreases prog qn qa s a s' :
  p0Contract prog qn qa ->
  Part000.step prog a s = Some s' -> p0IsTick a = false -> Part000.panicked s' = false ->
  (p0Measure s' < p0Measure s)%nat.
Proof.
  intros Hc Hs Ha Hp. unfold Part000.step in Hs.
  destruct (Part000.panicked s); [discriminate|].
  destruct a as [d|p|p|p| | | |]; [discriminate| | | | | | |].
  - destruct (tget p (Part000.adapters s)) eqn:E; [|discriminate].
    injection Hs as <-. destruct (Hc p) as [Hn _].
    unfold p0Measure; simpl. rewrite Hn.
    destruct p; simpl in *; rewrite E; simpl; lia.
  - destruct (tget p (Part000.adapters s)) eqn:E; [|discriminate].
    destruct (Part000.cancelled s); [|discriminate].
    injection Hs as <-. destruct (Hc p) as [_ Hab].
    unfold p0Measure; simpl. rewrite Hab.
    destruct p; simpl in *; rewrite E; simpl; lia.
  - destruct (tget p (Part000.adapters s)) as [|[|[r|] k]] eqn:E;
      [discriminate|discriminate| |].
    + destruct (Part000.closed s) eqn:Ec.
      { injection Hs as <-. discriminate. }
      destruct (length (Part000.buf s) <? capacity)%nat; [|discriminate].
      injection Hs as <-. unfold p0Measure; simpl. rewrite length_app. simpl.
      destruct p; simpl in *; rewrite E; simpl; lia.
    + destruct (Part000.wg s <=? 0).
      { injection Hs as <-. discriminate. }
      injection Hs as <-. unfold p0Measure; simpl.
      destruct p; simpl in *; rewrite E; simpl; lia.
  - destruct (Part000.main s) eqn:Em; try discriminate.
    destruct (Part000.buf s) as [|r rest] eqn:Eb; [discriminate|].
    injection Hs as <-. unfold p0Measure; simpl. rewrite Em, Eb. simpl. lia.
  - destruct (Part000.main s) eqn:Em; try discriminate.
    destruct (timeout <=? Part000.now s); [|discriminate].
    injection Hs as <-. unfold p0Measure; simpl. rewrite Em. lia.
  - destruct (Part000.main s) eqn:Em; try discriminate.
    destruct (Part000.wg s =? 0); [|discriminate].
    destruct (Part000.closed s).
    { injection Hs as <-. discriminate. }
    injection Hs as <-. unfold p0Measure; simpl. rewrite Em. lia.
  - destruct (Part000.main s) eqn:Em; try discriminate.
    destruct (Part000.buf s) as [|r rest] eqn:Eb.
    + destruct (Part000.closed s); [|discriminate].
      injection Hs as <-. unfold p0Measure; simpl. rewrite Em, Eb. simpl. lia.
    + injection Hs as <-. unfold p0Measure; simpl. rewrite Em, Eb. simpl.
      destruct (Part000.candidate r); lia.
Qed.

Lemma p0_now_mono prog s a s' :
  Part000.step prog a s = Some s' -> Part000.now s <= Part000.now s'.
Proof.
  unfold Part000.step. intros Hs.
  repeat match type of Hs with
         | (if ?c then _ else _) = _ => destruct c eqn:?
         | match ?x with _ => _ end = _ => destruct x eqn:?
         | Some _ = Some _ => injection Hs as <-; simpl
         | None = Some _ => discriminate
         end; lia.
Qed.

(** A producer whose next effect is the send is never blocked and never
    finds the channel closed. *)
Lemma p0_send_enabled prog qn qa s p r k :
  p0Inv qn qa s -> tget p (Part000.adapters s) = Part000.Running (ESend r :: k) ->
  exists s', Part000.step prog (Part000.Run p) s = Some s' /\ Part000.panicked s' = false.
Proof.
  intros [Hpanic Hslot Hwg Hclosed Hcount Hfrom [got Hbuf] Hview] E.
  unfold Part000.step. rewrite Hpanic, E.
  destruct (Part000.closed s) eqn:Ec.
  { specialize (Hclosed eq_refl p). congruence. }
  assert (Hlen : (length (Part000.buf s) < capacity)%nat).
  { apply (f_equal length) in Hbuf. rewrite length_app in Hbuf.
    unfold capacity. destruct p; simpl in E; rewrite E in Hcount; simpl in Hcount; lia. }
  apply Nat.ltb_lt in Hlen. rewrite Hlen. eauto.
Qed.

(** Unless the caller is at the [select] with an empty channel before the
    deadline, some goroutine can take a step that waits for nothing outside
    the program. *)
Lemma p0_enabled prog qn qa s :
  p0Inv qn qa s ->
  (exists r, Part000.main s = Part000.Returned r)
  \/ (exists a s', p0Internal a = true /\ Part000.step prog a s = Some s')
  \/ (Part000.main s = Part000.Selecting /\ Part000.buf s = [] /\
      Part000.now s < timeout).
Proof.
  intros Hinv.
  pose proof Hinv as [Hpanic Hslot Hwg Hclosed Hcount Hfrom [got Hbuf] Hview].
  unfold p0View in Hview.
  destruct (Part000.main s) as [|res|res|res] eqn:Em.
  - right. destruct (Part000.buf s) as [|r rest] eqn:Eb.
    + destruct (timeout <=? Part000.now s) eqn:Et.
      * left. exists Part000.SelectTimeout. unfold Part000.step.
        rewrite Hpanic, Em, Et. eauto.
      * right. apply Z.leb_gt in Et. auto.
    + left. exists Part000.SelectRecv. unfold Part000.step.
      rewrite Hpanic, Em, Eb. eauto.
  - right; left. destruct Hview as (Hcan & Hcl & _).
    destruct (Part000.wg s =? 0) eqn:Ew.
    { exists Part000.WaitClose. unfold Part000.step. rewrite Hpanic, Em, Ew, Hcl. eauto. }
    assert (Hbusy : exists p, p0Busy (tget p (Part000.adapters s)) <> 0).
    { destruct (Z.eq_dec (p0Busy (onCG (Part000.adapters s))) 0) as [E1|];
        [|exists CoinGecko; assumption].
      destruct (Z.eq_dec (p0Busy (onCMC (Part000.adapters s))) 0) as [E2|];
        [|exists CoinMarketCap; assumption].
      destruct (Z.eq_dec (p0Busy (onCC (Part000.adapters s))) 0) as [E3|];
        [|exists CryptoCompare; assumption].
      apply Z.eqb_neq in Ew. lia. }
    destruct Hbusy as [p Hp].
    destruct (Hslot p) as [E|[E|[E|[E|E]]]]; [| | | |rewrite E in Hp; simpl in Hp; lia].
    + exists (Part000.CtxErr p). unfold Part000.step. rewrite Hpanic, E, Hcan. eauto.
    + destruct (p0_send_enabled prog _ _ _ _ _ _ Hinv E) as (s' & Hs & _).
      exists (Part000.Run p). eauto.
    + destruct (p0_send_enabled prog _ _ _ _ _ _ Hinv E) as (s' & Hs & _).
      exists (Part000.Run p). eauto.
    + exists (Part000.Run p). unfold Part000.step. rewrite Hpanic, E.
      destruct (Part000.wg s <=? 0) eqn:Ew'; [|eauto].
      apply Z.leb_le in Ew'.
      pose proof (p0Busy_range (onCG (Part000.adapters s))).
      pose proof (p0Busy_range (onCMC (Part000.adapters s))).
      pose proof (p0Busy_range (onCC (Part000.adapters s))).
      destruct p; simpl in E; rewrite E in *; simpl in *; lia.
  - right; left. destruct Hview as (Hcan & Hcl & _).
    exists Part000.Drain. unfold Part000.step. rewrite Hpanic, Em.
    destruct (Part000.buf s); [rewrite Hcl|]; eauto.
  - left. eauto.
Qed.

(** Once the deadline has passed the caller gets its result whatever the
    network does: some schedule without clock ticks and without answers of
    the network leads to the return. *)
Lemma p0_can_return_after_deadline prog qn qa s :
  p0Contract prog qn qa -> Part000.reachable prog s -> timeout <= Part000.now s ->
  exists acts s' r,
    forallb p0Internal acts = true /\
    Part000.exec prog acts s = Some s' /\ Part000.main s' = Part000.Returned r.
Proof.
  intros Hc. remember (p0Measure s) as n eqn:Hn.
  revert s Hn. induction n as [n IH] using lt_wf_ind. intros s Hn Hr Ht.
  pose proof (p0_invariant _ _ _ _ Hc Hr) as Hinv.
  destruct (p0_enabled prog _ _ _ Hinv) as [[r Hm]|[(a & s1 & Ha & Hs)|(_ & _ & Hlt)]].
  - exists [], s, r. auto.
  - pose proof (p0_reachable_step _ _ _ _ Hr Hs) as Hr1.
    pose proof (pi_panic _ _ _ (p0_invariant _ _ _ _ Hc Hr1)) as Hp1.
    assert (Htick : p0IsTick a = false) by (destruct a; simpl in *; congruence).
    pose proof (p0_step_decreases _ _ _ _ _ _ Hc Hs Htick Hp1) as Hlt.
    pose proof (p0_now_mono _ _ _ _ Hs) as Hmono.
    destruct (IH (p0Measure s1) ltac:(lia) s1 eq_refl Hr1 ltac:(lia))
      as (acts & s2 & r & Hall & He & Hm).
    exists (a :: acts), s2, r. simpl. rewrite Hs, Ha. auto.
  - lia.
Qed.

Lemma p0_bounded_from prog qn qa acts :
  p0Contract prog qn qa ->
  forall s0 s1, Part000.reachable prog s0 -> Part000.exec prog acts s0 = Some s1 ->
  forallb (fun a => negb (p0IsTick a)) acts = true ->
  (length acts + p0Measure s1 <= p0Measure s0)%nat.
Proof.
  intros Hc. induction acts as [|a acts IH]; intros s0 s1 Hr; simpl.
  - intros [= <-] _. lia.
  - destruct (Part000.step prog a s0) as [s'|] eqn:Hs; [|discriminate].
    intros He Hall. apply andb_prop in Hall as [Ha Hall].
    apply negb_true_iff in Ha.
    pose proof (p0_reachable_step _ _ _ _ Hr Hs) as Hr'.
    pose proof (pi_panic _ _ _ (p0_invariant _ _ _ _ Hc Hr')) as Hp.
    pose proof (p0_step_decreases _ _ _ _ _ _ Hc Hs Ha Hp).
    specialize (IH s' s1 Hr' He Hall). lia.
Qed.

(** ** The adapters *)

Lemma main_adapter_sends_once cf crypto w p :
  exists r, MainGo.adapter cf crypto w p = [ESend r; EDone] /\
            MainGo.Source r = providerName p /\
            MainGo.Duration r = MainGo.elapsed w p.
Proof.
  destruct p; simpl;
    [unfold MainGo.fetchCryptoPriceFromCoingecko
    |unfold MainGo.fetchCryptoPriceFromCoinMarketCap
    |unfold MainGo.fetchCryptoPriceFromCryptoCompare];
    repeat match goal with
           | |- context [match ?x with _ => _ end] => destruct x
           end; eexists; repeat split.
Qed.

Lemma main_adapter_contract cf crypto w :
  mainContract (MainGo.adapter cf crypto w) (mainQuote cf crypto w).
Proof.
  intros p. unfold mainQuote.
  destruct (main_adapter_sends_once cf crypto w p) as (r & -> & _). reflexivity.
Qed.

Lemma main_quote_source cf crypto w p :
  MainGo.Source (mainQuote cf crypto w p) = providerName p /\
  MainGo.Duration (mainQuote cf crypto w p) = MainGo.elapsed w p.
Proof.
  unfold mainQuote.
  destruct (main_adapter_sends_once cf crypto w p) as (r & -> & H). exact H.
Qed.

Lemma decodeMembers_noField {A} (dec : A -> json -> option A) name members cur :
  noField name members -> decodeMembers dec name members cur = Some cur.
Proof.
  induction 1 as [|[k v] rest Hk _ IH]; simpl; [reflexivity|].
  simpl in Hk. rewrite Hk. exact IH.
Qed.

(** Every failure of the request, of the decoding or of the lookup ends in
    a quote of price 0. *)
Lemma main_failure_zero cf crypto w p :
  mainFailure crypto w p -> MainGo.Price (mainQuote cf crypto w p) = 0%float.
Proof.
  unfold mainQuote.
  destruct 1 as [p H|p H|st d H Hd|st d H Hd|st d H Hd|st d m H Hd Hk|st fs H Hf
                |st d H Hd|st fs rest H Hf|st fs H Hf];
    try (destruct p); simpl;
    unfold MainGo.fetchCryptoPriceFromCoingecko, MainGo.fetchCryptoPriceFromCoinMarketCap,
      MainGo.fetchCryptoPriceFromCryptoCompare; simpl in H; rewrite H;
    try reflexivity; try (rewrite Hd; try rewrite Hk; reflexivity).
  - (* an entry without usd *)
    simpl. unfold decodeCryptoPrice, decodeStruct.
    rewrite decodeMembers_noField by exact Hf. simpl.
    rewrite lookup_insert_eq. reflexivity.
  - (* a first ticker without price_usd *)
    simpl. unfold decodeCoinMarketCapResponse, decodeStruct.
    rewrite decodeMembers_noField by exact Hf.
    destruct (decodeItems rest); reflexivity.
  - (* an object without USD *)
    simpl. unfold decodeCryptoCompareResponse, decodeStruct.
    rewrite decodeMembers_noField by exact Hf. reflexivity.
Qed.

(** In the second file every path of [fetchCryptoPrice] that does not reach
    [parseFunc] sends one quote of price 0 under the name it was given. *)
Lemma p0_fetch_not_ok parseFunc source status data :
  status <> StatusOK ->
  Part000.fetchCryptoPrice (Response status data) parseFunc source
  = [ESend (Part000.mkResult 0 source); EDone].
Proof.
  intros H. unfold Part000.fetchCryptoPrice.
  apply Z.eqb_neq in H. rewrite H. reflexivity.
Qed.

Lemma p0_fetch_always parseFunc source r :
  Part000.fetchCryptoPrice r parseFunc source
  = [ESend (Part000.mkResult 0 source); EDone].
Proof.
  unfold Part000.fetchCryptoPrice.
  destruct r as [| |status data]; try reflexivity.
  destruct (negb (status =? StatusOK)); reflexivity.
Qed.

Lemma p0_adapter_contract cf crypto w :
  p0Contract (Part000.adapter cf crypto w) p0Quote p0Quote.
Proof.
  intros p. unfold Part000.adapter, p0Quote. rewrite !p0_fetch_always. auto.
Qed.

(** main.go never looks at the status of an answer. *)
Lemma main_status_ignored cf crypto get1 get2 el p :
  (forall url, bodyOf (get1 url) = bodyOf (get2 url)) ->
  MainGo.adapter cf crypto (MainGo.World get1 el) p
  = MainGo.adapter cf crypto (MainGo.World get2 el) p.
Proof.
  intros H.
  destruct p; simpl;
    [unfold MainGo.fetchCryptoPriceFromCoingecko
    |unfold MainGo.fetchCryptoPriceFromCoinMarketCap
    |unfold MainGo.fetchCryptoPriceFromCryptoCompare]; simpl;
    match goal with
    | |- context [get1 ?u] => specialize (H u); destruct (get1 u), (get2 u)
    end; simpl in H; try reflexivity; try discriminate;
    injection H as ->; reflexivity.
Qed.

(** ** The first provider: a map from coin to price *)

Lemma decodeEntries_other members key :
  noKey key members ->
  forall m0 m, decodeEntries members m0 = Some m -> m !! key = m0 !! key.
Proof.
  induction 1 as [|[k v] rest Hk _ IH]; intros m0 m; simpl.
  - intros [= <-]. reflexivity.
  - destruct (decodeCryptoPrice v) as [e|]; [|discriminate].
    intros H. rewrite (IH _ _ H). simpl in Hk. apply lookup_insert_ne. exact Hk.
Qed.

(** main.go takes the price from the entry stored under the identifier. *)
Lemma main_coingecko_lookup cf crypto w status data result :
  MainGo.get w (Sprintf1 coingeckoAPI crypto) = Response status data ->
  unmarshalPriceMap data = Some result ->
  MainGo.Price (mainQuote cf crypto w CoinGecko)
  = match result !! crypto with Some price => cpUSD price | None => 0%float end.
Proof.
  intros Hg Hd. unfold mainQuote. simpl.
  unfold MainGo.fetchCryptoPriceFromCoingecko. rewrite Hg, Hd.
  destruct (result !! crypto); reflexivity.
Qed.

Lemma main_coingecko_missing cf crypto w status members :
  MainGo.get w (Sprintf1 coingeckoAPI crypto) = Response status (Some (JObj members)) ->
  noKey crypto members ->
  MainGo.Price (mainQuote cf crypto w CoinGecko) = 0%float.
Proof.
  intros Hg Hk. unfold mainQuote. simpl.
  unfold MainGo.fetchCryptoPriceFromCoingecko. rewrite Hg. simpl.
  destruct (decodeEntries members ∅) as [m|] eqn:E; [|reflexivity].
  rewrite (decodeEntries_other _ _ Hk _ _ E), lookup_empty. reflexivity.
Qed.

Lemma bitcoinBody_decodes :
  unmarshalPriceMap (Some bitcoinBody) = Some {[ "bitcoin" := {| cpUSD := 42000.5 |} ]}.
Proof. reflexivity. Qed.

Lemma rangeFirst_singleton {A} pick (k : string) (v : A) :
  Part000.rangeFirst pick {[ k := v ]} = Some (k, v).
Proof.
  unfold Part000.rangeFirst. rewrite map_to_list_singleton.
  change (length [(k, v)]) with 1%nat. rewrite Nat.mod_1_r. reflexivity.
Qed.

Lemma rangeFirst_elem {A} pick (m : gmap string A) :
  match Part000.rangeFirst pick m with
  | Some (k, v) => m !! k = Some v
  | None => m = ∅
  end.
Proof.
  unfold Part000.rangeFirst.
  destruct (map_to_list m !! (pick mod length (map_to_list m))%nat) as [[k v]|] eqn:E.
  - apply elem_of_map_to_list. eapply list_elem_of_lookup_2. exact E.
  - apply lookup_ge_None in E.
    destruct (map_to_list m) as [|x l] eqn:El.
    + apply map_to_list_empty_iff. exact El.
    + exfalso. pose proof (Nat.mod_upper_bound pick (length (x :: l))) as Hb.
      simpl in *. lia.
Qed.

(** [parseCoingecko] never sees the identifier: it returns the price of an
    entry of the decoded map, whichever the loop meets first, and fails
    only on a map without entries. *)
Lemma p0_parseCoingecko_some_entry pick data result :
  unmarshalPriceMap data = Some result ->
  (result = ∅ /\ Part000.parseCoingecko pick data = (0%float, true))
  \/ (exists k v, result !! k = Some v /\
                  Part000.parseCoingecko pick data = (cpUSD v, false)).
Proof.
  intros Hd. unfold Part000.parseCoingecko. rewrite Hd.
  pose proof (rangeFirst_elem pick result) as H.
  destruct (Part000.rangeFirst pick result) as [[k v]|]; eauto.
Qed.

Lemma p0_parseCoingecko_bitcoin pick :
  Part000.parseCoingecko pick (Some bitcoinBody) = (42000.5%float, false).
Proof.
  unfold Part000.parseCoingecko. rewrite bitcoinBody_decodes, rangeFirst_singleton.
  reflexivity.
Qed.

(** ** Scanning a price text *)

Lemma accept_no set c r :
  inSet c set = false -> accept set (String c r) = (EmptyString, String c r).
Proof. intros H. unfold accept. rewrite H. reflexivity. Qed.

Lemma accept_yes set c r :
  inSet c set = true -> accept set (String c r) = (String c EmptyString, r).
Proof. intros H. unfold accept. rewrite H. reflexivity. Qed.

Ltac by_byte c :=
  destruct c as [[|] [|] [|] [|] [|] [|] [|] [|]];
  try discriminate; repeat split; reflexivity.

Lemma digit_sets d :
  isDigit d = true ->
  inSet d "nN" = false /\ inSet d sign = false /\ inSet d "iI" = false /\
  inSet d "xX" = false /\ inSet d (decimalDigits ++ "_")%string = true.
Proof. intros H. by_byte d. Qed.

Lemma stop_sets c :
  inSet c "0123456789_.eEpPxX" = false ->
  inSet c "xX" = false /\ inSet c (decimalDigits ++ "_")%string = false /\
  inSet c period = false /\ inSet c exponent = false.
Proof. intros H. by_byte c. Qed.

Lemma start_sets c :
  inSet c "nN+-iI0123456789_.eEpP" = false ->
  inSet c "nN" = false /\ inSet c sign = false /\ inSet c "iI" = false /\
  inSet c "0" = false /\ inSet c (decimalDigits ++ "_")%string = false /\
  inSet c period = false /\ inSet c exponent = false.
Proof. intros H. by_byte c. Qed.

Lemma acceptMany_digits ds rest :
  allDigits ds = true -> stops rest = true ->
  acceptMany (decimalDigits ++ "_") (ds ++ rest)%string = (ds, rest).
Proof.
  intros Hd Hs. induction ds as [|d ds IH].
  - destruct rest as [|c r]; [reflexivity|]. simpl in Hs.
    apply negb_true_iff in Hs. apply stop_sets in Hs as (_ & H & _).
    change ("" ++ String c r)%string with (String c r).
    cbn [acceptMany]. rewrite H. reflexivity.
  - simpl in Hd. apply andb_prop in Hd as [Hd1 Hd2].
    apply digit_sets in Hd1 as (_ & _ & _ & _ & H).
    change (String d ds ++ rest)%string with (String d (ds ++ rest)%string).
    cbn [acceptMany]. rewrite H, (IH Hd2). reflexivity.
Qed.

Lemma taken_no s : taken (EmptyString, s) = false.
Proof. reflexivity. Qed.

Lemma taken_yes c s : taken (String c EmptyString, s) = true.
Proof. reflexivity. Qed.

(** A text that starts with a rune no float token starts with gives the
    empty token. *)
Lemma floatToken_noStart c r :
  inSet c "nN+-iI0123456789_.eEpP" = false ->
  floatToken (String c r) = (EmptyString, String c r).
Proof.
  intros H. apply start_sets in H as (H1 & H2 & H3 & H4 & H5 & H6 & H7).
  unfold floatToken.
  rewrite (accept_no "nN" c r H1). cbn [fst snd]. rewrite !taken_no. cbn [fst snd].
  rewrite (accept_no sign c r H2). cbn [fst snd].
  rewrite (accept_no "iI" c r H3). cbn [fst snd]. rewrite !taken_no. cbn [fst snd].
  rewrite (accept_no "0" c r H4). cbn [fst snd]. rewrite !taken_no. cbn [fst snd].
  unfold acceptMany. rewrite H5. cbn [fst snd].
  rewrite (accept_no period c r H6). cbn [fst snd]. rewrite !taken_no. cbn [fst snd].
  rewrite (accept_no exponent c r H7). cbn [fst snd]. rewrite !taken_no. cbn [fst snd].
  reflexivity.
Qed.

Lemma string_app_nil_r (s : string) : (s ++ "")%string = s.
Proof.
  induction s as [|c s IH]; [reflexivity|].
  change (String c (s ++ "")%string = String c s). rewrite IH. reflexivity.
Qed.

Lemma accept_at_stop set rest :
  stops rest = true ->
  (forall c, inSet c "0123456789_.eEpPxX" = false -> inSet c set = false) ->
  accept set rest = (EmptyString, rest).
Proof.
  intros Hs Hset. destruct rest as [|c r]; [reflexivity|].
  simpl in Hs. apply negb_true_iff in Hs. apply accept_no, Hset, Hs.
Qed.

Lemma accept_xX_digits ds rest :
  allDigits ds = true -> stops rest = true ->
  accept "xX" (ds ++ rest)%string = (EmptyString, (ds ++ rest)%string).
Proof.
  intros Hd Hs. destruct ds as [|d ds]; simpl.
  - apply accept_at_stop; [exact Hs|]. intros c H. apply stop_sets in H. tauto.
  - simpl in Hd. apply andb_prop in Hd as [Hd _].
    apply digit_sets in Hd. apply accept_no. tauto.
Qed.

(** A run of digits followed by text that cannot continue it is the whole
    token; the text after it is left unread. *)
Lemma floatToken_digits d ds rest :
  allDigits (String d ds) = true -> stops rest = true ->
  floatToken (String d ds ++ rest)%string = (String d ds, rest).
Proof.
  intros Hd Hs. pose proof Hd as Hall.
  simpl in Hd. apply andb_prop in Hd as [Hd1 Hd2].
  pose proof (digit_sets d Hd1) as (H1 & H2 & H3 & H4 & H5).
  assert (Hpt : accept period rest = (EmptyString, rest)).
  { apply accept_at_stop; [exact Hs|]. intros c H. apply stop_sets in H. tauto. }
  assert (Hex : accept exponent rest = (EmptyString, rest)).
  { apply accept_at_stop; [exact Hs|]. intros c H. apply stop_sets in H. tauto. }
  unfold floatToken.
  change (String d ds ++ rest)%string with (String d (ds ++ rest)%string).
  rewrite (accept_no "nN" d _ H1). cbn [fst snd]. rewrite !taken_no. cbn [fst snd].
  rewrite (accept_no sign d _ H2). cbn [fst snd].
  rewrite (accept_no "iI" d _ H3). cbn [fst snd]. rewrite !taken_no. cbn [fst snd].
  destruct (inSet d "0") eqn:E0.
  - rewrite (accept_yes "0" d _ E0). cbn [fst snd]. rewrite taken_yes.
    rewrite (accept_xX_digits ds rest Hd2 Hs). cbn [fst snd]. rewrite !taken_no.
    rewrite (acceptMany_digits ds rest Hd2 Hs). cbn [fst snd].
    rewrite Hpt. cbn [fst snd]. rewrite !taken_no. cbn [fst snd].
    rewrite Hex. cbn [fst snd]. rewrite !taken_no. cbn [fst snd].
    cbv [String.append]. fold String.append. rewrite !string_app_nil_r. reflexivity.
  - rewrite (accept_no "0" d _ E0). cbn [fst snd]. rewrite !taken_no. cbn [fst snd].
    change (String d (ds ++ rest)%string) with (String d ds ++ rest)%string.
    rewrite (acceptMany_digits (String d ds) rest Hall Hs). cbn [fst snd].
    rewrite Hpt. cbn [fst snd]. rewrite !taken_no. cbn [fst snd].
    rewrite Hex. cbn [fst snd]. rewrite !taken_no. cbn [fst snd].
    cbv [String.append]. fold String.append. rewrite !string_app_nil_r. reflexivity.
Qed.

Lemma digit_no_space d r :
  isDigit d = true ->
  (byteOf d =? 10)%N = false /\ spaceWidth (String d r) = 0%nat.
Proof.
  intros H.
  destruct d as [[|] [|] [|] [|] [|] [|] [|] [|]]; try discriminate;
    (split; [reflexivity|]); destruct r as [|? [|? ?]]; reflexivity.
Qed.

Lemma SkipSpace_stay c r :
  (byteOf c =? 10)%N = false -> spaceWidth (String c r) = 0%nat ->
  SkipSpace (String c r) = Some (String c r).
Proof.
  intros H1 H2. unfold SkipSpace. cbn [String.length SkipSpaceN].
  rewrite H1, H2. reflexivity.
Qed.

Section ScanFacts.
Variable convertFloat : string -> option float.

(** [Sscanf] converts the leading run of digits and ignores what follows. *)
Lemma Sscanf_digits_prefix d ds rest :
allDigits (String d ds) = true -> stops rest = true ->
Sscanf_f convertFloat (String d ds ++ rest)%string = convertFloat (String d ds).
Proof.
intros Hd Hs. unfold Sscanf_f.
pose proof Hd as Hd'. simpl in Hd'. apply andb_prop in Hd' as [Hd1 _].
destruct (digit_no_space d (ds ++ rest)%string Hd1) as [Hn Hw].
change (String d ds ++ rest)%string with (String d (ds ++ rest)%string).
rewrite (SkipSpace_stay _ _ Hn Hw).
change (String d (ds ++ rest)%string) with (String d ds ++ rest)%string.
rewrite (floatToken_digits d ds rest Hd Hs). reflexivity.
Qed.

(** Without a token nothing is stored and the price stays 0. *)
Lemma scanPrice_noToken text :
convertFloat "" = None -> noToken text = true ->
scanPrice convertFloat text = 0%float.
Proof.
intros Hcf Hno. unfold scanPrice, Sscanf_f.
destruct text as [|c r]; [reflexivity|].
simpl in Hno. apply andb_prop in Hno as [Hno H3]. apply andb_prop in Hno as [H1 H2].
apply negb_true_iff in H1, H3. apply Nat.eqb_eq in H2.
rewrite (SkipSpace_stay _ _ H1 H2), (floatToken_noStart _ _ H3). simpl.
rewrite Hcf. reflexivity.
Qed.
End ScanFacts.

(** ** What the invariants give *)

(** A producer of main.go whose next effect is the send is never blocked
    and never finds the channel closed; its quote enters the channel. *)
Lemma main_send_enabled q s p r k :
  mainInv q s -> tget p (MainGo.adapters s) = ESend r :: k ->
  exists s', MainGo.step (MainGo.Run p) s = Some s' /\ MainGo.panicked s' = false /\
             MainGo.sent s' = MainGo.sent s ++ [q p] /\ MainGo.main s' = MainGo.main s.
Proof.
  intros [Hpanic Hslot Hwg Hclosed Hcount Hfrom [consumed [Hsent Hmain]]] E.
  unfold MainGo.step. rewrite Hpanic, E.
  destruct (MainGo.closed s) eqn:Ec.
  { specialize (Hclosed eq_refl p). congruence. }
  assert (Hlen : (length (MainGo.buf s) < capacity)%nat).
  { apply (f_equal length) in Hsent. rewrite length_app in Hsent.
    unfold capacity. destruct p; simpl in E; rewrite E in Hcount; simpl in Hcount; lia. }
  apply Nat.ltb_lt in Hlen. rewrite Hlen.
  pose proof (Hslot p) as Hp. rewrite E in Hp. apply mainSlot_send in Hp as [-> _].
  eexists. repeat split.
Qed.

Lemma main_candidate_was_sent prog q s r :
  mainContract prog q -> MainGo.reachable prog s ->
  MainGo.main s = MainGo.Returned r -> MainGo.candidate r = true ->
  exists p, r = q p.
Proof.
  intros Hc Hr Hm Hcand.
  destruct (main_invariant _ _ _ Hc Hr) as [_ _ _ _ _ Hfrom [consumed [Hsent Hmain]]].
  rewrite Hm in Hmain.
  destruct Hmain as [[_ (pre & -> & _)] | (-> & _)]; [|discriminate].
  rewrite Hsent in Hfrom. rewrite !Forall_app in Hfrom.
  destruct Hfrom as [[_ H] _]. inversion H; assumption.
Qed.

(** When no adapter sends a candidate the loop ends on the closed channel,
    after all adapters, with [noResult]. *)
Lemma main_all_fail prog q s r :
  mainContract prog q -> (forall p, MainGo.candidate (q p) = false) ->
  MainGo.reachable prog s -> MainGo.main s = MainGo.Returned r ->
  r = MainGo.noResult /\ MainGo.closed s = true /\ MainGo.finished s.
Proof.
  intros Hc Hall Hr Hm.
  destruct (MainGo.candidate r) eqn:Hcand.
  - destruct (main_candidate_was_sent _ _ _ _ Hc Hr Hm Hcand) as [p ->].
    rewrite Hall in Hcand. discriminate.
  - eapply main_failure_after_all; eauto.
Qed.

Lemma main_can_return_noResult prog q s :
  mainContract prog q -> (forall p, MainGo.candidate (q p) = false) ->
  MainGo.reachable prog s ->
  exists acts s', MainGo.exec acts s = Some s' /\
                  MainGo.main s' = MainGo.Returned MainGo.noResult.
Proof.
  intros Hc Hall Hr.
  destruct (main_can_return _ _ _ Hc Hr) as (acts & s' & r & He & Hm).
  assert (Hr' : MainGo.reachable prog s').
  { destruct Hr as [acts0 H0]. exists (acts0 ++ acts). rewrite main_exec_app, H0. exact He. }
  destruct (main_all_fail _ _ _ _ Hc Hall Hr' Hm) as [-> _].
  eauto.
Qed.

(** The second file returns only after [wg.Wait]: all adapters have
    finished and the channel is closed. *)
Lemma p0_returned_after_all prog qn qa s r :
  p0Contract prog qn qa -> Part000.reachable prog s ->
  Part000.main s = Part000.Returned r ->
  Part000.finished s /\ Part000.closed s = true /\ Part000.cancelled s = true.
Proof.
  intros Hc Hr Hm.
  destruct (p0_invariant _ _ _ _ Hc Hr) as [_ _ _ Hclosed _ _ _ Hview].
  unfold p0View in Hview. rewrite Hm in Hview. destruct Hview as (H1 & H2 & _). auto.
Qed.

(** Past the [select] the context is cancelled. *)
Lemma p0_cancelled_after_select prog qn qa s :
  p0Contract prog qn qa -> Part000.reachable prog s ->
  Part000.main s <> Part000.Selecting -> Part000.cancelled s = true.
Proof.
  intros Hc Hr Hm.
  destruct (p0_invariant _ _ _ _ Hc Hr) as [_ _ _ _ _ _ _ Hview].
  unfold p0View in Hview.
  destruct (Part000.main s); [congruence| | |]; destruct Hview as (H & _); exact H.
Qed.

(** What the second file returns: the first candidate among the quotes
    that followed the one the [select] took, else that first quote; after a
    timeout the first candidate of the whole history, else the zero value. *)
Lemma p0_result prog qn qa s r :
  p0Contract prog qn qa -> Part000.reachable prog s ->
  Part000.main s = Part000.Returned r ->
  (timeout <= Part000.now s /\
   r = Part000.laterCandidate Part000.zeroResult (Part000.sent s))
  \/ (exists first rest, Part000.sent s = first :: rest /\
                         r = Part000.laterCandidate first rest).
Proof.
  intros Hc Hr Hm.
  destruct (p0_invariant _ _ _ _ Hc Hr) as [_ _ _ _ _ _ _ Hview].
  unfold p0View in Hview. rewrite Hm in Hview. destruct Hview as (_ & _ & H). exact H.
Qed.

Lemma p0_later_cases (res : Part000.PriceResult) l :
  Part000.laterCandidate res l = res
  \/ (In (Part000.laterCandidate res l) l /\
      Part000.candidate (Part000.laterCandidate res l) = true).
Proof.
  unfold Part000.laterCandidate.
  destruct (List.find Part000.candidate l) as [x|] eqn:E; [|left; reflexivity].
  right. apply List.find_some in E. exact E.
Qed.

(** A returned result is the zero value or one of the quotes sent. *)
Lemma p0_result_origin prog qn qa s r :
  p0Contract prog qn qa -> Part000.reachable prog s ->
  Part000.main s = Part000.Returned r ->
  r = Part000.zeroResult \/ In r (Part000.sent s).
Proof.
  intros Hc Hr Hm.
  destruct (p0_result _ _ _ _ _ Hc Hr Hm) as [[_ ->]|(first & rest & Hs & ->)].
  - destruct (p0_later_cases Part000.zeroResult (Part000.sent s)) as [->|[H _]]; auto.
  - rewrite Hs. destruct (p0_later_cases first rest) as [->|[H _]].
    + right. left. reflexivity.
    + right. right. exact H.
Qed.

Lemma p0_sent_origin prog qn qa s r :
  p0Contract prog qn qa -> Part000.reachable prog s -> In r (Part000.sent s) ->
  exists p, r = qn p \/ r = qa p.
Proof.
  intros Hc Hr Hin.
  destruct (p0_invariant _ _ _ _ Hc Hr) as [_ _ _ _ _ Hfrom _ _].
  rewrite Forall_forall in Hfrom. apply Hfrom. apply list_elem_of_In. exact Hin.
Qed.

Lemma p0_all_fail prog qn qa s r :
  p0Contract prog qn qa ->
  (forall p, Part000.candidate (qn p) = false /\ Part000.candidate (qa p) = false) ->
  Part000.reachable prog s -> Part000.main s = Part000.Returned r ->
  Part000.candidate r = false /\ Part000.finished s.
Proof.
  intros Hc Hall Hr Hm. split.
  - destruct (p0_result_origin _ _ _ _ _ Hc Hr Hm) as [->|Hin]; [reflexivity|].
    destruct (p0_sent_origin _ _ _ _ _ Hc Hr Hin) as [p [->| ->]]; apply Hall.
  - eapply p0_returned_after_all; eauto.
Qed.

(** From any state the second file can return without another answer of
    the network: at the latest the timer fires. *)
Lemma p0_can_return prog qn qa s :
  p0Contract prog qn qa -> Part000.reachable prog s ->
  exists acts s' r,
    forallb (fun a => match a with Part000.Respond _ => false | _ => true end) acts = true /\
    Part000.exec prog acts s = Some s' /\ Part000.main s' = Part000.Returned r.
Proof.
  intros Hc Hr.
  pose proof (pi_panic _ _ _ (p0_invariant _ _ _ _ Hc Hr)) as Hp.
  set (d := Z.max 0 (timeout - Part000.now s)).
  assert (Hd : 0 <= d) by lia.
  assert (Hs : exists s1, Part000.step prog (Part000.Tick d) s = Some s1 /\
                          timeout <= Part000.now s1).
  { unfold Part000.step. rewrite Hp. apply Z.leb_le in Hd. rewrite Hd.
    eexists. split; [reflexivity|]. simpl. lia. }
  destruct Hs as (s1 & Hs1 & Ht).
  pose proof (p0_reachable_step _ _ _ _ Hr Hs1) as Hr1.
  destruct (p0_can_return_after_deadline _ _ _ _ Hc Hr1 Ht) as (acts & s2 & r & Hall & He & Hm).
  exists (Part000.Tick d :: acts), s2, r. simpl. rewrite Hs1. repeat split; auto.
  clear -Hall. induction acts as [|a acts IH]; [reflexivity|].
  simpl in *. apply andb_prop in Hall as [Ha Hall]. rewrite (IH Hall).
  destruct a; simpl in *; congruence.
Qed.

(** ** The models of the library calls on sample inputs *)

Example floatToken_samples :
  floatToken "42000.50" = ("42000.50", "")
  /\ floatToken "12abc" = ("12", "abc")
  /\ floatToken "-1.5e+3 USD" = ("-1.5e+3", " USD")
  /\ floatToken "0x1Fp-2zz" = ("0x1Fp-2", "zz")
  /\ floatToken "+Infinity" = ("+Inf", "inity")
  /\ floatToken "abc" = ("", "abc").
Proof. repeat split. Qed.

Example Sscanf_samples :
  Sscanf_f decimalFloat "42000.50" = Some 42000.5%float
  /\ Sscanf_f decimalFloat "  7.25 dollars" = Some 7.25%float
  /\ Sscanf_f decimalFloat "" = None
  /\ Sscanf_f decimalFloat "abc" = None.
Proof. repeat split. Qed.

Example decode_samples :
  unmarshalTicker (Some tickerBody) = Some [ {| PriceUSD := "42000.50" |} ]
  /\ unmarshalTicker (Some (JArr [])) = Some []
  /\ unmarshalTicker (Some (JObj [])) = None
  /\ unmarshalCryptoCompare (Some (JObj [("USD", JNum 42000.5)]))
     = Some {| ccUSD := 42000.5 |}
  /\ unmarshalCryptoCompare (Some (JObj [("usd", JNum 42000.5)]))
     = Some {| ccUSD := 42000.5 |}
  /\ unmarshalCryptoCompare (Some (JObj [("Response", JStr "Error")]))
     = Some {| ccUSD := 0 |}
  /\ unmarshalCryptoCompare (Some (JObj [("USD", JStr "42000.5")])) = None
  /\ unmarshalCryptoCompare None = None.
Proof. repeat split. Qed.

(* ===================================================================== *)
(** * The claims *)
(* ===================================================================== *)

(** No adapter of the second file sends a candidate. *)
Lemma p0_no_candidate_sent cf crypto w s :
  Part000.reachable (Part000.adapter cf crypto w) s ->
  List.find Part000.candidate (Part000.sent s) = None.
Proof.
  intros Hr.
  destruct (List.find Part000.candidate (Part000.sent s)) as [x|] eqn:E; [|reflexivity].
  apply List.find_some in E. destruct E as [Hin Hcand].
  destruct (p0_sent_origin _ _ _ _ _ (p0_adapter_contract cf crypto w) Hr Hin)
    as [p [->| ->]]; discriminate Hcand.
Qed.

(** C1.  In every race of either program, whatever the network answers
    and in whatever order the adapters complete, the result follows the
    order of the sends on the channel alone: when the channel history
    holds a quote with price > 0, the result is the first such quote, and
    when it holds none the result is no candidate ([PriceResult{0, "None",
    0}] in main.go), which the caller reports as a failure.  Prices are
    compared with 0 only, never with each other, and the measured duration
    is not looked at. *)
Theorem C1_first_candidate_wins
    (convertFloat : string -> option float) (crypto : string)
    (wM : MainGo.world) (wP : Part000.world) :
  (forall s r,
     MainGo.reachable (MainGo.adapter convertFloat crypto wM) s ->
     MainGo.main s = MainGo.Returned r ->
     match List.find MainGo.candidate (MainGo.sent s) with
     | Some first => r = first /\ PrimFloat.ltb 0 (MainGo.Price r) = true
     | None => r = MainGo.noResult
     end)
  /\
  (forall s r,
     Part000.reachable (Part000.adapter convertFloat crypto wP) s ->
     Part000.main s = Part000.Returned r ->
     match List.find Part000.candidate (Part000.sent s) with
     | Some first => r = first /\ PrimFloat.ltb 0 (Part000.Price r) = true
     | None => PrimFloat.ltb 0 (Part000.Price r) = false
     end).
Proof.
  split.
  - intros s r Hr Hm.
    pose proof (main_returns_first _ _ _ _ (main_adapter_contract convertFloat crypto wM)
                  Hr Hm) as H.
    unfold MainGo.firstCandidate in H.
    destruct (List.find MainGo.candidate (MainGo.sent s)) as [first|] eqn:E; [|exact H].
    split; [exact H|]. subst r. apply List.find_some in E. apply E.
  - intros s r Hr Hm.
    rewrite (p0_no_candidate_sent _ _ _ _ Hr).
    pose proof (p0_adapter_contract convertFloat crypto wP) as Hc.
    destruct (p0_all_fail _ _ _ _ _ Hc (fun p => conj eq_refl eq_refl) Hr Hm) as [H _].
    exact H.
Qed.

(** On a network on which CoinGecko quotes 42000.5 and CryptoCompare
    41000.5, with CryptoCompare completing first, main.go returns the
    CryptoCompare quote, the lower price; the second file on a network
    that answers every request returns a quote of price 0. *)
Lemma C1_good_network_witness :
  (exists s,
     MainGo.exec mainThirdFirst (MainGo.race decimalFloat "bitcoin" mainGood) = Some s /\
     MainGo.sent s = [MainGo.mkResult 41000.5 "CryptoCompare" 0;
                      MainGo.mkResult 42000.5 "CoinGecko" 0] /\
     MainGo.main s = MainGo.Returned (MainGo.mkResult 41000.5 "CryptoCompare" 0) /\
     match List.find MainGo.candidate (MainGo.sent s) with
     | Some first => MainGo.mkResult 41000.5 "CryptoCompare" 0 = first /\
                     PrimFloat.ltb 0 41000.5 = true
     | None => MainGo.mkResult 41000.5 "CryptoCompare" 0 = MainGo.noResult
     end)
  /\
  (exists s,
     Part000.exec (Part000.adapter decimalFloat "bitcoin" (Part000.World bitcoinNet 0%nat))
                  p0InOrder Part000.init = Some s /\
     Part000.main s = Part000.Returned (Part000.mkResult 0 "CoinGecko") /\
     match List.find Part000.candidate (Part000.sent s) with
     | Some first => Part000.mkResult 0 "CoinGecko" = first /\ PrimFloat.ltb 0 0 = true
     | None => PrimFloat.ltb 0 0 = false
     end).
Proof.
  pose proof (C1_first_candidate_wins decimalFloat "bitcoin" mainGood
                (Part000.World bitcoinNet 0%nat)) as [HM HP].
  split.
  - assert (Hex : exists s,
       MainGo.exec mainThirdFirst (MainGo.race decimalFloat "bitcoin" mainGood) = Some s /\
       MainGo.sent s = [MainGo.mkResult 41000.5 "CryptoCompare" 0;
                        MainGo.mkResult 42000.5 "CoinGecko" 0] /\
       MainGo.main s = MainGo.Returned (MainGo.mkResult 41000.5 "CryptoCompare" 0)).
    { eexists. split; [vm_compute; reflexivity|]. split; reflexivity. }
    destruct Hex as (s & He & Hs & Hm). exists s.
    split; [exact He|]. split; [exact Hs|]. split; [exact Hm|].
    exact (HM s _ (ex_intro _ _ He) Hm).
  - assert (Hex : exists s,
       Part000.exec (Part000.adapter decimalFloat "bitcoin" (Part000.World bitcoinNet 0%nat))
                    p0InOrder Part000.init = Some s /\
       Part000.main s = Part000.Returned (Part000.mkResult 0 "CoinGecko")).
    { eexists. split; [vm_compute; reflexivity|]. reflexivity. }
    destruct Hex as (s & He & Hm). exists s.
    split; [exact He|]. split; [exact Hm|].
    exact (HP s _ (ex_intro _ _ He) Hm).
Defined.

(** A price that is at most 0 fails the test [Price > 0]. *)
Lemma nonpositive_not_positive (x : float) :
  PrimFloat.leb x 0 = true -> PrimFloat.ltb 0 x = false.
Proof.
  rewrite FloatAxioms.leb_spec, FloatAxioms.ltb_spec.
  change (Prim2SF 0) with (S754_zero false).
  destruct (Prim2SF x) as [s| s| |s m e]; simpl; try destruct s; intros H;
    try reflexivity; discriminate.
Qed.

(** C2.  When every quote has price <= 0, main.go returns
    [PriceResult{0, "None", 0}] and the second file a result whose price is
    not above 0 (what its caller reports as a failure); each does return,
    and has returned only in states in which all three adapters have
    finished (every adapter has sent and called [wg.Done]).  The adapters are
    any goroutines that send one quote and then call [wg.Done]; for the
    second file [qn] are the quotes of requests that ended as the network
    answered and [qa] those of requests that ended on the cancelled
    context. *)
Theorem C2_all_fail_waits_for_adapters
    (progM : Provider -> list (effect MainGo.PriceResult))
    (qM : Provider -> MainGo.PriceResult)
    (progP : Provider -> bool -> list (effect Part000.PriceResult))
    (qn qa : Provider -> Part000.PriceResult)
    (HcM : mainContract progM qM)
    (HfM : forall p, PrimFloat.leb (MainGo.Price (qM p)) 0 = true)
    (HcP : p0Contract progP qn qa)
    (HfP : forall p, PrimFloat.leb (Part000.Price (qn p)) 0 = true /\
                     PrimFloat.leb (Part000.Price (qa p)) 0 = true) :
  (forall s r, MainGo.reachable progM s -> MainGo.main s = MainGo.Returned r ->
               r = MainGo.noResult /\ MainGo.finished s)
  /\ (forall s, MainGo.reachable progM s ->
        exists acts s', MainGo.exec acts s = Some s' /\
                        MainGo.main s' = MainGo.Returned MainGo.noResult)
  /\ (forall s r, Part000.reachable progP s -> Part000.main s = Part000.Returned r ->
                  Part000.candidate r = false /\ Part000.finished s)
  /\ (forall s, Part000.reachable progP s ->
        exists acts s' r, Part000.exec progP acts s = Some s' /\
                          Part000.main s' = Part000.Returned r /\
                          Part000.candidate r = false).
Proof.
  assert (HfM' : forall p, MainGo.candidate (qM p) = false).
  { intros p. apply nonpositive_not_positive, HfM. }
  assert (HfP' : forall p, Part000.candidate (qn p) = false /\
                           Part000.candidate (qa p) = false).
  { intros p. destruct (HfP p). split; apply nonpositive_not_positive; assumption. }
  repeat split.
  - eapply main_all_fail; eauto.
  - eapply main_all_fail; eauto.
  - intros s Hr. eapply main_can_return_noResult; eauto.
  - eapply p0_all_fail; eauto.
  - eapply p0_all_fail; eauto.
  - intros s Hr.
    destruct (p0_can_return _ _ _ _ HcP Hr) as (acts & s' & r & _ & He & Hm).
    assert (Hr' : Part000.reachable progP s').
    { destruct Hr as [acts0 H0]. exists (acts0 ++ acts). rewrite p0_exec_app, H0. exact He. }
    exists acts, s', r. repeat split; auto.
    eapply p0_all_fail; eauto.
Qed.

(** The race on a dead network: both programs, complete schedules. *)
Lemma C2_dead_network_witness :
  mainContract (MainGo.adapter decimalFloat "bitcoin" mainDead)
               (mainQuote decimalFloat "bitcoin" mainDead)
  /\ (forall p, PrimFloat.leb (MainGo.Price (mainQuote decimalFloat "bitcoin" mainDead p)) 0
                = true)
  /\ p0Contract (Part000.adapter decimalFloat "bitcoin" p0Dead) p0Quote p0Quote
  /\ (forall p, PrimFloat.leb (Part000.Price (p0Quote p)) 0 = true /\
                PrimFloat.leb (Part000.Price (p0Quote p)) 0 = true)
  /\ (exists s, MainGo.exec mainInOrder (MainGo.race decimalFloat "bitcoin" mainDead) = Some s
                /\ MainGo.main s = MainGo.Returned MainGo.noResult /\ MainGo.finished s)
  /\ (exists s, Part000.exec (Part000.adapter decimalFloat "bitcoin" p0Dead) p0InOrder
                  Part000.init = Some s
                /\ Part000.main s = Part000.Returned (Part000.mkResult 0 "CoinGecko")
                /\ Part000.candidate (Part000.mkResult 0 "CoinGecko") = false
                /\ Part000.finished s).
Proof.
  assert (H1 : mainContract (MainGo.adapter decimalFloat "bitcoin" mainDead)
                            (mainQuote decimalFloat "bitcoin" mainDead)).
  { intros p; destruct p; reflexivity. }
  assert (H2 : forall p, PrimFloat.leb
                 (MainGo.Price (mainQuote decimalFloat "bitcoin" mainDead p)) 0 = true).
  { intros p; destruct p; reflexivity. }
  assert (H3 : p0Contract (Part000.adapter decimalFloat "bitcoin" p0Dead) p0Quote p0Quote).
  { intros p; destruct p; split; reflexivity. }
  assert (H4 : forall p, PrimFloat.leb (Part000.Price (p0Quote p)) 0 = true /\
                         PrimFloat.leb (Part000.Price (p0Quote p)) 0 = true).
  { intros p; destruct p; split; reflexivity. }
  destruct (C2_all_fail_waits_for_adapters _ _ _ _ _ H1 H2 H3 H4) as (Ha & _ & Hb & _).
  split; [exact H1|]. split; [exact H2|]. split; [exact H3|]. split; [exact H4|].
  split.
  - assert (Hex : exists s,
        MainGo.exec mainInOrder (MainGo.race decimalFloat "bitcoin" mainDead) = Some s
        /\ MainGo.main s = MainGo.Returned MainGo.noResult)
      by (eexists; split; vm_compute; reflexivity).
    destruct Hex as (s & He & Hm). exists s.
    split; [exact He|]. split; [exact Hm|].
    apply (Ha s _ (ex_intro _ _ He) Hm).
  - assert (Hex : exists s,
        Part000.exec (Part000.adapter decimalFloat "bitcoin" p0Dead) p0InOrder
          Part000.init = Some s
        /\ Part000.main s = Part000.Returned (Part000.mkResult 0 "CoinGecko"))
      by (eexists; split; vm_compute; reflexivity).
    destruct Hex as (s & He & Hm). exists s.
    split; [exact He|]. split; [exact Hm|].
    apply (Hb s _ (ex_intro _ _ He) Hm).
Defined.

(** The race of main.go itself, when no adapter sends a candidate. *)
Lemma main_race_all_fail cf crypto w :
  (forall p r, In (ESend r) (MainGo.adapter cf crypto w p) -> MainGo.candidate r = false) ->
  forall p, MainGo.candidate (mainQuote cf crypto w p) = false.
Proof.
  intros Hno p. apply (Hno p).
  rewrite (main_adapter_contract cf crypto w p). left. reflexivity.
Qed.

Lemma providerName_not_None p : providerName p <> "None".
Proof. destruct p; discriminate. Qed.

(** C10.  In main.go, when no adapter sends a quote with price > 0, every
    race returns exactly [PriceResult{0, "None", 0}], and it does return;
    ["None"] is the name of no provider. *)
Theorem C10_main_go_failure_sentinel
    (convertFloat : string -> option float) (crypto : string) (w : MainGo.world)
    (Hno : forall p r, In (ESend r) (MainGo.adapter convertFloat crypto w p) ->
                       MainGo.candidate r = false) :
  (forall s r, MainGo.reachable (MainGo.adapter convertFloat crypto w) s ->
               MainGo.main s = MainGo.Returned r ->
               r = MainGo.mkResult 0 "None" 0)
  /\ (forall s, MainGo.reachable (MainGo.adapter convertFloat crypto w) s ->
        exists acts s', MainGo.exec acts s = Some s' /\
                        MainGo.main s' = MainGo.Returned (MainGo.mkResult 0 "None" 0))
  /\ (forall p, providerName p <> "None").
Proof.
  pose proof (main_adapter_contract convertFloat crypto w) as Hc.
  pose proof (main_race_all_fail _ _ _ Hno) as Hall.
  split; [|split].
  - intros s r Hr Hm. eapply main_all_fail; eauto.
  - intros s Hr. eapply main_can_return_noResult; eauto.
  - apply providerName_not_None.
Qed.

Lemma C10_dead_network_witness :
  (forall p r, In (ESend r) (MainGo.adapter decimalFloat "bitcoin" mainDead p) ->
               MainGo.candidate r = false)
  /\ exists s,
       MainGo.exec mainInOrder (MainGo.race decimalFloat "bitcoin" mainDead) = Some s /\
       MainGo.main s = MainGo.Returned (MainGo.mkResult 0 "None" 0).
Proof.
  assert (Hno : forall p r, In (ESend r) (MainGo.adapter decimalFloat "bitcoin" mainDead p) ->
                            MainGo.candidate r = false).
  { intros p r H. destruct p; simpl in H;
      destruct H as [H|[H|[]]]; try discriminate; injection H as <-; reflexivity. }
  split; [exact Hno|].
  destruct (C10_main_go_failure_sentinel decimalFloat "bitcoin" mainDead Hno) as (Ha & _ & _).
  assert (Hex : exists s r,
      MainGo.exec mainInOrder (MainGo.race decimalFloat "bitcoin" mainDead) = Some s
      /\ MainGo.main s = MainGo.Returned r)
    by (do 2 eexists; split; vm_compute; reflexivity).
  destruct Hex as (s & r & He & Hm). exists s. split; [exact He|].
  rewrite Hm. f_equal. apply (Ha s r (ex_intro _ _ He) Hm).
Defined.

(** C3 (counterexample).  In main.go twenty seconds after the race began,
    with no quote delivered, the caller is still in its loop and can take
    no step: neither the loop nor the closing goroutine can move before
    the adapters do. *)
Lemma C3_main_go_has_no_deadline :
  exists s,
    MainGo.exec [MainGo.Tick (2 * timeout)] (MainGo.race decimalFloat "bitcoin" mainDead)
      = Some s /\
    timeout < MainGo.now s /\ MainGo.sent s = [] /\
    MainGo.main s = MainGo.Ranging /\
    MainGo.step MainGo.Recv s = None /\ MainGo.step MainGo.Close s = None.
Proof.
  eexists. split; [vm_compute; reflexivity|]. repeat split.
Qed.

Lemma main_time_enables_nothing s d s' a :
  MainGo.step (MainGo.Tick d) s = Some s' -> mainIsTick a = false ->
  (MainGo.step a s = None <-> MainGo.step a s' = None).
Proof.
  intros Hs Ha. unfold MainGo.step in Hs.
  destruct (MainGo.panicked s) eqn:Hp; [discriminate|].
  destruct (0 <=? d); [|discriminate]. injection Hs as <-.
  unfold MainGo.step. simpl. rewrite Hp.
  destruct a as [d'|p| |]; [discriminate| | |].
  - destruct (tget p (MainGo.adapters s)) as [|[r|] k]; [tauto| |].
    + destruct (MainGo.closed s); [split; discriminate|].
      destruct (length (MainGo.buf s) <? capacity)%nat; [split; discriminate|tauto].
    + destruct (MainGo.wg s <=? 0); split; discriminate.
  - destruct (MainGo.closed s); [tauto|].
    destruct (MainGo.wg s =? 0); [split; discriminate|tauto].
  - destruct (MainGo.main s); [|tauto].
    destruct (MainGo.buf s); [|split; discriminate].
    destruct (MainGo.closed s); [split; discriminate|tauto].
Qed.

Lemma p0_timeout_branch prog s s' :
  Part000.step prog Part000.SelectTimeout s = Some s' ->
  timeout <= Part000.now s /\ Part000.main s = Part000.Selecting /\
  Part000.main s' = Part000.Waiting Part000.zeroResult /\ Part000.cancelled s' = true.
Proof.
  unfold Part000.step. destruct (Part000.panicked s); [discriminate|].
  destruct (Part000.main s); try discriminate.
  destruct (timeout <=? Part000.now s) eqn:E; [|discriminate].
  intros [= <-]. apply Z.leb_le in E. auto.
Qed.

(** C3 (amended).  Only the second file has the deadline.  There the
    timeout branch of the [select] is taken no earlier than ten seconds
    after the race began, with the zero result and the cancellation; from
    the deadline on the caller reaches its return by steps that wait
    neither for the clock nor for the network; and what it returns is no
    candidate unless a candidate was sent on the channel.  In main.go the
    passing of time enables no step, and a result that is no candidate is
    returned only once all three adapters have finished. *)
Theorem C3_deadline_only_in_second_file
    (progM : Provider -> list (effect MainGo.PriceResult))
    (qM : Provider -> MainGo.PriceResult)
    (progP : Provider -> bool -> list (effect Part000.PriceResult))
    (qn qa : Provider -> Part000.PriceResult)
    (HcM : mainContract progM qM) (HcP : p0Contract progP qn qa) :
  (forall s s', Part000.step progP Part000.SelectTimeout s = Some s' ->
                timeout <= Part000.now s /\
                Part000.main s' = Part000.Waiting Part000.zeroResult /\
                Part000.cancelled s' = true)
  /\ (forall s, Part000.reachable progP s -> timeout <= Part000.now s ->
        exists acts s' r, forallb p0Internal acts = true /\
                          Part000.exec progP acts s = Some s' /\
                          Part000.main s' = Part000.Returned r)
  /\ (forall s r, Part000.reachable progP s -> Part000.main s = Part000.Returned r ->
                  p0NoCandidate (Part000.sent s) -> Part000.candidate r = false)
  /\ (forall s d s' a, MainGo.step (MainGo.Tick d) s = Some s' -> mainIsTick a = false ->
                       (MainGo.step a s = None <-> MainGo.step a s' = None))
  /\ (forall s r, MainGo.reachable progM s -> MainGo.main s = MainGo.Returned r ->
                  MainGo.candidate r = false ->
                  r = MainGo.noResult /\ MainGo.finished s).
Proof.
  split; [|split; [|split; [|split]]].
  - intros s s' H. apply p0_timeout_branch in H. tauto.
  - intros s Hr Ht. eapply p0_can_return_after_deadline; eauto.
  - intros s r Hr Hm Hno.
    destruct (p0_result_origin _ _ _ _ _ HcP Hr Hm) as [->|Hin]; [reflexivity|].
    unfold p0NoCandidate in Hno. rewrite Forall_forall in Hno.
    apply Hno, list_elem_of_In, Hin.
  - apply main_time_enables_nothing.
  - intros s r Hr Hm Hno.
    destruct (main_failure_after_all _ _ _ _ HcM Hr Hm Hno) as (H1 & _ & H2). auto.
Qed.

Lemma C3_timed_out_witness :
  mainContract (MainGo.adapter decimalFloat "bitcoin" mainDead)
               (mainQuote decimalFloat "bitcoin" mainDead)
  /\ p0Contract (Part000.adapter decimalFloat "bitcoin" p0Dead) p0Quote p0Quote
  /\ (exists s,
        Part000.exec (Part000.adapter decimalFloat "bitcoin" p0Dead) p0TimedOut Part000.init
          = Some s /\
        Part000.now s = timeout /\
        Part000.main s = Part000.Returned Part000.zeroResult /\
        Part000.candidate Part000.zeroResult = false).
Proof.
  assert (H1 : mainContract (MainGo.adapter decimalFloat "bitcoin" mainDead)
                            (mainQuote decimalFloat "bitcoin" mainDead)).
  { intros p; destruct p; reflexivity. }
  assert (H2 : p0Contract (Part000.adapter decimalFloat "bitcoin" p0Dead) p0Quote p0Quote).
  { intros p; destruct p; split; reflexivity. }
  split; [exact H1|]. split; [exact H2|].
  destruct (C3_deadline_only_in_second_file _ _ _ _ _ H1 H2) as (_ & _ & Hc & _).
  assert (Hex : exists s,
      Part000.exec (Part000.adapter decimalFloat "bitcoin" p0Dead) p0TimedOut Part000.init
        = Some s /\
      Part000.now s = timeout /\
      Part000.main s = Part000.Returned Part000.zeroResult /\
      p0NoCandidate (Part000.sent s)).
  { eexists. split; [vm_compute; reflexivity|]. split; [reflexivity|].
    split; [reflexivity|]. repeat constructor. }
  destruct Hex as (s & He & Hn & Hm & Hs). exists s.
  split; [exact He|]. split; [exact Hn|]. split; [exact Hm|].
  apply (Hc s _ (ex_intro _ _ He) Hm Hs).
Defined.

(** C4 (counterexample).  In main.go, after the caller has returned the
    CoinGecko quote, the CryptoCompare request, then still in flight, is
    not cancelled: it completes with its answer and its quote of price
    41000.5 is sent on the channel.  In the second file the caller has
    taken the CoinGecko quote of price 100, a candidate, while the other
    two requests are still in flight; it cannot go on towards its return:
    [wg.Wait] does not return and the range loop is not reached. *)
Lemma C4_second_file_waits_after_winner :
  (exists s,
     MainGo.exec mainLateSecond (MainGo.race decimalFloat "bitcoin" mainGood) = Some s /\
     MainGo.main s = MainGo.Returned (MainGo.mkResult 42000.5 "CoinGecko" 0) /\
     MainGo.sent s = [MainGo.mkResult 42000.5 "CoinGecko" 0;
                      MainGo.mkResult 41000.5 "CryptoCompare" 0])
  /\
  (exists s,
     Part000.exec (p0Deliver twoCandidates) p0WinnerTaken Part000.init = Some s /\
     Part000.main s = Part000.Waiting (Part000.mkResult 100 "CoinGecko") /\
     Part000.candidate (Part000.mkResult 100 "CoinGecko") = true /\
     tget CoinMarketCap (Part000.adapters s) = Part000.Pending /\
     tget CryptoCompare (Part000.adapters s) = Part000.Pending /\
     Part000.step (p0Deliver twoCandidates) Part000.WaitClose s = None /\
     Part000.step (p0Deliver twoCandidates) Part000.Drain s = None).
Proof.
  split; eexists; (split; [vm_compute; reflexivity|]); repeat split.
Qed.

(** main.go can return a candidate while the other adapters have not
    even sent. *)
Lemma main_returns_without_waiting prog q p :
  mainContract prog q -> MainGo.candidate (q p) = true ->
  exists s, MainGo.exec [MainGo.Run p; MainGo.Recv] (MainGo.init prog) = Some s /\
            MainGo.main s = MainGo.Returned (q p) /\
            forall p', p' <> p -> tget p' (MainGo.adapters s) = prog p'.
Proof.
  intros Hc Hcand.
  assert (H1 : MainGo.step (MainGo.Run p) (MainGo.init prog)
               = Some (MainGo.State 0 (tset p [EDone] (tinit prog)) [q p] false 3
                                    MainGo.Ranging false [q p])).
  { unfold MainGo.step, MainGo.init. simpl. rewrite tget_tinit, Hc. reflexivity. }
  eexists. split.
  - simpl. rewrite H1. unfold MainGo.step. simpl. rewrite Hcand. reflexivity.
  - simpl. split; [reflexivity|].
    intros p' Hne. rewrite tget_tset_other by congruence. apply tget_tinit.
Qed.

(** C4 (amended).  main.go returns as soon as its loop takes a candidate,
    without waiting for the other adapters, and it has no cancellation: an
    adapter in flight still delivers its quote, its send neither blocked
    nor on a closed channel, whatever the caller has done.  The second file
    cancels the context as soon as its [select] has fired, whether on a
    first quote (candidate or not) or on the timer, and it returns only
    when all three adapters have finished. *)
Theorem C4_cancel_then_wait
    (progM : Provider -> list (effect MainGo.PriceResult))
    (qM : Provider -> MainGo.PriceResult)
    (progP : Provider -> bool -> list (effect Part000.PriceResult))
    (qn qa : Provider -> Part000.PriceResult)
    (HcM : mainContract progM qM) (HcP : p0Contract progP qn qa) :
  (forall p, MainGo.candidate (qM p) = true ->
     exists s, MainGo.reachable progM s /\ MainGo.main s = MainGo.Returned (qM p) /\
               forall p', p' <> p -> tget p' (MainGo.adapters s) = progM p')
  /\ (forall s p r k, MainGo.reachable progM s ->
        tget p (MainGo.adapters s) = ESend r :: k ->
        exists s', MainGo.step (MainGo.Run p) s = Some s' /\
                   MainGo.panicked s' = false /\
                   MainGo.sent s' = MainGo.sent s ++ [qM p] /\
                   MainGo.main s' = MainGo.main s)
  /\ (forall s, Part000.reachable progP s -> Part000.main s <> Part000.Selecting ->
                Part000.cancelled s = true)
  /\ (forall s r, Part000.reachable progP s -> Part000.main s = Part000.Returned r ->
                  Part000.finished s).
Proof.
  split; [|split; [|split]].
  - intros p Hcand.
    destruct (main_returns_without_waiting _ _ p HcM Hcand) as (s & He & Hm & Hrest).
    exists s. split; [eexists; exact He|]. auto.
  - intros s p r k Hr E. eapply main_send_enabled; eauto using main_invariant.
  - intros s Hr Hm. eapply p0_cancelled_after_select; eauto.
  - intros s r Hr Hm. eapply p0_returned_after_all; eauto.
Qed.

Lemma C4_two_candidates_witness :
  mainContract (mainDeliver twoCandidates)
               (fun p => MainGo.mkResult (twoCandidates p) (providerName p) 0)
  /\ p0Contract (p0Deliver twoCandidates)
                (fun p => Part000.mkResult (twoCandidates p) (providerName p))
                (fun p => Part000.mkResult (twoCandidates p) (providerName p))
  /\ (exists s, MainGo.reachable (mainDeliver twoCandidates) s /\
                MainGo.main s = MainGo.Returned (MainGo.mkResult 100 "CoinGecko" 0) /\
                tget CoinMarketCap (MainGo.adapters s) = mainDeliver twoCandidates CoinMarketCap)
  /\ (exists s, Part000.exec (p0Deliver twoCandidates) p0TwoEarly Part000.init = Some s /\
                Part000.cancelled s = true /\ Part000.finished s).
Proof.
  assert (H1 : mainContract (mainDeliver twoCandidates)
                 (fun p => MainGo.mkResult (twoCandidates p) (providerName p) 0)).
  { intros p; reflexivity. }
  assert (H2 : p0Contract (p0Deliver twoCandidates)
                 (fun p => Part000.mkResult (twoCandidates p) (providerName p))
                 (fun p => Part000.mkResult (twoCandidates p) (providerName p))).
  { intros p; split; reflexivity. }
  split; [exact H1|]. split; [exact H2|].
  destruct (C4_cancel_then_wait _ _ _ _ _ H1 H2) as (Ha & _ & Hb & Hc).
  split.
  - destruct (Ha CoinGecko eq_refl) as (s & Hr & Hm & Hrest).
    exists s. split; [exact Hr|]. split; [exact Hm|]. apply Hrest. discriminate.
  - assert (Hex : exists s r,
        Part000.exec (p0Deliver twoCandidates) p0TwoEarly Part000.init = Some s /\
        Part000.main s = Part000.Returned r)
      by (do 2 eexists; split; vm_compute; reflexivity).
    destruct Hex as (s & r & He & Hm). exists s.
    split; [exact He|]. split.
    + apply Hb; [eexists; exact He|]. rewrite Hm. discriminate.
    + apply (Hc s r); [eexists; exact He|exact Hm].
Defined.

(** C5 (counterexample).  In main.go a CryptoCompare answer with status
    500 and the body [{"USD": 42000.5}] gives the quote 42000.5, a
    candidate, not a quote of price 0. *)
Lemma C5_main_go_ignores_status :
  MainGo.get mainError (Sprintf1 cryptocompareAPI "bitcoin")
    = Response 500 (Some (JObj [("USD", JNum 42000.5)]))
  /\ MainGo.adapter decimalFloat "bitcoin" mainError CryptoCompare
     = [ESend (MainGo.mkResult 42000.5 "CryptoCompare" 0); EDone]
  /\ MainGo.candidate (MainGo.mkResult 42000.5 "CryptoCompare" 0) = true.
Proof. repeat split. Qed.

Lemma main_undecodable_zero cf crypto w p status :
  MainGo.get w (Sprintf1 (apiOf p) crypto) = Response status None ->
  MainGo.adapter cf crypto w p
  = [ESend (MainGo.mkResult 0 (providerName p) (MainGo.elapsed w p)); EDone].
Proof.
  intros H. destruct p; simpl in *;
    [unfold MainGo.fetchCryptoPriceFromCoingecko
    |unfold MainGo.fetchCryptoPriceFromCoinMarketCap
    |unfold MainGo.fetchCryptoPriceFromCryptoCompare]; rewrite H; reflexivity.
Qed.

(** C5 (amended).  In the second file [fetchCryptoPrice] answers every
    status other than 200 with one quote of price 0 under the name it was
    given, and each adapter is given the name of its own provider.
    main.go does not look at the status: two networks whose answers differ
    in status only give the same quotes, so an answer with another status
    gives price 0 only through its body, for one when the body cannot be
    decoded. *)
Theorem C5_status_checked_only_in_second_file
    (convertFloat : string -> option float) (crypto : string) :
  (forall parseFunc source status data, status <> StatusOK ->
     Part000.fetchCryptoPrice (Response status data) parseFunc source
     = [ESend (Part000.mkResult 0 source); EDone])
  /\ (forall w p c status data,
        Part000.outcome crypto w p c = Response status data -> status <> StatusOK ->
        Part000.adapter convertFloat crypto w p c
        = [ESend (Part000.mkResult 0 (providerName p)); EDone])
  /\ (forall get1 get2 el p,
        (forall url, bodyOf (get1 url) = bodyOf (get2 url)) ->
        MainGo.adapter convertFloat crypto (MainGo.World get1 el) p
        = MainGo.adapter convertFloat crypto (MainGo.World get2 el) p)
  /\ (forall w p status,
        MainGo.get w (Sprintf1 (apiOf p) crypto) = Response status None ->
        MainGo.adapter convertFloat crypto w p
        = [ESend (MainGo.mkResult 0 (providerName p) (MainGo.elapsed w p)); EDone]).
Proof.
  split; [|split; [|split]].
  - intros. apply p0_fetch_not_ok. assumption.
  - intros w p c status data Ho Hs. unfold Part000.adapter. rewrite Ho.
    apply p0_fetch_not_ok. exact Hs.
  - intros. apply main_status_ignored. assumption.
  - intros. eapply main_undecodable_zero. eassumption.
Qed.

(** C6.  Every adapter goroutine, whatever its request comes back with,
    sends exactly one quote, under the name of its provider, and then calls
    [wg.Done]; the goroutine has no other effect and returns nothing.  In
    main.go every failure of the request, of the decoding or of the lookup
    gives price 0.  In the second file the price is 0 on every path but
    the one on which [parseFunc] returned without error, and the parse
    functions report an error for a body they cannot decode.  In a race no
    send finds the channel closed or full and [wg.Done] never drives the
    counter below zero: no goroutine panics and no producer blocks. *)
Theorem C6_one_send_per_adapter
    (convertFloat : string -> option float) (crypto : string)
    (wM : MainGo.world) (wP : Part000.world) :
  (forall p, exists r,
     MainGo.adapter convertFloat crypto wM p = [ESend r; EDone] /\
     MainGo.Source r = providerName p /\
     (mainFailure crypto wM p -> MainGo.Price r = 0%float))
  /\ (forall outcome parseFunc source, exists r,
        Part000.fetchCryptoPrice outcome parseFunc source = [ESend r; EDone] /\
        Part000.Source r = source /\
        (notOK outcome -> Part000.Price r = 0%float) /\
        (Part000.Price r = 0%float \/
         exists j, Part000.json_Marshal Part000.GoFunc = Some j /\
                   parseFunc (Some j) = (Part000.Price r, false)))
  /\ (forall pick data,
        (unmarshalPriceMap data = None ->
         Part000.parseCoingecko pick data = (0%float, true)) /\
        (unmarshalTicker data = None ->
         Part000.parseCoinMarketCap convertFloat data = (0%float, true)) /\
        (unmarshalCryptoCompare data = None ->
         Part000.parseCryptoCompare data = (0%float, true)))
  /\ (forall s, MainGo.reachable (MainGo.adapter convertFloat crypto wM) s ->
        MainGo.panicked s = false /\
        forall p r k, tget p (MainGo.adapters s) = ESend r :: k ->
          exists s', MainGo.step (MainGo.Run p) s = Some s' /\ MainGo.panicked s' = false)
  /\ (forall s, Part000.reachable (Part000.adapter convertFloat crypto wP) s ->
        Part000.panicked s = false /\
        forall p r k, tget p (Part000.adapters s) = Part000.Running (ESend r :: k) ->
          exists s', Part000.step (Part000.adapter convertFloat crypto wP)
                       (Part000.Run p) s = Some s' /\
                     Part000.panicked s' = false).
Proof.
  split; [|split; [|split; [|split]]].
  - intros p.
    destruct (main_adapter_sends_once convertFloat crypto wM p) as (r & Hr & Hs & _).
    exists r. split; [exact Hr|]. split; [exact Hs|].
    intros Hf. pose proof (main_failure_zero convertFloat _ _ _ Hf) as H.
    unfold mainQuote in H. rewrite Hr in H. exact H.
  - intros outcome parseFunc source.
    exists (Part000.mkResult 0 source).
    split; [apply p0_fetch_always|]. simpl. auto.
  - intros pick data. unfold Part000.parseCoingecko, Part000.parseCoinMarketCap,
      Part000.parseCryptoCompare.
    repeat split; intros ->; reflexivity.
  - intros s Hr.
    pose proof (main_invariant _ _ _ (main_adapter_contract convertFloat crypto wM) Hr) as Hi.
    split; [apply (mi_panic _ _ Hi)|].
    intros p r k E. destruct (main_send_enabled _ _ _ _ _ Hi E) as (s' & H1 & H2 & _).
    eauto.
  - intros s Hr.
    pose proof (p0_invariant _ _ _ _ (p0_adapter_contract convertFloat crypto wP) Hr) as Hi.
    split; [apply (pi_panic _ _ _ Hi)|].
    intros p r k E. eapply p0_send_enabled; eauto.
Qed.

(** C7 (counterexample).  [parseCoingecko] of the second file is not given
    the identifier.  For the body [{"ethereum": {"usd": 3000.5}}], which
    has no entry for "bitcoin", it returns the price 3000.5 and no error,
    not a price of 0. *)
Lemma C7_parseCoingecko_ignores_identifier :
  noKey "bitcoin" [("ethereum", JObj [("usd", JNum 3000.5)])]
  /\ Part000.parseCoingecko 0 (Some ethereumBody) = (3000.5%float, false).
Proof.
  split.
  - repeat constructor. discriminate.
  - vm_compute. reflexivity.
Qed.

(** C7 (amended).  main.go decodes the body as a map from coin to an
    object with a [usd] field and takes the price stored under the
    requested identifier: 42000.5 for "bitcoin" and
    [{"bitcoin": {"usd": 42000.5}}], and 0 for an object without that key.
    [parseCoingecko] of the second file returns the price of an entry of
    the decoded map without comparing its key with the identifier, the
    only entry when there is one (42000.5 for the example body), and
    reports an error only for a map without entries. *)
Theorem C7_coingecko_extraction
    (convertFloat : string -> option float) (crypto : string) (w : MainGo.world)
    (status : Z) (data : body)
    (Hget : MainGo.get w (Sprintf1 coingeckoAPI crypto) = Response status data) :
  (forall result, unmarshalPriceMap data = Some result ->
     MainGo.Price (mainQuote convertFloat crypto w CoinGecko)
     = match result !! crypto with Some price => cpUSD price | None => 0%float end)
  /\ (crypto = "bitcoin" -> data = Some bitcoinBody ->
      MainGo.adapter convertFloat crypto w CoinGecko
      = [ESend (MainGo.mkResult 42000.5 "CoinGecko" (MainGo.elapsed w CoinGecko)); EDone])
  /\ (forall members, data = Some (JObj members) -> noKey crypto members ->
        MainGo.Price (mainQuote convertFloat crypto w CoinGecko) = 0%float)
  /\ (forall pick result, unmarshalPriceMap data = Some result ->
        (result = ∅ /\ Part000.parseCoingecko pick data = (0%float, true))
        \/ (exists k v, result !! k = Some v /\
                        Part000.parseCoingecko pick data = (cpUSD v, false)))
  /\ (forall pick, Part000.parseCoingecko pick (Some bitcoinBody) = (42000.5%float, false)).
Proof.
  split; [|split; [|split; [|split]]].
  - intros result Hd. eapply main_coingecko_lookup; eauto.
  - intros -> ->. simpl. unfold MainGo.fetchCryptoPriceFromCoingecko.
    rewrite Hget, bitcoinBody_decodes. rewrite lookup_singleton_eq. reflexivity.
  - intros members -> Hk. eapply main_coingecko_missing; eauto.
  - intros pick result Hd. apply p0_parseCoingecko_some_entry. exact Hd.
  - apply p0_parseCoingecko_bitcoin.
Qed.

Lemma C7_bitcoin_witness :
  MainGo.get (MainGo.World bitcoinNet (fun _ => 0)) (Sprintf1 coingeckoAPI "bitcoin")
    = Response 200 (Some bitcoinBody)
  /\ MainGo.adapter decimalFloat "bitcoin" (MainGo.World bitcoinNet (fun _ => 0)) CoinGecko
     = [ESend (MainGo.mkResult 42000.5 "CoinGecko" 0); EDone]
  /\ MainGo.Price (mainQuote decimalFloat "ethereum" (MainGo.World bitcoinNet (fun _ => 0))
                     CoinGecko) = 0%float.
Proof.
  assert (H1 : MainGo.get (MainGo.World bitcoinNet (fun _ => 0))
                 (Sprintf1 coingeckoAPI "bitcoin") = Response 200 (Some bitcoinBody))
    by reflexivity.
  assert (H2 : MainGo.get (MainGo.World bitcoinNet (fun _ => 0))
                 (Sprintf1 coingeckoAPI "ethereum") = Response 200 (Some bitcoinBody))
    by reflexivity.
  split; [exact H1|]. split.
  - destruct (C7_coingecko_extraction decimalFloat "bitcoin" _ _ _ H1) as (_ & H & _).
    apply H; reflexivity.
  - destruct (C7_coingecko_extraction decimalFloat "ethereum" _ _ _ H2) as (_ & _ & H & _).
    eapply H; [reflexivity|]. repeat constructor. discriminate.
Defined.

(** C8 (counterexample).  The price text "12abc" is no well-formed
    decimal, yet both files read the price 12 from it, a candidate:
    the token of [Sscanf] ends before the letter a, and what follows the
    token is not read. *)
Lemma C8_numeric_prefix_is_read :
  wellFormedDecimal "12abc" = false
  /\ MainGo.get mainTicker (Sprintf1 coinmarketcapAPI "bitcoin")
     = Response 200 (Some (JArr [JObj [("price_usd", JStr "12abc")]]))
  /\ MainGo.adapter decimalFloat "bitcoin" mainTicker CoinMarketCap
     = [ESend (MainGo.mkResult 12 "CoinMarketCap" 0); EDone]
  /\ MainGo.candidate (MainGo.mkResult 12 "CoinMarketCap" 0) = true
  /\ Part000.parseCoinMarketCap decimalFloat
       (Some (JArr [JObj [("price_usd", JStr "12abc")]])) = (12%float, false).
Proof. repeat split. Qed.

Lemma scanPrice_digits_prefix cf d ds rest :
  allDigits (String d ds) = true -> stops rest = true ->
  scanPrice cf (String d ds ++ rest)%string = scanPrice cf (String d ds).
Proof.
  intros Hd Hs. unfold scanPrice.
  rewrite (Sscanf_digits_prefix cf d ds rest Hd Hs).
  rewrite <- (string_app_nil_r (String d ds)) at 2.
  rewrite (Sscanf_digits_prefix cf d ds "" Hd eq_refl). reflexivity.
Qed.

(** C8 (amended).  For the body [[{"price_usd": "42000.50"}]] both files
    extract 42000.50, and for the empty array [[]] main.go sends price 0
    and [parseCoinMarketCap] reports an error.  Otherwise the price is what
    [Sscanf] reads from the [price_usd] text of the first element: 0 when
    the text holds no token (it is empty, as for a missing field, or starts
    with a rune that is neither white space nor a digit nor one of
    [+ - . _ n N i I e E p P]); and when the text is a run of
    decimal digits followed by the end of the text or by a rune that is
    neither a digit nor one of [_ . e E p P x X], the price is the one the
    digits alone give, whatever comes after that rune.  Text in which one
    of the listed runes follows the digits is not covered.  The conversion
    of a token is assumed to map "42000.50" to 42000.5 and to reject the
    empty token. *)
Theorem C8_coinmarketcap_extraction
    (convertFloat : string -> option float) (crypto : string) (w : MainGo.world)
    (status : Z) (data : body)
    (Hget : MainGo.get w (Sprintf1 coinmarketcapAPI crypto) = Response status data)
    (Hexample : convertFloat "42000.50" = Some 42000.5%float)
    (Hempty : convertFloat "" = None) :
  (data = Some tickerBody ->
   MainGo.adapter convertFloat crypto w CoinMarketCap
   = [ESend (MainGo.mkResult 42000.5 "CoinMarketCap" (MainGo.elapsed w CoinMarketCap)); EDone]
   /\ Part000.parseCoinMarketCap convertFloat data = (42000.5%float, false))
  /\ (data = Some (JArr []) ->
      MainGo.adapter convertFloat crypto w CoinMarketCap
      = [ESend (MainGo.mkResult 0 "CoinMarketCap" (MainGo.elapsed w CoinMarketCap)); EDone]
      /\ Part000.parseCoinMarketCap convertFloat data = (0%float, true))
  /\ (forall first more, unmarshalTicker data = Some (first :: more) ->
        MainGo.Price (mainQuote convertFloat crypto w CoinMarketCap)
        = scanPrice convertFloat (PriceUSD first)
        /\ Part000.parseCoinMarketCap convertFloat data
           = (scanPrice convertFloat (PriceUSD first), false))
  /\ (forall text, noToken text = true -> scanPrice convertFloat text = 0%float)
  /\ (forall d ds rest, allDigits (String d ds) = true -> stops rest = true ->
        scanPrice convertFloat (String d ds ++ rest)%string
        = scanPrice convertFloat (String d ds)).
Proof.
  assert (Hscan : scanPrice convertFloat "42000.50" = 42000.5%float).
  { assert (Hsk : SkipSpace "42000.50" = Some "42000.50") by reflexivity.
    assert (Htok : floatToken "42000.50" = ("42000.50", "")) by reflexivity.
    unfold scanPrice, Sscanf_f. rewrite Hsk, Htok. simpl fst. rewrite Hexample.
    reflexivity. }
  split; [|split; [|split; [|split]]].
  - intros ->. unfold Part000.parseCoinMarketCap. simpl.
    unfold MainGo.fetchCryptoPriceFromCoinMarketCap. rewrite Hget. simpl.
    rewrite Hscan. auto.
  - intros ->. unfold Part000.parseCoinMarketCap. simpl.
    unfold MainGo.fetchCryptoPriceFromCoinMarketCap. rewrite Hget. auto.
  - intros first more Hd. unfold Part000.parseCoinMarketCap, mainQuote. simpl.
    unfold MainGo.fetchCryptoPriceFromCoinMarketCap. rewrite Hget, Hd. auto.
  - intros text Hno. apply scanPrice_noToken; assumption.
  - intros. apply scanPrice_digits_prefix; assumption.
Qed.

Lemma C8_ticker_witness :
  MainGo.get (MainGo.World (fun _ => Response 200 (Some tickerBody)) (fun _ => 0))
    (Sprintf1 coinmarketcapAPI "bitcoin") = Response 200 (Some tickerBody)
  /\ decimalFloat "42000.50" = Some 42000.5%float
  /\ decimalFloat "" = None
  /\ MainGo.adapter decimalFloat "bitcoin"
       (MainGo.World (fun _ => Response 200 (Some tickerBody)) (fun _ => 0)) CoinMarketCap
     = [ESend (MainGo.mkResult 42000.5 "CoinMarketCap" 0); EDone]
  /\ scanPrice decimalFloat "abc" = 0%float
  /\ scanPrice decimalFloat "12abc" = scanPrice decimalFloat "12".
Proof.
  assert (H1 : MainGo.get (MainGo.World (fun _ => Response 200 (Some tickerBody))
                 (fun _ => 0)) (Sprintf1 coinmarketcapAPI "bitcoin")
               = Response 200 (Some tickerBody)) by reflexivity.
  assert (H2 : decimalFloat "42000.50" = Some 42000.5%float) by reflexivity.
  assert (H3 : decimalFloat "" = None) by reflexivity.
  split; [exact H1|]. split; [exact H2|]. split; [exact H3|].
  destruct (C8_coinmarketcap_extraction decimalFloat "bitcoin" _ _ _ H1 H2 H3)
    as (Ha & _ & _ & Hb & Hc).
  split; [apply Ha; reflexivity|]. split.
  - apply Hb. reflexivity.
  - apply (Hc "1"%char "2" "abc"); reflexivity.
Defined.

(** C9 (counterexample).  On a network on which every request fails, with
    the adapters completing in the same order in both programs, main.go
    returns the source "None" and the second file the source "CoinGecko",
    the name on the first quote it received. *)
Lemma C9_sources_differ :
  exists sM sP,
    MainGo.exec mainInOrder (MainGo.race decimalFloat "bitcoin" mainDead) = Some sM /\
    Part000.exec (Part000.adapter decimalFloat "bitcoin" p0Dead) p0InOrder Part000.init
      = Some sP /\
    map MainGo.Source (MainGo.sent sM) = map Part000.Source (Part000.sent sP) /\
    MainGo.main sM = MainGo.Returned (MainGo.mkResult 0 "None" 0) /\
    Part000.main sP = Part000.Returned (Part000.mkResult 0 "CoinGecko") /\
    MainGo.Source (MainGo.mkResult 0 "None" 0)
      <> Part000.Source (Part000.mkResult 0 "CoinGecko").
Proof.
  do 2 eexists. split; [vm_compute; reflexivity|]. split; [vm_compute; reflexivity|].
  repeat split. discriminate.
Qed.

(** C9 (amended).  Where the two programs agree.  Take the adapters of
    main.go on a network on which none of them sends a quote with price
    > 0, and for the second file any adapters that send one quote under
    their provider's name and call [wg.Done], with price 0 for a provider
    for which the adapter of main.go sends no price above 0 and with price
    0 for a cancelled request (the adapters of the second file as written
    are such: they always send price 0).  Then in every pair of races the
    two results have equal prices, both 0, and both callers report a
    failure; main.go returns [PriceResult{0, "None", 0}].  Their sources are
    never equal: the second file returns a quote under the name of a
    provider, or the zero value with the empty source. *)
Theorem C9_agree_on_failure_only
    (convertFloat : string -> option float) (crypto : string) (wM : MainGo.world)
    (progP : Provider -> bool -> list (effect Part000.PriceResult))
    (qn qa : Provider -> Part000.PriceResult)
    (HcP : p0Contract progP qn qa)
    (Hname : forall p, Part000.Source (qn p) = providerName p /\
                       Part000.Source (qa p) = providerName p)
    (Hrel : forall p,
       (forall r, In (ESend r) (MainGo.adapter convertFloat crypto wM p) ->
                  MainGo.candidate r = false) ->
       Part000.Price (qn p) = 0%float)
    (Hcancel : forall p, Part000.Price (qa p) = 0%float)
    (Hno : forall p r,
       In (ESend r) (MainGo.adapter convertFloat crypto wM p) ->
       MainGo.candidate r = false) :
  forall sM rM sP rP,
    MainGo.reachable (MainGo.adapter convertFloat crypto wM) sM ->
    MainGo.main sM = MainGo.Returned rM ->
    Part000.reachable progP sP ->
    Part000.main sP = Part000.Returned rP ->
    rM = MainGo.mkResult 0 "None" 0 /\
    Part000.Price rP = MainGo.Price rM /\
    MainGo.candidate rM = false /\
    Part000.candidate rP = false /\
    (rP = Part000.zeroResult \/ exists p, Part000.Source rP = providerName p) /\
    MainGo.Source rM <> Part000.Source rP.
Proof.
  intros sM rM sP rP HrM HmM HrP HmP.
  pose proof (main_adapter_contract convertFloat crypto wM) as HcM.
  destruct (main_all_fail _ _ _ _ HcM (main_race_all_fail _ _ _ Hno) HrM HmM) as (-> & _).
  assert (Horigin : rP = Part000.zeroResult
                    \/ exists p, Part000.Price rP = 0%float /\
                                 Part000.Source rP = providerName p).
  { destruct (p0_result_origin _ _ _ _ _ HcP HrP HmP) as [->|Hin]; [left; reflexivity|].
    right. destruct (p0_sent_origin _ _ _ _ _ HcP HrP Hin) as [p [->| ->]]; exists p.
    - split; [apply Hrel, Hno | apply Hname].
    - split; [apply Hcancel | apply Hname]. }
  split; [reflexivity|].
  destruct Horigin as [->|(p & Hprice & Hsrc)].
  - repeat split; [left; reflexivity | discriminate].
  - split; [exact Hprice|]. split; [reflexivity|].
    split; [unfold Part000.candidate; rewrite Hprice; reflexivity|].
    split; [right; exists p; exact Hsrc|].
    rewrite Hsrc. simpl. intros H. symmetry in H. revert H. apply providerName_not_None.
Qed.

(** The adapters of both files as written, on a network on which no
    request gets an answer; the second file runs into its timeout. *)
Lemma C9_dead_network_witness :
  p0Contract (Part000.adapter decimalFloat "bitcoin" p0Dead) p0Quote p0Quote
  /\ (forall p r,
        In (ESend r) (MainGo.adapter decimalFloat "bitcoin" mainDead p) ->
        MainGo.candidate r = false)
  /\ exists sM sP,
       MainGo.exec mainInOrder (MainGo.race decimalFloat "bitcoin" mainDead) = Some sM /\
       Part000.exec (Part000.adapter decimalFloat "bitcoin" p0Dead) p0TimedOut Part000.init
         = Some sP /\
       MainGo.main sM = MainGo.Returned (MainGo.mkResult 0 "None" 0) /\
       Part000.main sP = Part000.Returned Part000.zeroResult /\
       Part000.Price Part000.zeroResult = MainGo.Price (MainGo.mkResult 0 "None" 0) /\
       MainGo.Source (MainGo.mkResult 0 "None" 0) <> Part000.Source Part000.zeroResult.
Proof.
  assert (HcP : p0Contract (Part000.adapter decimalFloat "bitcoin" p0Dead) p0Quote p0Quote).
  { intros p; destruct p; split; reflexivity. }
  assert (Hname : forall p, Part000.Source (p0Quote p) = providerName p /\
                            Part000.Source (p0Quote p) = providerName p).
  { intros p; split; reflexivity. }
  assert (Hrel : forall p,
     (forall r, In (ESend r) (MainGo.adapter decimalFloat "bitcoin" mainDead p) ->
                MainGo.candidate r = false) ->
     Part000.Price (p0Quote p) = 0%float).
  { intros p _; reflexivity. }
  assert (Hcancel : forall p, Part000.Price (p0Quote p) = 0%float).
  { intros p; reflexivity. }
  assert (Hno : forall p r,
     In (ESend r) (MainGo.adapter decimalFloat "bitcoin" mainDead p) ->
     MainGo.candidate r = false).
  { intros p r H. destruct p; simpl in H;
      destruct H as [H|[H|[]]]; try discriminate; injection H as <-; reflexivity. }
  split; [exact HcP|]. split; [exact Hno|].
  assert (Hex : exists sM sP,
       MainGo.exec mainInOrder (MainGo.race decimalFloat "bitcoin" mainDead) = Some sM /\
       Part000.exec (Part000.adapter decimalFloat "bitcoin" p0Dead) p0TimedOut Part000.init
         = Some sP /\
       MainGo.main sM = MainGo.Returned (MainGo.mkResult 0 "None" 0) /\
       Part000.main sP = Part000.Returned Part000.zeroResult).
  { do 2 eexists. split; [vm_compute; reflexivity|].
    split; [vm_compute; reflexivity|]. split; reflexivity. }
  destruct Hex as (sM & sP & HeM & HeP & HmM & HmP).
  exists sM, sP.
  split; [exact HeM|]. split; [exact HeP|]. split; [exact HmM|]. split; [exact HmP|].
  destruct (C9_agree_on_failure_only decimalFloat "bitcoin" mainDead _ _ _
              HcP Hname Hrel Hcancel Hno
              sM _ sP _ (ex_intro _ _ HeM) HmM (ex_intro _ _ HeP) HmP)
    as (_ & Hprice & _ & _ & _ & Hsrc).
  split; [exact Hprice | exact Hsrc].
Defined.

(* ===================================================================== *)
(** * Further properties of the two orchestrators *)
(* ===================================================================== *)

(** X1.  The loop of main.go returns the first quote with price > 0 in
    the order of the sends on the channel, and [PriceResult{0, "None", 0}]
    when the channel history holds none; a returned candidate is the quote
    of one of the adapters. *)
Theorem X1_main_go_returns_first_candidate
    (prog : Provider -> list (effect MainGo.PriceResult))
    (q : Provider -> MainGo.PriceResult)
    (Hc : mainContract prog q) :
  forall s r, MainGo.reachable prog s -> MainGo.main s = MainGo.Returned r ->
    r = MainGo.firstCandidate (MainGo.sent s) /\
    (MainGo.candidate r = true -> exists p, r = q p).
Proof.
  intros s r Hr Hm. split.
  - eapply main_returns_first; eauto.
  - intros Hcand. eapply main_candidate_was_sent; eauto.
Qed.

Lemma X1_two_candidates_witness :
  mainContract (mainDeliver twoCandidates)
               (fun p => MainGo.mkResult (twoCandidates p) (providerName p) 0)
  /\ exists s,
       MainGo.exec mainTwoEarly (MainGo.init (mainDeliver twoCandidates)) = Some s /\
       MainGo.main s = MainGo.Returned (MainGo.mkResult 100 "CoinGecko" 0) /\
       MainGo.mkResult 100 "CoinGecko" 0 = MainGo.firstCandidate (MainGo.sent s).
Proof.
  assert (H1 : mainContract (mainDeliver twoCandidates)
                 (fun p => MainGo.mkResult (twoCandidates p) (providerName p) 0)).
  { intros p; reflexivity. }
  split; [exact H1|].
  assert (Hex : exists s,
      MainGo.exec mainTwoEarly (MainGo.init (mainDeliver twoCandidates)) = Some s /\
      MainGo.main s = MainGo.Returned (MainGo.mkResult 100 "CoinGecko" 0)).
  { eexists. split; [vm_compute; reflexivity|]. reflexivity. }
  destruct Hex as (s & He & Hm). exists s.
  split; [exact He|]. split; [exact Hm|].
  apply (X1_main_go_returns_first_candidate _ _ H1 s _ (ex_intro _ _ He) Hm).
Defined.

(** X2.  In the second file [fetchCryptoPrice] hands [json.Marshal] the
    method value [Decode], a func, which cannot be encoded: whatever the
    network answers, every adapter sends the price 0, and no race of the
    program returns a result with price > 0. *)
Theorem X2_second_file_never_finds_a_price
    (convertFloat : string -> option float) (crypto : string) (w : Part000.world) :
  (forall p c, Part000.adapter convertFloat crypto w p c
               = [ESend (Part000.mkResult 0 (providerName p)); EDone])
  /\ (forall s r, Part000.reachable (Part000.adapter convertFloat crypto w) s ->
                  Part000.main s = Part000.Returned r ->
                  Part000.Price r = 0%float /\ Part000.candidate r = false).
Proof.
  split.
  - intros p c. unfold Part000.adapter. apply p0_fetch_always.
  - intros s r Hr Hm.
    pose proof (p0_adapter_contract convertFloat crypto w) as Hc.
    destruct (p0_result_origin _ _ _ _ _ Hc Hr Hm) as [->|Hin]; [split; reflexivity|].
    destruct (p0_sent_origin _ _ _ _ _ Hc Hr Hin) as [p [->| ->]]; split; reflexivity.
Qed.

(** X3.  What the second file returns.  When its [select] took a quote:
    the first quote with price > 0 among those sent after it, and
    otherwise the quote taken.  After the timeout: the first quote with
    price > 0 of the whole channel history, and otherwise the zero value of
    [PriceResult]. *)
Theorem X3_second_file_result
    (prog : Provider -> bool -> list (effect Part000.PriceResult))
    (qn qa : Provider -> Part000.PriceResult)
    (Hc : p0Contract prog qn qa) :
  forall s r, Part000.reachable prog s -> Part000.main s = Part000.Returned r ->
    (timeout <= Part000.now s /\
     r = Part000.laterCandidate Part000.zeroResult (Part000.sent s))
    \/ (exists first rest, Part000.sent s = first :: rest /\
                           r = Part000.laterCandidate first rest).
Proof. intros s r. apply (p0_result _ _ _ s r Hc). Qed.

Lemma X3_two_candidates_witness :
  p0Contract (p0Deliver twoCandidates)
             (fun p => Part000.mkResult (twoCandidates p) (providerName p))
             (fun p => Part000.mkResult (twoCandidates p) (providerName p))
  /\ exists s,
       Part000.exec (p0Deliver twoCandidates) p0TwoEarly Part000.init = Some s /\
       Part000.main s = Part000.Returned (Part000.mkResult 99999 "CoinMarketCap") /\
       ((timeout <= Part000.now s /\
         Part000.mkResult 99999 "CoinMarketCap"
         = Part000.laterCandidate Part000.zeroResult (Part000.sent s))
        \/ (exists first rest, Part000.sent s = first :: rest /\
              Part000.mkResult 99999 "CoinMarketCap" = Part000.laterCandidate first rest)).
Proof.
  assert (H1 : p0Contract (p0Deliver twoCandidates)
                 (fun p => Part000.mkResult (twoCandidates p) (providerName p))
                 (fun p => Part000.mkResult (twoCandidates p) (providerName p))).
  { intros p; split; reflexivity. }
  split; [exact H1|].
  assert (Hex : exists s,
      Part000.exec (p0Deliver twoCandidates) p0TwoEarly Part000.init = Some s /\
      Part000.main s = Part000.Returned (Part000.mkResult 99999 "CoinMarketCap")).
  { eexists. split; [vm_compute; reflexivity|]. reflexivity. }
  destruct Hex as (s & He & Hm). exists s.
  split; [exact He|]. split; [exact Hm|].
  apply (X3_second_file_result _ _ _ H1 s _ (ex_intro _ _ He) Hm).
Defined.

Lemma p0_bounded prog qn qa acts s :
  p0Contract prog qn qa -> Part000.exec prog acts Part000.init = Some s ->
  forallb (fun a => negb (p0IsTick a)) acts = true ->
  (length acts <= 24)%nat.
Proof.
  intros Hc He Hall.
  assert (Hr : Part000.reachable prog Part000.init) by (exists []; reflexivity).
  pose proof (p0_bounded_from _ _ _ _ Hc _ _ Hr He Hall) as H.
  unfold p0Measure at 2 in H. simpl in H. lia.
Qed.

(** X4.  Both orchestrators terminate.  Apart from the passing of time a
    race of main.go has at most 20 steps and one of the second file at
    most 24; while the caller of main.go has not returned some goroutine
    can take a step; and the caller of the second file can take a step or
    is at its [select] before the deadline with an empty channel, where an
    adapter or the timer will move. *)
Theorem X4_races_terminate
    (progM : Provider -> list (effect MainGo.PriceResult))
    (qM : Provider -> MainGo.PriceResult)
    (progP : Provider -> bool -> list (effect Part000.PriceResult))
    (qn qa : Provider -> Part000.PriceResult)
    (HcM : mainContract progM qM) (HcP : p0Contract progP qn qa) :
  (forall acts s, MainGo.exec acts (MainGo.init progM) = Some s ->
     forallb (fun a => negb (mainIsTick a)) acts = true -> (length acts <= 20)%nat)
  /\ (forall s, MainGo.reachable progM s -> MainGo.main s = MainGo.Ranging ->
        exists a s', mainIsTick a = false /\ MainGo.step a s = Some s')
  /\ (forall acts s, Part000.exec progP acts Part000.init = Some s ->
        forallb (fun a => negb (p0IsTick a)) acts = true -> (length acts <= 24)%nat)
  /\ (forall s, Part000.reachable progP s ->
        (exists r, Part000.main s = Part000.Returned r)
        \/ (exists a s', p0Internal a = true /\ Part000.step progP a s = Some s')
        \/ (Part000.main s = Part000.Selecting /\ Part000.buf s = [] /\
            Part000.now s < timeout)).
Proof.
  split; [|split; [|split]].
  - intros acts s He Hall. eapply main_bounded; eauto.
  - intros s Hr Hm. eapply main_enabled; eauto using main_invariant.
  - intros acts s He Hall. eapply p0_bounded; eauto.
  - intros s Hr. eapply p0_enabled. eapply p0_invariant; eauto.
Qed.

Lemma X4_dead_network_witness :
  mainContract (MainGo.adapter decimalFloat "bitcoin" mainDead)
               (mainQuote decimalFloat "bitcoin" mainDead)
  /\ p0Contract (Part000.adapter decimalFloat "bitcoin" p0Dead) p0Quote p0Quote
  /\ (length mainInOrder <= 20)%nat
  /\ (length p0InOrder <= 24)%nat.
Proof.
  assert (H1 : mainContract (MainGo.adapter decimalFloat "bitcoin" mainDead)
                            (mainQuote decimalFloat "bitcoin" mainDead)).
  { intros p; destruct p; reflexivity. }
  assert (H2 : p0Contract (Part000.adapter decimalFloat "bitcoin" p0Dead) p0Quote p0Quote).
  { intros p; destruct p; split; reflexivity. }
  split; [exact H1|]. split; [exact H2|].
  destruct (X4_races_terminate _ _ _ _ _ H1 H2) as (Ha & _ & Hb & _).
  split.
  - assert (Hex : exists s,
        MainGo.exec mainInOrder (MainGo.init (MainGo.adapter decimalFloat "bitcoin" mainDead))
        = Some s) by (eexists; vm_compute; reflexivity).
    destruct Hex as (s & He). apply (Ha _ s He). reflexivity.
  - assert (Hex : exists s,
        Part000.exec (Part000.adapter decimalFloat "bitcoin" p0Dead) p0InOrder Part000.init
        = Some s) by (eexists; vm_compute; reflexivity).
    destruct Hex as (s & He). apply (Hb _ s He). reflexivity.
Defined.

(* ===================================================================== *)
(** * The command, the third provider, the goroutines after the return *)
(* ===================================================================== *)

(** What a race of main.go itself returns: [noResult], or the quote of
    one adapter, a candidate. *)
Lemma main_race_result cf crypto w r :
  MainGo.returns (MainGo.adapter cf crypto w) r ->
  r = MainGo.noResult
  \/ (exists p, r = mainQuote cf crypto w p /\ MainGo.candidate r = true).
Proof.
  intros (s & Hr & Hm).
  pose proof (main_adapter_contract cf crypto w) as Hc.
  destruct (MainGo.candidate r) eqn:Hcand.
  - right. destruct (main_candidate_was_sent _ _ _ _ Hc Hr Hm Hcand) as [p ->]. eauto.
  - left. eapply main_failure_after_all; eauto.
Qed.

(** X5.  The command of main.go.  Without an argument it prints the usage
    line (and the race is not run).  With arguments it looks at the first
    one only and prints one line: the failure line when the race returned
    [PriceResult{0, "None", 0}], and otherwise the price line with the
    price, the name and the measured duration of one and the same adapter,
    whose price is above 0; the source "None" is never printed. *)
Theorem X5_main_go_command_output
    (convertFloat : string -> option float) (w : MainGo.world)
    (fetch : string -> MainGo.PriceResult) (crypto : string) (rest : list string)
    (Hfetch : MainGo.returns (MainGo.adapter convertFloat crypto w) (fetch crypto)) :
  MainGo.rootCmdRun fetch []
  = [MainGo.Println "Please specify a cryptocurrency (e.g., bitcoin, ethereum)"]
  /\ MainGo.rootCmdRun fetch (crypto :: rest) = MainGo.rootCmdRun fetch [crypto]
  /\ ((fetch crypto = MainGo.noResult /\
       MainGo.rootCmdRun fetch (crypto :: rest)
       = [MainGo.Println "Failed to fetch the price"])
      \/ (exists p,
            PrimFloat.ltb 0 (MainGo.Price (mainQuote convertFloat crypto w p)) = true /\
            MainGo.rootCmdRun fetch (crypto :: rest)
            = [MainGo.Printf
                 "The current price of %s is $%.2f (Source: %s, Duration: %s)\n"
                 crypto (MainGo.Price (mainQuote convertFloat crypto w p))
                 (providerName p) (MainGo.elapsed w p)])).
Proof.
  split; [reflexivity|]. split; [reflexivity|].
  destruct (main_race_result _ _ _ _ Hfetch) as [H|(p & H & Hcand)].
  - left. split; [exact H|]. unfold MainGo.rootCmdRun. rewrite H. reflexivity.
  - right. exists p. rewrite H in Hcand. split; [exact Hcand|].
    unfold MainGo.rootCmdRun. rewrite H, Hcand.
    destruct (main_quote_source convertFloat crypto w p) as [-> ->]. reflexivity.
Qed.

Lemma X5_good_network_witness :
  MainGo.returns (MainGo.adapter decimalFloat "bitcoin" mainGood)
                 (MainGo.mkResult 42000.5 "CoinGecko" 0)
  /\ MainGo.rootCmdRun (fun _ => MainGo.mkResult 42000.5 "CoinGecko" 0) ["bitcoin"; "extra"]
     = [MainGo.Printf "The current price of %s is $%.2f (Source: %s, Duration: %s)\n"
                      "bitcoin" 42000.5 "CoinGecko" 0].
Proof.
  assert (H : MainGo.returns (MainGo.adapter decimalFloat "bitcoin" mainGood)
                             (MainGo.mkResult 42000.5 "CoinGecko" 0)).
  { exists (match MainGo.exec mainLateSecond (MainGo.race decimalFloat "bitcoin" mainGood)
            with Some s => s | None => MainGo.init (fun _ => []) end).
    split; [exists mainLateSecond; vm_compute; reflexivity | vm_compute; reflexivity]. }
  split; [exact H|].
  destruct (X5_main_go_command_output decimalFloat mainGood
              (fun _ => MainGo.mkResult 42000.5 "CoinGecko" 0) "bitcoin" ["extra"] H)
    as (_ & _ & [[Hno _]|(p & _ & Hout)]).
  - discriminate Hno.
  - reflexivity.
Defined.

(** X6.  The command of the second file.  Without an argument it prints
    the usage line; with an argument, whatever the network answers and
    however the race runs, it prints the failure line: the program never
    prints a price. *)
Theorem X6_second_file_command_always_fails
    (convertFloat : string -> option float) (w : Part000.world)
    (fetch : string -> Part000.PriceResult) (crypto : string) (rest : list string)
    (Hfetch : Part000.returns (Part000.adapter convertFloat crypto w) (fetch crypto)) :
  Part000.rootCmdRun fetch []
  = [Part000.Println "Please specify a cryptocurrency (e.g., bitcoin, ethereum)"]
  /\ Part000.rootCmdRun fetch (crypto :: rest)
     = [Part000.Println "Failed to fetch the price"].
Proof.
  split; [reflexivity|].
  destruct Hfetch as (s & Hr & Hm).
  pose proof (p0_adapter_contract convertFloat crypto w) as Hc.
  assert (Hcand : Part000.candidate (fetch crypto) = false).
  { destruct (p0_result_origin _ _ _ _ _ Hc Hr Hm) as [->|Hin]; [reflexivity|].
    destruct (p0_sent_origin _ _ _ _ _ Hc Hr Hin) as [p [->| ->]]; reflexivity. }
  unfold Part000.rootCmdRun. rewrite Hcand. reflexivity.
Qed.

Lemma X6_answering_network_witness :
  Part000.returns (Part000.adapter decimalFloat "bitcoin" (Part000.World bitcoinNet 0%nat))
                  (Part000.mkResult 0 "CoinGecko")
  /\ Part000.rootCmdRun (fun _ => Part000.mkResult 0 "CoinGecko") ["bitcoin"]
     = [Part000.Println "Failed to fetch the price"].
Proof.
  assert (H : Part000.returns
                (Part000.adapter decimalFloat "bitcoin" (Part000.World bitcoinNet 0%nat))
                (Part000.mkResult 0 "CoinGecko")).
  { exists (match Part000.exec
                    (Part000.adapter decimalFloat "bitcoin" (Part000.World bitcoinNet 0%nat))
                    p0InOrder Part000.init
            with Some s => s | None => Part000.init end).
    split; [exists p0InOrder; vm_compute; reflexivity | vm_compute; reflexivity]. }
  split; [exact H|].
  apply (X6_second_file_command_always_fails decimalFloat (Part000.World bitcoinNet 0%nat)
           (fun _ => Part000.mkResult 0 "CoinGecko") "bitcoin" [] H).
Defined.

Lemma decodeMembers_single {A} (dec : A -> json -> option A) name pre k v post cur :
  noField name pre -> fieldMatch name k = true -> noField name post ->
  decodeMembers dec name (pre ++ (k, v) :: post) cur = dec cur v.
Proof.
  intros Hpre Hk Hpost. induction Hpre as [|[k' v'] pre Hk' _ IH]; simpl.
  - rewrite Hk. destruct (dec cur v) as [x|]; [|reflexivity].
    apply decodeMembers_noField. exact Hpost.
  - simpl in Hk'. rewrite Hk'. exact IH.
Qed.

(** X7.  The third provider.  main.go and [parseCryptoCompare] decode
    the body as one object and take its [USD] field.  An object with one
    member whose key is USD, in any case of the letters, holding the number
    [f] gives the price [f]; an object without such a member, like the
    error answer of the provider, gives the price 0, and
    [parseCryptoCompare] reports no error for it; a member USD holding a
    string gives price 0 in main.go and an error in [parseCryptoCompare]. *)
Theorem X7_cryptocompare_extraction
    (convertFloat : string -> option float) (crypto : string) (w : MainGo.world)
    (status : Z) (data : body)
    (Hget : MainGo.get w (Sprintf1 cryptocompareAPI crypto) = Response status data) :
  (forall pre k f post,
     data = Some (JObj (pre ++ (k, JNum f) :: post)) ->
     noField "USD" pre -> fieldMatch "USD" k = true -> noField "USD" post ->
     MainGo.adapter convertFloat crypto w CryptoCompare
     = [ESend (MainGo.mkResult f "CryptoCompare" (MainGo.elapsed w CryptoCompare)); EDone]
     /\ Part000.parseCryptoCompare data = (f, false))
  /\ (forall members, data = Some (JObj members) -> noField "USD" members ->
        MainGo.adapter convertFloat crypto w CryptoCompare
        = [ESend (MainGo.mkResult 0 "CryptoCompare" (MainGo.elapsed w CryptoCompare)); EDone]
        /\ Part000.parseCryptoCompare data = (0%float, false))
  /\ (forall pre k text post,
        data = Some (JObj (pre ++ (k, JStr text) :: post)) ->
        noField "USD" pre -> fieldMatch "USD" k = true -> noField "USD" post ->
        MainGo.adapter convertFloat crypto w CryptoCompare
        = [ESend (MainGo.mkResult 0 "CryptoCompare" (MainGo.elapsed w CryptoCompare)); EDone]
        /\ Part000.parseCryptoCompare data = (0%float, true)).
Proof.
  split; [|split].
  - intros pre k f post -> Hpre Hk Hpost.
    unfold Part000.parseCryptoCompare. simpl.
    unfold MainGo.fetchCryptoPriceFromCryptoCompare. rewrite Hget. simpl.
    unfold decodeCryptoCompareResponse, decodeStruct.
    rewrite (decodeMembers_single _ _ _ _ _ _ _ Hpre Hk Hpost). simpl. auto.
  - intros members -> Hno.
    unfold Part000.parseCryptoCompare. simpl.
    unfold MainGo.fetchCryptoPriceFromCryptoCompare. rewrite Hget. simpl.
    unfold decodeCryptoCompareResponse, decodeStruct.
    rewrite (decodeMembers_noField _ _ _ _ Hno). auto.
  - intros pre k text post -> Hpre Hk Hpost.
    unfold Part000.parseCryptoCompare. simpl.
    unfold MainGo.fetchCryptoPriceFromCryptoCompare. rewrite Hget. simpl.
    unfold decodeCryptoCompareResponse, decodeStruct.
    rewrite (decodeMembers_single _ _ _ _ _ _ _ Hpre Hk Hpost). simpl. auto.
Qed.

Lemma X7_good_network_witness :
  MainGo.get mainGood (Sprintf1 cryptocompareAPI "bitcoin")
  = Response 200 (Some (JObj [("USD", JNum 41000.5)]))
  /\ MainGo.adapter decimalFloat "bitcoin" mainGood CryptoCompare
     = [ESend (MainGo.mkResult 41000.5 "CryptoCompare" 0); EDone]
  /\ Part000.parseCryptoCompare (Some (JObj [("USD", JNum 41000.5)])) = (41000.5%float, false).
Proof.
  assert (H : MainGo.get mainGood (Sprintf1 cryptocompareAPI "bitcoin")
              = Response 200 (Some (JObj [("USD", JNum 41000.5)]))) by reflexivity.
  split; [exact H|].
  destruct (X7_cryptocompare_extraction decimalFloat "bitcoin" mainGood _ _ H) as (Ha & _).
  apply (Ha [] "USD" 41000.5%float []); try reflexivity; constructor.
Defined.

(** X8.  The errors of the three parse functions of the second file.
    [parseCoingecko] reports an error exactly when the body does not decode
    or decodes to a map without entries, [parseCoinMarketCap] exactly when
    the body does not decode or decodes to an empty list (never for the
    price text, whose scan error is dropped), and [parseCryptoCompare]
    exactly when the body does not decode; whenever one of them reports an
    error the price it returns is 0. *)
Theorem X8_parse_errors (convertFloat : string -> option float) (pick : nat) (data : body) :
  (snd (Part000.parseCoingecko pick data) = true
   <-> unmarshalPriceMap data = None \/ unmarshalPriceMap data = Some ∅)
  /\ (snd (Part000.parseCoinMarketCap convertFloat data) = true
      <-> unmarshalTicker data = None \/ unmarshalTicker data = Some [])
  /\ (snd (Part000.parseCryptoCompare data) = true <-> unmarshalCryptoCompare data = None)
  /\ (snd (Part000.parseCoingecko pick data) = true ->
      fst (Part000.parseCoingecko pick data) = 0%float)
  /\ (snd (Part000.parseCoinMarketCap convertFloat data) = true ->
      fst (Part000.parseCoinMarketCap convertFloat data) = 0%float)
  /\ (snd (Part000.parseCryptoCompare data) = true ->
      fst (Part000.parseCryptoCompare data) = 0%float).
Proof.
  unfold Part000.parseCoingecko, Part000.parseCoinMarketCap, Part000.parseCryptoCompare.
  split; [|split; [|split; [|split; [|split]]]].
  - destruct (unmarshalPriceMap data) as [m|]; [|simpl; tauto].
    pose proof (rangeFirst_elem pick m) as H.
    destruct (Part000.rangeFirst pick m) as [[k v]|]; simpl.
    + split; [discriminate|]. intros [Hn|Hs]; [discriminate|].
      injection Hs as ->. rewrite lookup_empty in H. discriminate.
    + subst m. tauto.
  - destruct (unmarshalTicker data) as [[|x l]|]; simpl; try tauto.
    split; [discriminate|]. intros [H|H]; discriminate.
  - destruct (unmarshalCryptoCompare data); simpl; [|tauto].
    split; discriminate.
  - destruct (unmarshalPriceMap data) as [m|]; [|reflexivity].
    destruct (Part000.rangeFirst pick m) as [[k v]|]; simpl; [discriminate|reflexivity].
  - destruct (unmarshalTicker data) as [[|x l]|]; simpl; try reflexivity. discriminate.
  - destruct (unmarshalCryptoCompare data); simpl; [discriminate|reflexivity].
Qed.

(** An adapter or the closing goroutine of main.go can move until all
    adapters have finished and the channel is closed. *)
Lemma main_helper_enabled q s :
  mainInv q s ->
  (MainGo.finished s /\ MainGo.closed s = true)
  \/ exists a s', mainIsHelper a = true /\ MainGo.step a s = Some s'.
Proof.
  intros Hinv.
  pose proof Hinv as [Hpanic Hslot Hwg Hclosed Hcount Hfrom Hview].
  destruct (MainGo.closed s) eqn:Ec; [left; auto|].
  right.
  destruct (MainGo.wg s =? 0) eqn:Ew.
  { exists MainGo.Close. unfold MainGo.step. rewrite Hpanic, Ec, Ew. eauto. }
  assert (Hbusy : exists p, tget p (MainGo.adapters s) <> []).
  { destruct (onCG (MainGo.adapters s)) eqn:E1; [|exists CoinGecko; simpl; congruence].
    destruct (onCMC (MainGo.adapters s)) eqn:E2; [|exists CoinMarketCap; simpl; congruence].
    destruct (onCC (MainGo.adapters s)) eqn:E3; [|exists CryptoCompare; simpl; congruence].
    simpl in Hwg. apply Z.eqb_neq in Ew. lia. }
  destruct Hbusy as [p Hp]. exists (MainGo.Run p).
  destruct (Hslot p) as [E|[E|E]]; [| |congruence].
  - destruct (main_send_enabled _ _ _ _ _ Hinv E) as (s' & Hs & _). eauto.
  - unfold MainGo.step. rewrite Hpanic, E.
    destruct (MainGo.wg s <=? 0) eqn:Ew'; [|eauto].
    apply Z.leb_le in Ew'.
    pose proof (mainBusy_range (onCG (MainGo.adapters s))).
    pose proof (mainBusy_range (onCMC (MainGo.adapters s))).
    pose proof (mainBusy_range (onCC (MainGo.adapters s))).
    destruct p; simpl in E; rewrite E in *; simpl in *; lia.
Qed.

Lemma main_helper_keeps_caller a s s' :
  mainIsHelper a = true -> MainGo.step a s = Some s' -> MainGo.main s' = MainGo.main s.
Proof.
  intros Ha Hs. unfold MainGo.step in Hs.
  destruct (MainGo.panicked s); [discriminate|].
  destruct a as [d|p| |]; try discriminate.
  - destruct (tget p (MainGo.adapters s)) as [|[r|] k]; [discriminate| |].
    + destruct (MainGo.closed s); [injection Hs as <-; reflexivity|].
      destruct (length (MainGo.buf s) <? capacity)%nat; [|discriminate].
      injection Hs as <-. reflexivity.
    + destruct (MainGo.wg s <=? 0); injection Hs as <-; reflexivity.
  - destruct (MainGo.closed s); [discriminate|].
    destruct (MainGo.wg s =? 0); [|discriminate]. injection Hs as <-. reflexivity.
Qed.

(** X9.  main.go leaves no goroutine stuck.  From every state of a race,
    also after the caller has returned with a candidate and reads the
    channel no more, the adapters and the closing goroutine can run to
    their end by themselves: some schedule of their steps alone leads to a
    state in which all three adapters have finished and the channel is
    closed, without a panic, and leaves the caller as it was. *)
Theorem X9_main_go_goroutines_finish
    (prog : Provider -> list (effect MainGo.PriceResult))
    (q : Provider -> MainGo.PriceResult)
    (Hc : mainContract prog q) :
  forall s, MainGo.reachable prog s ->
    exists acts s',
      forallb mainIsHelper acts = true /\
      MainGo.exec acts s = Some s' /\
      MainGo.finished s' /\ MainGo.closed s' = true /\
      MainGo.panicked s' = false /\ MainGo.main s' = MainGo.main s.
Proof.
  intros s. remember (mainMeasure s) as n eqn:Hn.
  revert s Hn. induction n as [n IH] using lt_wf_ind. intros s Hn Hr.
  pose proof (main_invariant _ _ _ Hc Hr) as Hinv.
  destruct (main_helper_enabled _ _ Hinv) as [[Hf Hcl]|(a & s1 & Ha & Hs)].
  - exists [], s. repeat split; auto. apply (mi_panic _ _ Hinv).
  - pose proof (main_reachable_step _ _ _ _ Hr Hs) as Hr1.
    pose proof (mi_panic _ _ (main_invariant _ _ _ Hc Hr1)) as Hp1.
    assert (Htick : mainIsTick a = false) by (destruct a; simpl in *; congruence).
    pose proof (main_step_decreases _ _ _ Hs Htick Hp1) as Hlt.
    destruct (IH (mainMeasure s1) ltac:(lia) s1 eq_refl Hr1)
      as (acts & s2 & Hall & He & Hfin & Hcl & Hp & Hm).
    exists (a :: acts), s2. simpl. rewrite Hs, Ha.
    repeat split; auto.
    rewrite Hm. eapply main_helper_keeps_caller; eauto.
Qed.

Lemma X9_after_return_witness :
  mainContract (mainDeliver twoCandidates)
               (fun p => MainGo.mkResult (twoCandidates p) (providerName p) 0)
  /\ exists s,
       MainGo.exec [MainGo.Run CoinGecko; MainGo.Recv] (MainGo.init (mainDeliver twoCandidates))
       = Some s /\
       MainGo.main s = MainGo.Returned (MainGo.mkResult 100 "CoinGecko" 0) /\
       exists acts s',
         forallb mainIsHelper acts = true /\ MainGo.exec acts s = Some s' /\
         MainGo.finished s' /\ MainGo.closed s' = true /\
         MainGo.panicked s' = false /\ MainGo.main s' = MainGo.main s.
Proof.
  assert (H1 : mainContract (mainDeliver twoCandidates)
                 (fun p => MainGo.mkResult (twoCandidates p) (providerName p) 0)).
  { intros p; reflexivity. }
  split; [exact H1|].
  assert (Hex : exists s,
      MainGo.exec [MainGo.Run CoinGecko; MainGo.Recv] (MainGo.init (mainDeliver twoCandidates))
      = Some s /\
      MainGo.main s = MainGo.Returned (MainGo.mkResult 100 "CoinGecko" 0)).
  { eexists. split; [vm_compute; reflexivity|]. reflexivity. }
  destruct Hex as (s & He & Hm). exists s.
  split; [exact He|]. split; [exact Hm|].
  apply (X9_main_go_goroutines_finish _ _ H1 s (ex_intro _ _ He)).
Defined.

(** Every adapter of main.go that has sent has its quote in the history. *)
Lemma main_delivered prog q s :
  mainContract prog q -> MainGo.reachable prog s -> mainDelivered q s.
Proof.
  intros Hc Hr.
  assert (H : mainInv q s /\ mainDelivered q s); [|apply H].
  revert s Hr. apply main_reachable_ind.
  - split; [apply mainInv_init, Hc|].
    intros p Hp. exfalso. apply Hp. unfold MainGo.init. simpl.
    rewrite tget_tinit. apply Hc.
  - intros s a s' [Hinv Hd] Hs. split; [eapply mainInv_step; eauto|].
    pose proof Hinv as [Hpanic Hslot _ _ _ _ _].
    unfold MainGo.step in Hs. rewrite Hpanic in Hs.
    intros p'.
    destruct a as [d|p| |].
    + destruct (0 <=? d); [|discriminate]. injection Hs as <-. apply Hd.
    + destruct (tget p (MainGo.adapters s)) as [|[r|] k] eqn:E; [discriminate| |].
      * pose proof (Hslot p) as Hp. rewrite E in Hp. apply mainSlot_send in Hp as [-> ->].
        destruct (MainGo.closed s); [injection Hs as <-; apply Hd|].
        destruct (length (MainGo.buf s) <? capacity)%nat; [|discriminate].
        injection Hs as <-. simpl. intros Hne. apply in_or_app.
        destruct (decide (p = p')) as [<-|Hpp].
        -- right. left. reflexivity.
        -- left. apply Hd. rewrite tget_tset_other in Hne by exact Hpp. exact Hne.
      * pose proof (Hslot p) as Hp. rewrite E in Hp. apply mainSlot_done in Hp as ->.
        destruct (MainGo.wg s <=? 0); [injection Hs as <-; apply Hd|].
        injection Hs as <-. simpl. intros Hne. apply Hd.
        destruct (decide (p = p')) as [<-|Hpp].
        -- rewrite E. discriminate.
        -- rewrite tget_tset_other in Hne by exact Hpp. exact Hne.
    + destruct (MainGo.closed s); [discriminate|].
      destruct (MainGo.wg s =? 0); [|discriminate]. injection Hs as <-. apply Hd.
    + destruct (MainGo.main s); [|discriminate].
      destruct (MainGo.buf s).
      * destruct (MainGo.closed s); [|discriminate]. injection Hs as <-. apply Hd.
      * injection Hs as <-. apply Hd.
Qed.

(** X10.  main.go misses no price.  When the quote of at least one
    adapter has a price above 0, a race never returns
    [PriceResult{0, "None", 0}]: whatever the order of completion, what it
    returns is a candidate, the quote of one of the adapters. *)
Theorem X10_main_go_misses_no_candidate
    (prog : Provider -> list (effect MainGo.PriceResult))
    (q : Provider -> MainGo.PriceResult) (p0 : Provider)
    (Hc : mainContract prog q)
    (Hp0 : MainGo.candidate (q p0) = true) :
  forall s r, MainGo.reachable prog s -> MainGo.main s = MainGo.Returned r ->
    MainGo.candidate r = true /\ exists p, r = q p.
Proof.
  intros s r Hr Hm.
  destruct (MainGo.candidate r) eqn:Hcand.
  - split; [reflexivity|]. eapply main_candidate_was_sent; eauto.
  - exfalso.
    destruct (main_invariant _ _ _ Hc Hr) as [_ _ _ Hclosed _ _ [consumed [Hsent Hmain]]].
    rewrite Hm in Hmain.
    destruct Hmain as [[H _]|(_ & Hcl & Hbuf & Hno)]; [congruence|].
    pose proof (main_delivered _ _ _ Hc Hr p0) as Hd.
    assert (Hin : In (q p0) (MainGo.sent s)).
    { apply Hd. rewrite (Hclosed Hcl p0). discriminate. }
    rewrite Hsent, Hbuf, app_nil_r in Hin.
    unfold mainNoCandidate in Hno. rewrite Forall_forall in Hno.
    apply list_elem_of_In in Hin. apply Hno in Hin. congruence.
Qed.

Lemma X10_late_candidates_witness :
  mainContract (mainDeliver lateCandidates)
               (fun p => MainGo.mkResult (lateCandidates p) (providerName p) 0)
  /\ MainGo.candidate (MainGo.mkResult (lateCandidates CryptoCompare)
                         (providerName CryptoCompare) 0) = true
  /\ exists s,
       MainGo.exec mainFirstFails (MainGo.init (mainDeliver lateCandidates)) = Some s /\
       MainGo.main s = MainGo.Returned (MainGo.mkResult 41000 "CoinMarketCap" 0) /\
       MainGo.candidate (MainGo.mkResult 41000 "CoinMarketCap" 0) = true.
Proof.
  assert (H1 : mainContract (mainDeliver lateCandidates)
                 (fun p => MainGo.mkResult (lateCandidates p) (providerName p) 0)).
  { intros p; reflexivity. }
  assert (H2 : MainGo.candidate (MainGo.mkResult (lateCandidates CryptoCompare)
                                   (providerName CryptoCompare) 0) = true) by reflexivity.
  split; [exact H1|]. split; [exact H2|].
  assert (Hex : exists s,
      MainGo.exec mainFirstFails (MainGo.init (mainDeliver lateCandidates)) = Some s /\
      MainGo.main s = MainGo.Returned (MainGo.mkResult 41000 "CoinMarketCap" 0)).
  { eexists. split; [vm_compute; reflexivity|]. reflexivity. }
  destruct Hex as (s & He & Hm). exists s.
  split; [exact He|]. split; [exact Hm|].
  apply (X10_main_go_misses_no_candidate _ _ CryptoCompare H1 H2 s _ (ex_intro _ _ He) Hm).
Defined.

(** X11.  The second file can miss a price.  Its [select] takes the
    first quote received, candidate or not, and cancels the context; the
    requests still in flight then end with the error of [Do] and their
    adapters send price 0.  So for every provider [p], when the quotes of
    cancelled requests are no candidates, some race returns the quote of
    [p] as the network gave it, also when that quote has no price and the
    two other providers would have answered with one: the channel has
    carried the quote of [p] and the two quotes of the cancelled
    requests, nothing else. *)
Theorem X11_second_file_first_quote_cancels_the_rest
    (prog : Provider -> bool -> list (effect Part000.PriceResult))
    (qn qa : Provider -> Part000.PriceResult) (p : Provider)
    (Hc : p0Contract prog qn qa)
    (Hqa : forall p', Part000.candidate (qa p') = false) :
  exists s,
    Part000.exec prog (p0FirstThenCancel p) Part000.init = Some s /\
    Part000.main s = Part000.Returned (qn p) /\
    Part000.cancelled s = true /\
    Part000.finished s /\
    Part000.sent s = [qn p; qa (fst (others p)); qa (snd (others p))].
Proof.
  destruct (Hc CoinGecko) as [E1 F1].
  destruct (Hc CoinMarketCap) as [E2 F2].
  destruct (Hc CryptoCompare) as [E3 F3].
  pose proof (Hqa CoinGecko) as Q1.
  pose proof (Hqa CoinMarketCap) as Q2.
  pose proof (Hqa CryptoCompare) as Q3.
  destruct p;
    do 4 (simpl; rewrite ?E1, ?E2, ?E3, ?F1, ?F2, ?F3, ?Q1, ?Q2, ?Q3);
    (eexists; split; [reflexivity|]);
    (split; [reflexivity|]); (split; [reflexivity|]);
    (split; [intros []; reflexivity | reflexivity]).
Qed.

Lemma X11_late_candidates_witness :
  exists s,
    Part000.exec (p0DeliverOrCancel lateCandidates) (p0FirstThenCancel CoinGecko)
                 Part000.init = Some s /\
    Part000.main s = Part000.Returned (Part000.mkResult 0 "CoinGecko") /\
    Part000.cancelled s = true /\
    Part000.finished s /\
    Part000.sent s = [Part000.mkResult 0 "CoinGecko"; Part000.mkResult 0 "CoinMarketCap";
                      Part000.mkResult 0 "CryptoCompare"].
Proof.
  apply (X11_second_file_first_quote_cancels_the_rest
           (p0DeliverOrCancel lateCandidates)
           (fun p => Part000.mkResult (lateCandidates p) (providerName p))
           (fun p => Part000.mkResult 0 (providerName p))
           CoinGecko).
  - intros p. split; reflexivity.
  - intros p'. reflexivity.
Defined.
